(** * movedata: the connection layer, the batch transfer engine and the
      capacity adapter of the Cosmos DB migration tool, embedded in Rocq.

    Sources embedded here:
    - [src/config.py]              ([Config])
    - [src/connection_manager.py]  ([ConnectionManager])
    - [src/migration_service.py]   ([MigrationService])
    - [src/cosmos_ru_manager.py]   ([CosmosDBRUManager])

    Python integers are [Z], Python floats that hold durations and scores
    are exact rationals [Q] (binary64 rounding is not modelled; the
    overflow of the delays of the connection loop is), [None] is an
    [option], a raised exception is the [Raise] case of [result].
    Every call that leaves the process is explicit: connecting goes
    through an environment whose answers are indexed by the number of the
    try, the clock and the closed clients are recorded in a trace, and
    the driver is an interface of state-passing calls that may raise. *)

From Stdlib Require Import List String Ascii ZArith QArith Lia Bool Arith.
From Stdlib Require Import DecimalString.
Import ListNotations.

Open Scope string_scope.

(** ** Python values shared by all modules *)

(** [str(n)] for a Python integer. *)
Definition str_int (z : Z) : string := NilZero.string_of_int (Z.to_int z).

(** [needle in haystack] on strings. *)
Fixpoint contains (needle haystack : string) : bool :=
  if prefix needle haystack then true
  else match haystack with
       | EmptyString => false
       | String _ rest => contains needle rest
       end.

(** [x in xs] on a list of strings. *)
Definition str_in (x : string) (xs : list string) : bool :=
  existsb (String.eqb x) xs.

(** The counters a bulk write reports, as a dictionary of integers read
    with [.get(key, 0)]. *)
Definition IntDict := list (string * Z).

Fixpoint get_int (d : IntDict) (key : string) (default : Z) : Z :=
  match d with
  | [] => default
  | (k, v) :: rest => if String.eqb k key then v else get_int rest key default
  end.

(** One entry of [writeErrors]. *)
Record WriteError := mkWriteError {
  we_index : nat;
  we_errmsg : string
}.

(** [BulkWriteError.details]: a dictionary.  Its integer entries are kept
    in [bd_counts]; the two entries the code asks for by name,
    ['writeResult'] (a nested dictionary) and ['writeErrors'] (a list), are
    [None] when the key is absent. *)
Record BulkDetails := mkBulkDetails {
  bd_counts : IntDict;
  bd_writeResult : option IntDict;
  bd_writeErrors : option (list WriteError)
}.

(** ** Exceptions

    The classes of [pymongo.errors] the code names, with their places in
    the class hierarchy, and the built-in exceptions it raises or lets
    through. *)
Inductive PyExc :=
| ConnectionFailure (msg : string)            (* PyMongoError *)
| ServerSelectionTimeoutError (msg : string)  (* ConnectionFailure *)
| OperationFailure (msg : string)             (* PyMongoError *)
| BulkWriteError (details : BulkDetails)      (* OperationFailure *)
| CollectionInvalid (msg : string)            (* PyMongoError *)
| NotImplementedError (msg : string)          (* builtin *)
| ValueError (msg : string)                   (* builtin *)
| OtherException (msg : string).              (* any other Exception *)

(** [isinstance(e, ConnectionFailure)]. *)
Definition is_ConnectionFailure (e : PyExc) : bool :=
  match e with
  | ConnectionFailure _ | ServerSelectionTimeoutError _ => true
  | _ => false
  end.

(** [isinstance(e, ServerSelectionTimeoutError)]. *)
Definition is_ServerSelectionTimeoutError (e : PyExc) : bool :=
  match e with
  | ServerSelectionTimeoutError _ => true
  | _ => false
  end.

(** [isinstance(e, OperationFailure)]. *)
Definition is_OperationFailure (e : PyExc) : bool :=
  match e with
  | OperationFailure _ | BulkWriteError _ => true
  | _ => false
  end.

(** [isinstance(e, PyMongoError)]: every driver error. *)
Definition is_PyMongoError (e : PyExc) : bool :=
  match e with
  | ConnectionFailure _ | ServerSelectionTimeoutError _
  | OperationFailure _ | BulkWriteError _ | CollectionInvalid _ => true
  | NotImplementedError _ | ValueError _ | OtherException _ => false
  end.

(** [str(e)]. *)
Definition exc_str (e : PyExc) : string :=
  match e with
  | ConnectionFailure m | ServerSelectionTimeoutError m
  | OperationFailure m | CollectionInvalid m
  | NotImplementedError m | ValueError m | OtherException m => m
  | BulkWriteError _ => "batch op errors occurred"
  end.

(** The outcome of a Python call: a value or a raised exception. *)
Inductive result (A : Type) : Type :=
| Ok (a : A)
| Raise (e : PyExc).
Arguments Ok {A} a.
Arguments Raise {A} e.

(** ** [src/config.py] *)

Record Config := mkConfig {
  source_connection_string : option string;
  dest_connection_string : option string;
  use_managed_identity : bool;
  batch_size : Z;
  timeout_ms : Z;
  connection_retry_attempts : Z;
  connection_retry_delay_ms : Z;
  operation_retry_attempts : Z;
  health_check_interval_seconds : Z;
  target_is_vcore : bool;
  ru_throughput_mode : string;
  ru_manual_throughput : Z;
  ru_autoscale_max_throughput : Z;
  ru_default_partition_key : string
}.

(** [Config.__init__]: the default settings. *)
Definition default_config : Config :=
  {| source_connection_string := None;
     dest_connection_string := None;
     use_managed_identity := false;
     batch_size := 1000;
     timeout_ms := 30000;
     connection_retry_attempts := 5;
     connection_retry_delay_ms := 2000;
     operation_retry_attempts := 3;
     health_check_interval_seconds := 30;
     target_is_vcore := true;
     ru_throughput_mode := "manual";
     ru_manual_throughput := 400;
     ru_autoscale_max_throughput := 4000;
     ru_default_partition_key := "_id" |}.

(** Truth value of an optional string: [None] and [""] are false. *)
Definition truthy (s : option string) : bool :=
  match s with
  | None => false
  | Some s => negb (String.eqb s "")
  end.

(** [Config.update_connection_strings]. *)
Definition update_connection_strings
    (cfg : Config) (src dst : option string) : Config :=
  {| source_connection_string :=
       if truthy src then src else source_connection_string cfg;
     dest_connection_string :=
       if truthy dst then dst else dest_connection_string cfg;
     use_managed_identity := use_managed_identity cfg;
     batch_size := batch_size cfg;
     timeout_ms := timeout_ms cfg;
     connection_retry_attempts := connection_retry_attempts cfg;
     connection_retry_delay_ms := connection_retry_delay_ms cfg;
     operation_retry_attempts := operation_retry_attempts cfg;
     health_check_interval_seconds := health_check_interval_seconds cfg;
     target_is_vcore := target_is_vcore cfg;
     ru_throughput_mode := ru_throughput_mode cfg;
     ru_manual_throughput := ru_manual_throughput cfg;
     ru_autoscale_max_throughput := ru_autoscale_max_throughput cfg;
     ru_default_partition_key := ru_default_partition_key cfg |}.

(** ** [src/connection_manager.py] *)

Module ConnectionManager.

(** A [MongoClient] handle. *)
Definition Client := nat.

(** What lies outside the process.  [mongo_client cs n] is what the [n]-th
    try ever made gives when [MongoClient(cs, ...)] is built and pinged:
    the live client, or the exception raised by the constructor or by the
    ping.  [getpass] is what the user types at the prompt. *)
Record Env := mkEnv {
  mongo_client : option string -> nat -> result Client;
  getpass : string -> string
}.

(** The observable trace of the connection layer: how many connection
    tries were made, the delays slept (oldest first, in seconds), and the
    clients closed. *)
Record World := mkWorld {
  tries : nat;
  slept : list Q;
  closed : list Client
}.

Definition initial_world : World := mkWorld 0 [] [].

(** [time.sleep(d)]: raises [ValueError] on a negative length.  The
    clock takes every other length; the range of [time.sleep] is checked
    by [sleep_float], where the connection loop computes its delays.
    The other caller, [execute_with_retry], sleeps [2 ** attempt] whole
    seconds, which leave that range at attempt 34, after [2^34 - 1]
    seconds of sleeping. *)
Definition sleep (d : Q) (w : World) : result World :=
  if Qle_bool 0 d
  then Ok (mkWorld (tries w) (slept w ++ [d]) (closed w))
  else Raise (ValueError "sleep length must be non-negative").

(** An integer operand of a float operation is converted to binary64
    first, and the conversion raises [OverflowError] when the integer
    rounds to [2^1024]: from [2^1024 - 2^970] on, in absolute value. *)
Definition float_overflows (n : Z) : bool :=
  (2 ^ 1024 - 2 ^ 970 <=? Z.abs n)%Z.

(** [time.sleep] counts in nanoseconds on 64 bits: a length of [2^63]
    nanoseconds or more (an infinite one too), or one below [-2^63]
    nanoseconds, raises [OverflowError]. *)
Definition sleep_limit : Q := (2 ^ 63)%Z # (10 ^ 9)%positive.

(** [time.sleep(d)] for a float [d]: the range first, the sign next. *)
Definition sleep_float (d : Q) (w : World) : result World :=
  if Qle_bool sleep_limit d || negb (Qle_bool (- sleep_limit) d)
  then Raise (OtherException
                "timestamp too large to convert to C _PyTime_t")
  else sleep d w.

Definition count_try (w : World) : World :=
  mkWorld (S (tries w)) (slept w) (closed w).

Definition close_client (c : Client) (w : World) : World :=
  mkWorld (tries w) (slept w) (closed w ++ [c]).

(** [(base_delay_ms / 1000.0) * backoff_multiplier + jitter] with
    [backoff_multiplier = 2 ** attempt] and [jitter = attempt * 0.1]. *)
Definition backoff_delay (base_delay_ms attempt : Z) : Q :=
  (inject_Z base_delay_ms / 1000) * inject_Z (2 ^ attempt)
  + inject_Z attempt * (1 # 10).

(** [(base_delay_ms / 1000.0) * (2 ** attempt)], the delay of the
    [except Exception] branch. *)
Definition plain_delay (base_delay_ms attempt : Z) : Q :=
  (inject_Z base_delay_ms / 1000) * inject_Z (2 ^ attempt).

(** What a handler of the connection loop does before the next try: it
    computes [delay_seconds], with the jitter in the handler of connection
    failures and without it in the other, and sleeps that long.
    [base_delay_ms / 1000.0] and the product with [2 ** attempt] raise
    [OverflowError] when the integer does not convert to a float; a
    product too large for a float is infinite, which [time.sleep]
    refuses like every length out of its range. *)
Definition wait_before_retry (jitter : bool) (base_delay_ms attempt : Z)
    (w : World) : result World :=
  if float_overflows base_delay_ms || float_overflows (2 ^ attempt)
  then Raise (OtherException "int too large to convert to float")
  else sleep_float (if jitter
                    then backoff_delay base_delay_ms attempt
                    else plain_delay base_delay_ms attempt) w.

(** The message of the [ConnectionFailure] raised after the last try. *)
Definition could_not_connect (client_type : string) (retry_attempts : Z)
    (e : PyExc) : string :=
  "Could not connect to " ++ client_type ++ " after "
  ++ str_int retry_attempts ++ " attempts: " ++ exc_str e.

Section Connect.

Variable env : Env.

(** The body of [for attempt in range(retry_attempts)]: [remaining]
    iterations are left and the loop variable is [attempt].  Falling off
    the end of the loop returns [None]. *)
Fixpoint create_client_loop (cfg : Config) (connection_string : option string)
    (client_type : string) (remaining : nat) (attempt : Z) (w : World)
    : World * result (option Client) :=
  match remaining with
  | O => (w, Ok None)
  | S remaining' =>
    let retry_attempts := connection_retry_attempts cfg in
    let base_delay_ms := connection_retry_delay_ms cfg in
    let w1 := count_try w in
    match mongo_client env connection_string (tries w) with
    | Ok client => (w1, Ok (Some client))
    | Raise e =>
      if is_ConnectionFailure e then
        if (attempt <? retry_attempts - 1)%Z then
          match wait_before_retry true base_delay_ms attempt w1 with
          | Ok w2 =>
            create_client_loop cfg connection_string client_type
              remaining' (attempt + 1)%Z w2
          | Raise e' => (w1, Raise e')
          end
        else
          (w1, Raise (ConnectionFailure
                        (could_not_connect client_type retry_attempts e)))
      else
        if (attempt <? retry_attempts - 1)%Z then
          match wait_before_retry false base_delay_ms attempt w1 with
          | Ok w2 =>
            create_client_loop cfg connection_string client_type
              remaining' (attempt + 1)%Z w2
          | Raise e' => (w1, Raise e')
          end
        else (w1, Raise e)
    end
  end.

(** The delay slept after a failed try that is not the last: with the
    jitter for a connection failure, without it for any other exception. *)
Definition delay_after (cfg : Config) (e : PyExc) (attempt : Z) : Q :=
  if is_ConnectionFailure e
  then backoff_delay (connection_retry_delay_ms cfg) attempt
  else plain_delay (connection_retry_delay_ms cfg) attempt.

(** What the last failed try raises: a [ConnectionFailure] quoting the
    cause for a connection failure, the cause itself ([raise]) for any
    other exception. *)
Definition final_error (cfg : Config) (client_type : string) (e : PyExc)
    : PyExc :=
  if is_ConnectionFailure e
  then ConnectionFailure
         (could_not_connect client_type (connection_retry_attempts cfg) e)
  else e.

(** [ConnectionManager._create_mongo_client_with_retry]. *)
Definition _create_mongo_client_with_retry (cfg : Config)
    (connection_string : option string) (client_type : string) (w : World)
    : World * result (option Client) :=
  create_client_loop cfg connection_string client_type
    (Z.to_nat (connection_retry_attempts cfg)) 0%Z w.

(** The fields of a [ConnectionManager] object.  The two health flags are
    also written by the background monitor thread; a call reads the value
    they hold when it runs. *)
Record t := mk {
  config : Config;
  source_client : option Client;
  dest_client : option Client;
  _source_healthy : bool;
  _dest_healthy : bool
}.

(** [ConnectionManager.__init__]. *)
Definition init (cfg : Config) : t := mk cfg None None false false.

Definition is_source_healthy (self : t) : bool := _source_healthy self.
Definition is_dest_healthy (self : t) : bool := _dest_healthy self.

Definition set_source (self : t) (c : option Client) (h : bool) : t :=
  mk (config self) c (dest_client self) h (_dest_healthy self).

Definition set_dest (self : t) (c : option Client) (h : bool) : t :=
  mk (config self) (source_client self) c (_source_healthy self) h.

Definition set_config (self : t) (cfg : Config) : t :=
  mk cfg (source_client self) (dest_client self)
     (_source_healthy self) (_dest_healthy self).

(** [ConnectionManager._prompt_for_connection_string]. *)
Definition _prompt_for_connection_string (instance_type : string) : string :=
  getpass env instance_type.

(** The part of [connect_to_source] after the health check: read the
    connection string, prompt for it when it is missing, refuse managed
    identity, build the client with retries and mark the role healthy.
    Any exception ends in the [except Exception] handler: handle cleared,
    role unhealthy, [None] returned. *)
Definition fresh_source_connection (self : t) (w : World)
    : t * World * option Client :=
  let connection_string := source_connection_string (config self) in
  let '(self, connection_string) :=
    if negb (truthy connection_string)
       && negb (use_managed_identity (config self))
    then
      let typed := Some (_prompt_for_connection_string "source") in
      (set_config self
         (update_connection_strings (config self) typed None), typed)
    else (self, connection_string) in
  if use_managed_identity (config self) then
    (* raise NotImplementedError(...) *)
    (set_source self None false, w, None)
  else
    match _create_mongo_client_with_retry (config self)
            connection_string "source" w with
    | (w', Ok client) => (set_source self client true, w', client)
    | (w', Raise _) => (set_source self None false, w', None)
    end.

(** [ConnectionManager.connect_to_source].  The result is the client or
    [None]; the method raises nothing, its [except Exception] catches
    whatever the body raises. *)
Definition connect_to_source (self : t) (w : World)
    : t * World * option Client :=
  match source_client self with
  | Some c =>
    if is_source_healthy self then (self, w, Some c)
    else
      (* unhealthy: close it (errors only logged), then connect afresh *)
      fresh_source_connection
        (set_source self None (_source_healthy self)) (close_client c w)
  | None => fresh_source_connection self w
  end.

Definition fresh_dest_connection (self : t) (w : World)
    : t * World * option Client :=
  let connection_string := dest_connection_string (config self) in
  let '(self, connection_string) :=
    if negb (truthy connection_string)
       && negb (use_managed_identity (config self))
    then
      let typed := Some (_prompt_for_connection_string "destination") in
      (set_config self
         (update_connection_strings (config self) None typed), typed)
    else (self, connection_string) in
  if use_managed_identity (config self) then
    (set_dest self None false, w, None)
  else
    match _create_mongo_client_with_retry (config self)
            connection_string "destination" w with
    | (w', Ok client) => (set_dest self client true, w', client)
    | (w', Raise _) => (set_dest self None false, w', None)
    end.

(** [ConnectionManager.connect_to_destination]. *)
Definition connect_to_destination (self : t) (w : World)
    : t * World * option Client :=
  match dest_client self with
  | Some c =>
    if is_dest_healthy self then (self, w, Some c)
    else
      fresh_dest_connection
        (set_dest self None (_dest_healthy self)) (close_client c w)
  | None => fresh_dest_connection self w
  end.

(** *** [execute_with_retry]

    The operation is any piece of code: it sees and may change the
    manager, the connection trace and a state [X] of its own (the data
    stores it talks to). *)
Record State (X : Type) := mkState {
  cm : t;
  io : World;
  ext : X
}.
Arguments mkState {X} cm io ext.
Arguments cm {X} s.
Arguments io {X} s.
Arguments ext {X} s.

Section ExecuteWithRetry.

Context {X A : Type}.
Variable operation : State X -> State X * result A.

(** The reconnection step of the handler: [client_type] selects the role;
    any other string reconnects nothing. *)
Definition reconnect (client_type : string) (s : State X) : State X :=
  if String.eqb client_type "source" then
    let '(self, w, _) := connect_to_source (cm s) (io s) in
    mkState self w (ext s)
  else if String.eqb client_type "destination" then
    let '(self, w, _) := connect_to_destination (cm s) (io s) in
    mkState self w (ext s)
  else s.

(** The body of [for attempt in range(max_retries)].  The handler is
    [except (ConnectionFailure, ServerSelectionTimeoutError, PyMongoError)];
    an exception of any other class leaves the function at once.  Falling
    off the end of the loop returns [None]. *)
Fixpoint execute_loop (client_type : string) (max_retries : Z)
    (remaining : nat) (attempt : Z) (s : State X)
    : State X * result (option A) :=
  match remaining with
  | O => (s, Ok None)
  | S remaining' =>
    match operation s with
    | (s1, Ok a) => (s1, Ok (Some a))
    | (s1, Raise e) =>
      if is_ConnectionFailure e || is_ServerSelectionTimeoutError e
         || is_PyMongoError e
      then
        if (attempt <? max_retries - 1)%Z then
          let s2 := reconnect client_type s1 in
          match sleep (inject_Z (2 ^ attempt)) (io s2) with
          | Ok w3 =>
            execute_loop client_type max_retries remaining'
              (attempt + 1)%Z (mkState (cm s2) w3 (ext s2))
          | Raise e' => (s2, Raise e')
          end
        else (s1, Raise e)
      else (s1, Raise e)
    end
  end.

(** [ConnectionManager.execute_with_retry]. *)
Definition execute_with_retry (client_type : string) (s : State X)
    : State X * result (option A) :=
  let max_retries := operation_retry_attempts (config (cm s)) in
  execute_loop client_type max_retries (Z.to_nat max_retries) 0%Z s.



End ExecuteWithRetry.


End Connect.

Arguments mkState {X} cm io ext.
Arguments cm {X} s.
Arguments io {X} s.
Arguments ext {X} s.

End ConnectionManager.

(** ** Documents and the driver *)

(** The values a document field holds (scalars only). *)
Inductive Value :=
| VInt (z : Z)
| VStr (s : string)
| VBool (b : bool)
| VNone.

Definition Value_eqb (a b : Value) : bool :=
  match a, b with
  | VInt x, VInt y => Z.eqb x y
  | VStr x, VStr y => String.eqb x y
  | VBool x, VBool y => Bool.eqb x y
  | VNone, VNone => true
  | _, _ => false
  end.

(** [str(v)]. *)
Definition py_str (v : Value) : string :=
  match v with
  | VInt z => str_int z
  | VStr s => s
  | VBool true => "True"
  | VBool false => "False"
  | VNone => "None"
  end.

(** A document: a dictionary in insertion order. *)
Definition Doc := list (string * Value).

(** [doc.keys()]. *)
Definition keys (doc : Doc) : list string := map fst doc.

(** [key in doc]. *)
Definition has_key (key : string) (doc : Doc) : bool := str_in key (keys doc).

(** [doc.get(key)]. *)
Fixpoint lookup (key : string) (doc : Doc) : option Value :=
  match doc with
  | [] => None
  | (k, v) :: rest => if String.eqb k key then Some v else lookup key rest
  end.

(** [ReplaceOne(filter, replacement, upsert=...)]. *)
Record WriteOp := ReplaceOne {
  op_filter : Doc;
  op_replacement : Doc;
  op_upsert : bool
}.

(** [BulkWriteResult]. *)
Record BulkWriteResult := mkBulkWriteResult {
  inserted_count : Z;
  upserted_count : Z;
  modified_count : Z
}.

(** The throughput part of a [CreateCollection] or [UpdateCollection]
    command. *)
Inductive Throughput :=
| AutoScaleSettings (maxThroughput : Z)
| OfferThroughput (ru : Z).

(** The dictionaries passed to [db.command]. *)
Inductive Command :=
| CreateCollection (collection shardKey : string) (tp : Throughput)
| GetCollection (collection : string)
| UpdateCollection (collection : string) (tp : Throughput).

(** The reply of [db.command]: [reply_ok] is [result.get("ok")]. *)
Record Reply := mkReply {
  reply_ok : option Z
}.

(** What iterating a cursor gives: the documents it yields, then the
    exception that ends the iteration, if one does. *)
Record Cursor := mkCursor {
  yielded : list Doc;
  fails : option PyExc
}.

(** Which client a call goes through. *)
Inductive Role := Source | Destination.

(** The driver calls the code makes, over a state [X] of the two data
    stores.  Every call may raise. *)
Module Pymongo.

Record Driver (X : Type) := mkDriver {
  list_database_names : X -> X * result (list string);
  list_collection_names : Role -> string -> X -> X * result (list string);
  create_collection : string -> string -> X -> X * result unit;
  command : string -> Command -> X -> X * result Reply;
  count_documents : Role -> string -> string -> X -> X * result Z;
  find : string -> string -> X -> X * Cursor;
  bulk_write : string -> string -> list WriteOp -> X
               -> X * result BulkWriteResult
}.
Arguments list_database_names {X} d.
Arguments list_collection_names {X} d.
Arguments create_collection {X} d.
Arguments command {X} d.
Arguments count_documents {X} d.
Arguments find {X} d.
Arguments bulk_write {X} d.

End Pymongo.

Import Pymongo.

(** [list(cursor.limit(n))]: the first [n] documents; the cursor's
    exception is met only when fewer than [n] were yielded before it. *)
Definition list_limit (n : nat) (c : Cursor) : result (list Doc) :=
  if (n <=? List.length (yielded c))%nat then Ok (firstn n (yielded c))
  else match fails c with
       | None => Ok (yielded c)
       | Some e => Raise e
       end.

(** [s.lower()] on ASCII letters. *)
Definition lower_ascii (c : ascii) : ascii :=
  let n := nat_of_ascii c in
  if ((65 <=? n) && (n <=? 90))%nat then ascii_of_nat (n + 32) else c.

Fixpoint lower (s : string) : string :=
  match s with
  | EmptyString => EmptyString
  | String c rest => String (lower_ascii c) (lower rest)
  end.

(** ** [src/cosmos_ru_manager.py] *)

Module CosmosDBRUManager.

(** The per-field accumulator of the partition-key analysis:
    [{"count": ..., "unique_values": set()}].  The set is kept as a list
    without repetitions; only its size is read. *)
Record FieldStat := mkFieldStat {
  count : Z;
  unique_values : list string
}.

(** [field_stats]: a dictionary in insertion order. *)
Definition FieldStats := list (string * FieldStat).

(** [set.add]. *)
Definition set_add (v : string) (s : list string) : list string :=
  if str_in v s then s else s ++ [v].

(** One visit of a field: [count += 1], and the value's [str] joins the
    set while the set holds fewer than 1000 strings. *)
Definition visit (v : Value) (st : FieldStat) : FieldStat :=
  mkFieldStat (count st + 1)
    (if (Z.of_nat (List.length (unique_values st)) <? 1000)%Z
     then set_add (py_str v) (unique_values st)
     else unique_values st).

(** The body of [for field in doc.keys()] on the dictionary
    [field_stats]: a field met for the first time is appended with a zero
    count and an empty set, then visited. *)
Fixpoint record_field (field : string) (v : Value) (fs : FieldStats)
    : FieldStats :=
  match fs with
  | [] => [(field, visit v (mkFieldStat 0 []))]
  | (f, st) :: rest =>
    if String.eqb f field then (f, visit v st) :: rest
    else (f, st) :: record_field field v rest
  end.

(** [for field in doc.keys(): ...] for one document (a dictionary holds
    each key once, so the keys are walked with their values). *)
Definition record_doc (fs : FieldStats) (doc : Doc) : FieldStats :=
  fold_left (fun acc kv => record_field (fst kv) (snd kv) acc) doc fs.

(** [for doc in sample_docs: ...]. *)
Definition analyse (sample_docs : list Doc) : FieldStats :=
  fold_left record_doc sample_docs [].

(** [frequency_score * 0.6 + cardinality_score * 0.4] for a sample of
    [n] documents. *)
Definition total_score (n : nat) (st : FieldStat) : Q :=
  let frequency_score := inject_Z (count st) / inject_Z (Z.of_nat n) in
  let cardinality_score :=
    inject_Z (Z.of_nat (List.length (unique_values st)))
    / inject_Z (Z.of_nat n) in
  frequency_score * (6 # 10) + cardinality_score * (4 # 10).

(** [scored_fields]: every field but ["_id"], with its score. *)
Definition score_fields (n : nat) (fs : FieldStats) : list (string * Q) :=
  map (fun fst_st => (fst fst_st, total_score n (snd fst_st)))
      (filter (fun fst_st => negb (String.eqb (fst fst_st) "_id")) fs).

(** [scored_fields.sort(key=lambda x: x[1], reverse=True)]: a stable
    sort by decreasing score; entries of equal score keep their order. *)
Fixpoint insert_desc (x : string * Q) (l : list (string * Q))
    : list (string * Q) :=
  match l with
  | [] => [x]
  | y :: rest =>
    if Qle_bool (snd y) (snd x) then x :: y :: rest
    else y :: insert_desc x rest
  end.

Definition sort_desc (l : list (string * Q)) : list (string * Q) :=
  fold_right insert_desc [] l.

(** The analysis of a sample, after it has been read. *)
Definition recommend (cfg : Config) (sample_docs : list Doc) : string :=
  match sample_docs with
  | [] => ru_default_partition_key cfg
  | _ :: _ =>
    let field_stats := analyse sample_docs in
    let scored_fields :=
      score_fields (List.length sample_docs) field_stats in
    match sort_desc scored_fields with
    | (recommended_key, _) :: _ => recommended_key
    | [] => ru_default_partition_key cfg
    end
  end.

Section Manager.

Context {X : Type}.
Variable drv : Driver X.
Variable cfg : Config.

(** [CosmosDBRUManager.create_collection_with_throughput]. *)
Definition create_collection_with_throughput
    (database_name collection_name : string) (partition_key : option string)
    (throughput_mode : string) (manual_ru autoscale_max_ru : Z) (x : X)
    : X * bool :=
  let partition_key :=
    match partition_key with
    | Some k => if String.eqb k "" then ru_default_partition_key cfg else k
    | None => ru_default_partition_key cfg
    end in
  let tp :=
    if String.eqb (lower throughput_mode) "autoscale"
    then AutoScaleSettings autoscale_max_ru
    else OfferThroughput manual_ru in
  match command drv database_name
          (CreateCollection collection_name partition_key tp) x with
  | (x', Ok reply) =>
    match reply_ok reply with
    | Some 1%Z => (x', true)
    | _ => (x', false)
    end
  | (x', Raise e) =>
    if is_OperationFailure e
    then (x', contains "NamespaceExists" (exc_str e))
    else (x', false)
  end.

(** [CosmosDBRUManager.get_collection_throughput]: the reply, or [None]
    when the command raises. *)
Definition get_collection_throughput
    (database_name collection_name : string) (x : X) : X * option Reply :=
  match command drv database_name (GetCollection collection_name) x with
  | (x', Ok reply) => (x', Some reply)
  | (x', Raise _) => (x', None)
  end.

(** [CosmosDBRUManager.ensure_collection_exists]. *)
Definition ensure_collection_exists
    (database_name collection_name : string) (partition_key : option string)
    (x : X) : X * bool :=
  match list_collection_names drv Destination database_name x with
  | (x1, Raise _) => (x1, false)
  | (x1, Ok names) =>
    if str_in collection_name names then (x1, true)
    else if target_is_vcore cfg then
      match create_collection drv database_name collection_name x1 with
      | (x2, Ok _) => (x2, true)
      | (x2, Raise _) => (x2, false)
      end
    else
      create_collection_with_throughput database_name collection_name
        (Some (if truthy partition_key
               then match partition_key with Some k => k | None => "" end
               else ru_default_partition_key cfg))
        (ru_throughput_mode cfg) (ru_manual_throughput cfg)
        (ru_autoscale_max_throughput cfg) x1
  end.

(** [CosmosDBRUManager.get_recommended_partition_key]. *)
Definition get_recommended_partition_key
    (database_name collection_name : string) (x : X) : X * string :=
  let '(x1, cursor) := find drv database_name collection_name x in
  match list_limit 100 cursor with
  | Ok sample_docs => (x1, recommend cfg sample_docs)
  | Raise _ => (x1, ru_default_partition_key cfg)
  end.

End Manager.

End CosmosDBRUManager.

(** ** [src/migration_service.py] *)

Module MigrationService.

Import ConnectionManager.

(** The statistics dictionary of one batch.  ["raw_inserted"] is set
    only on some paths and read with [.get("raw_inserted", 0)]. *)
Record BatchStats := mkBatchStats {
  inserted : Z;
  failed : Z;
  upserted : Z;
  modified : Z;
  raw_inserted : option Z
}.

(** The dictionary [migrate_collection] returns.  A counter is [None]
    when its key is absent (or, for [total_documents], when the count
    itself is [None]). *)
Record Report := mkReport {
  success : bool;
  total_documents : option Z;
  migrated_documents : option Z;
  failed_documents : option Z;
  inserted_documents : option Z;
  upserted_documents : option Z;
  modified_documents : option Z;
  error : option string
}.

(** The fields of a [MigrationService] the methods below read.
    [connection_manager] tells whether a manager was passed. *)
Record service := mkService {
  config : Config;
  connection_manager : bool;
  batch_size : Z
}.

Definition system_dbs : list string := ["admin"; "local"; "config"].

(** [operations]: one [ReplaceOne] per document of the batch. *)
Definition operations (batch : list Doc) : list WriteOp :=
  map (fun document =>
         match lookup "_id" document with
         | Some id => ReplaceOne [("_id", id)] document true
         | None => ReplaceOne [] document true
         end) batch.

Section Service.

Context {X : Type}.
Variable env : Env.
Variable drv : Driver X.
Variable self : service.

Definition set_ext (s : State X) (x : X) : State X := mkState (cm s) (io s) x.

(** The [if self.connection_manager: ... else: ...] around every
    operation: through [execute_with_retry], or called directly. *)
Definition run {A : Type} (operation : State X -> State X * result A)
    (client_type : string) (s : State X) : State X * result (option A) :=
  if connection_manager self
  then execute_with_retry env operation client_type s
  else match operation s with
       | (s', Ok a) => (s', Ok (Some a))
       | (s', Raise e) => (s', Raise e)
       end.

Definition _list_databases_operation (s : State X)
    : State X * result (list string) :=
  match list_database_names drv (ext s) with
  | (x', Ok names) =>
    (set_ext s x', Ok (filter (fun db => negb (str_in db system_dbs)) names))
  | (x', Raise e) => (set_ext s x', Raise e)
  end.

(** [MigrationService.list_databases]. *)
Definition list_databases (s : State X)
    : State X * result (option (list string)) :=
  match run _list_databases_operation "source" s with
  | (s', Ok names) => (s', Ok names)
  | (s', Raise e) =>
    if is_PyMongoError e then (s', Ok (Some [])) else (s', Raise e)
  end.

Definition _count_documents_operation (database_name collection_name : string)
    (s : State X) : State X * result Z :=
  match Pymongo.count_documents drv Source database_name collection_name
          (ext s) with
  | (x', Ok n) => (set_ext s x', Ok n)
  | (x', Raise e) => (set_ext s x', Raise e)
  end.

(** [MigrationService.count_documents]. *)
Definition count_documents (database_name collection_name : string)
    (s : State X) : State X * result (option Z) :=
  match run (_count_documents_operation database_name collection_name)
          "source" s with
  | (s', Ok n) => (s', Ok n)
  | (s', Raise e) =>
    if is_PyMongoError e then (s', Ok (Some 0%Z)) else (s', Raise e)
  end.

(** The inner function of [_process_batch]. *)
Definition _process_batch_operation (database_name collection_name : string)
    (batch : list Doc) (s : State X) : State X * result BatchStats :=
  let stats := mkBatchStats 0 0 0 0 None in
  match batch with
  | [] => (s, Ok stats)
  | _ :: _ =>
    match bulk_write drv database_name collection_name (operations batch)
            (ext s) with
    | (x', Ok result) =>
      (set_ext s x',
       Ok (mkBatchStats
             (inserted_count result + upserted_count result
              + modified_count result)
             0
             (upserted_count result)
             (modified_count result)
             (Some (inserted_count result))))
    | (x', Raise (BulkWriteError details)) =>
      let result :=
        match bd_writeResult details with Some r => r | None => [] end in
      let write_errors :=
        match bd_writeErrors details with Some l => l | None => [] end in
      let inserted_count := get_int result "nInserted" 0 in
      let upserted_count := get_int result "nUpserted" 0 in
      let modified_count := get_int result "nModified" 0 in
      (set_ext s x',
       Ok (mkBatchStats
             (inserted_count + upserted_count + modified_count)
             (Z.of_nat (List.length write_errors))
             upserted_count
             modified_count
             (Some inserted_count)))
    | (x', Raise e) =>
      if is_PyMongoError e
      then (set_ext s x',
            Ok (mkBatchStats 0 (Z.of_nat (List.length batch)) 0 0 None))
      else (set_ext s x', Raise e)
    end
  end.

(** [MigrationService._process_batch].  The result is [None] when
    [execute_with_retry] returns without having run the operation. *)
Definition _process_batch (database_name collection_name : string)
    (batch : list Doc) (s : State X) : State X * option BatchStats :=
  match run (_process_batch_operation database_name collection_name batch)
          "destination" s with
  | (s', Ok stats) => (s', stats)
  | (s', Raise _) =>
    (s', Some (mkBatchStats 0 (Z.of_nat (List.length batch)) 0 0 None))
  end.

(** The running totals of [migrate_collection], and (not in the code, for
    the statements below) the batches handed to [_process_batch] so far,
    oldest first. *)
Record Totals := mkTotals {
  migrated : Z;
  failures : Z;
  raw : Z;
  ups : Z;
  mods : Z;
  flushed : list (list Doc)
}.

(** The five [stats[...] += batch_stats...] lines after a batch.
    Subscripting a [None] batch result raises [TypeError]. *)
Definition flush (database_name collection_name : string)
    (batch : list Doc) (acc : Totals) (s : State X) : State X * result Totals :=
  match _process_batch database_name collection_name batch s with
  | (s', Some batch_stats) =>
    (s', Ok (mkTotals
               (migrated acc + inserted batch_stats)
               (failures acc + failed batch_stats)
               (raw acc + match raw_inserted batch_stats with
                          | Some n => n
                          | None => 0
                          end)
               (ups acc + upserted batch_stats)
               (mods acc + modified batch_stats)
               (flushed acc ++ [batch])%list))
  | (s', None) =>
    (s', Raise (OtherException "'NoneType' object is not subscriptable"))
  end.

(** [for document in cursor: ...] over the documents the cursor yields. *)
Fixpoint stream (database_name collection_name : string)
    (documents : list Doc) (batch : list Doc) (acc : Totals) (s : State X)
    : State X * result (list Doc * Totals) :=
  match documents with
  | [] => (s, Ok (batch, acc))
  | document :: rest =>
    let batch := (batch ++ [document])%list in
    if (Z.of_nat (List.length batch) >=? batch_size self)%Z then
      match flush database_name collection_name batch acc s with
      | (s', Ok acc') => stream database_name collection_name rest [] acc' s'
      | (s', Raise e) => (s', Raise e)
      end
    else stream database_name collection_name rest batch acc s
  end.

(** The streaming phase: the loop over the cursor, the exception that
    ends the cursor (if any), then the remaining documents. *)
Definition stream_all (database_name collection_name : string)
    (cursor : Cursor) (s : State X) : State X * result Totals :=
  match stream database_name collection_name (yielded cursor) []
          (mkTotals 0 0 0 0 0 []) s with
  | (s1, Raise e) => (s1, Raise e)
  | (s1, Ok (batch, acc)) =>
    match fails cursor with
    | Some e => (s1, Raise e)
    | None =>
      match batch with
      | [] => (s1, Ok acc)
      | _ :: _ => flush database_name collection_name batch acc s1
      end
    end
  end.

(** The dictionary of the [except Exception] handler. *)
Definition failure_report (e : PyExc) : Report :=
  mkReport false (Some 0%Z) (Some 0%Z) (Some 0%Z) None None None
           (Some (exc_str e)).

(** The first part of [migrate_collection]: the destination collection
    is made to exist.  [Ok false] is the early return of the RU branch. *)
Definition ensure_destination (database_name collection_name : string)
    (s : State X) : State X * result bool :=
  if negb (target_is_vcore (config self)) then
    let '(x1, partition_key) :=
      CosmosDBRUManager.get_recommended_partition_key drv (config self)
        database_name collection_name (ext s) in
    let '(x2, ok) :=
      CosmosDBRUManager.ensure_collection_exists drv (config self)
        database_name collection_name (Some partition_key) x1 in
    if ok then
      let '(x3, _) :=
        CosmosDBRUManager.get_collection_throughput drv
          database_name collection_name x2 in
      (set_ext s x3, Ok true)
    else (set_ext s x2, Ok false)
  else
    match list_collection_names drv Destination database_name (ext s) with
    | (x1, Raise e) => (set_ext s x1, Raise e)
    | (x1, Ok names) =>
      if str_in collection_name names then (set_ext s x1, Ok true)
      else
        match create_collection drv database_name collection_name x1 with
        | (x2, Ok _) => (set_ext s x2, Ok true)
        | (x2, Raise e) => (set_ext s x2, Raise e)
        end
    end.

(** The write path hands back an outcome for each batch: there is no
    manager, or the manager is allowed at least one try (with none,
    [execute_with_retry] returns [None] without running the operation). *)
Definition can_write (s : State X) : Prop :=
  connection_manager self = false
  \/ (1 <= operation_retry_attempts (ConnectionManager.config (cm s)))%Z.

(** The steps of [migrate_collection] before the streaming loop all went
    through: the destination collection was ensured, the source count is
    not zero, the destination was counted and the cursor was opened,
    which leaves the state [s_stream], the count [total] and [cursor]. *)
Definition reaches_streaming (database_name collection_name : string)
    (s s_stream : State X) (total : option Z) (cursor : Cursor) : Prop :=
  exists s1 s2 x3 n x4,
    ensure_destination database_name collection_name s = (s1, Ok true)
    /\ count_documents database_name collection_name s1 = (s2, Ok total)
    /\ total <> Some 0%Z
    /\ Pymongo.count_documents drv Destination database_name
         collection_name (ext s2) = (x3, Ok n)
    /\ find drv database_name collection_name x3 = (x4, cursor)
    /\ s_stream = set_ext s2 x4.

(** An error met before the streaming loop: the destination collection
    could not be ensured (an exception, or the [False] of the RU
    branch), or the source or the destination could not be counted. *)
Definition fails_before_streaming (database_name collection_name : string)
    (s : State X) : Prop :=
  (exists s1 e,
      ensure_destination database_name collection_name s = (s1, Raise e))
  \/ (exists s1,
        ensure_destination database_name collection_name s = (s1, Ok false))
  \/ (exists s1 s2 e,
        ensure_destination database_name collection_name s = (s1, Ok true)
        /\ count_documents database_name collection_name s1
           = (s2, Raise e))
  \/ (exists s1 s2 total x3 e,
        ensure_destination database_name collection_name s = (s1, Ok true)
        /\ count_documents database_name collection_name s1
           = (s2, Ok total)
        /\ Pymongo.count_documents drv Destination database_name
             collection_name (ext s2) = (x3, Raise e)).

(** The streaming loop was entered and left by an exception. *)
Definition aborted_in_stream (database_name collection_name : string)
    (s : State X) : Prop :=
  exists s_stream total cursor s' e,
    reaches_streaming database_name collection_name s s_stream total cursor
    /\ stream_all database_name collection_name cursor s_stream
       = (s', Raise e).

(** [MigrationService.migrate_collection], with the batches it handed
    to the write path. *)
Definition migrate_collection_trace (database_name collection_name : string)
    (s : State X) : State X * Report * list (list Doc) :=
  match ensure_destination database_name collection_name s with
  | (s1, Raise e) => (s1, failure_report e, [])
  | (s1, Ok false) =>
    (s1,
     mkReport false None None None None None None
       (Some "Failed to create destination collection with RU settings"),
     [])
  | (s1, Ok true) =>
    match count_documents database_name collection_name s1 with
    | (s2, Raise e) => (s2, failure_report e, [])
    | (s2, Ok (Some 0%Z)) =>
      (s2, mkReport true (Some 0%Z) (Some 0%Z) (Some 0%Z) None None None None,
       [])
    | (s2, Ok total_documents) =>
      match Pymongo.count_documents drv Destination database_name
              collection_name (ext s2) with
      | (x3, Raise e) => (set_ext s2 x3, failure_report e, [])
      | (x3, Ok _) =>
        let '(x4, cursor) :=
          find drv database_name collection_name x3 in
        match stream_all database_name collection_name cursor
                (set_ext s2 x4) with
        | (s5, Ok acc) =>
          (s5,
           mkReport true total_documents (Some (migrated acc))
             (Some (failures acc)) (Some (raw acc)) (Some (ups acc))
             (Some (mods acc)) None,
           flushed acc)
        | (s5, Raise e) => (s5, failure_report e, [])
        end
      end
    end
  end.

(** [MigrationService.migrate_collection]. *)
Definition migrate_collection (database_name collection_name : string)
    (s : State X) : State X * Report :=
  fst (migrate_collection_trace database_name collection_name s).

End Service.

End MigrationService.

(** ** Two drivers to run the code against *)

(** A driver that answers from a script: the state is the number of
    driver calls made so far, and the [n]-th call gets the answer the
    script holds for [n].  Any run of the real driver is some script. *)
Module Scripted.

Record Script := mkScript {
  on_list_database_names : nat -> result (list string);
  on_list_collection_names : nat -> result (list string);
  on_create_collection : nat -> result unit;
  on_command : nat -> result Reply;
  on_count_documents : Role -> nat -> result Z;
  on_find : nat -> Cursor;
  on_bulk_write : nat -> result BulkWriteResult
}.

Definition scripted_driver (sc : Script) : Driver nat :=
  {| list_database_names := fun n => (S n, on_list_database_names sc n);
     list_collection_names := fun _ _ n => (S n, on_list_collection_names sc n);
     create_collection := fun _ _ n => (S n, on_create_collection sc n);
     command := fun _ _ n => (S n, on_command sc n);
     count_documents := fun role _ _ n => (S n, on_count_documents sc role n);
     find := fun _ _ n => (S n, on_find sc n);
     bulk_write := fun _ _ _ n => (S n, on_bulk_write sc n) |}.

(** A script in which every call succeeds and finds nothing. *)
Definition quiet : Script :=
  {| on_list_database_names := fun _ => Ok [];
     on_list_collection_names := fun _ => Ok [];
     on_create_collection := fun _ => Ok tt;
     on_command := fun _ => Ok (mkReply (Some 1%Z));
     on_count_documents := fun _ _ => Ok 0%Z;
     on_find := fun _ => mkCursor [] None;
     on_bulk_write := fun _ => Ok (mkBulkWriteResult 0 0 0) |}.

End Scripted.

(** A driver watched from outside: its state is paired with the log of
    the [bulk_write] calls made so far, oldest first, each entry being
    the list of operations the call was handed.  Every call is passed
    on to the driver underneath. *)
Module Recorded.




End Recorded.

(** An in-memory pair of stores with the semantics of the server: a
    filter matches a document that holds each of its entries (so the
    empty filter matches every document); [ReplaceOne] replaces the first
    match and keeps its ["_id"], or, with [upsert], inserts when nothing
    matches; creating a collection that exists is refused. *)
Module Memory.

Definition Collections := list (string * string * list Doc).

Record Store := mkStore {
  source_dbs : list string;
  source : Collections;
  dest : Collections;
  next_oid : Z
}.

Definition same_name (database_name collection_name : string)
    (entry : string * string * list Doc) : bool :=
  String.eqb (fst (fst entry)) database_name
  && String.eqb (snd (fst entry)) collection_name.

Fixpoint docs_of (database_name collection_name : string) (c : Collections)
    : option (list Doc) :=
  match c with
  | [] => None
  | entry :: rest =>
    if same_name database_name collection_name entry then Some (snd entry)
    else docs_of database_name collection_name rest
  end.

Fixpoint set_docs (database_name collection_name : string)
    (docs : list Doc) (c : Collections) : Collections :=
  match c with
  | [] => [(database_name, collection_name, docs)]
  | entry :: rest =>
    if same_name database_name collection_name entry
    then (database_name, collection_name, docs) :: rest
    else entry :: set_docs database_name collection_name docs rest
  end.

Definition names_in (database_name : string) (c : Collections)
    : list string :=
  map (fun entry => snd (fst entry))
      (filter (fun entry => String.eqb (fst (fst entry)) database_name) c).

Definition side (role : Role) (x : Store) : Collections :=
  match role with
  | Source => source x
  | Destination => dest x
  end.

Definition with_dest (x : Store) (c : Collections) (oid : Z) : Store :=
  mkStore (source_dbs x) (source x) c oid.

(** A filter matches a document that holds each of its entries. *)
Definition matches (filter : Doc) (doc : Doc) : bool :=
  forallb (fun kv =>
             match lookup (fst kv) doc with
             | Some v => Value_eqb v (snd kv)
             | None => false
             end) filter.

Definition without_id (doc : Doc) : Doc :=
  filter (fun kv => negb (String.eqb (fst kv) "_id")) doc.

Definition Doc_eqb (a b : Doc) : bool :=
  (List.length a =? List.length b)%nat
  && forallb (fun p => String.eqb (fst (fst p)) (fst (snd p))
                       && Value_eqb (snd (fst p)) (snd (snd p)))
             (combine a b).

(** Replace the first document matching the filter, keeping its
    ["_id"].  [None] when nothing matches; otherwise the new list and
    whether the document changed. *)
Fixpoint replace_first (flt replacement : Doc) (docs : list Doc)
    : option (list Doc * bool) :=
  match docs with
  | [] => None
  | d :: rest =>
    if matches flt d then
      let d' :=
        match lookup "_id" d with
        | Some id => ("_id", id) :: without_id replacement
        | None => without_id replacement
        end in
      Some (d' :: rest, negb (Doc_eqb d d'))
    else
      match replace_first flt replacement rest with
      | Some (rest', changed) => Some (d :: rest', changed)
      | None => None
      end
  end.

(** One [ReplaceOne] on a collection: the new documents, the next
    generated identity, and the (upserted, modified) counts. *)
Definition apply_op (op : WriteOp) (st : list Doc * Z * (Z * Z))
    : list Doc * Z * (Z * Z) :=
  let '(docs, oid, (n_upserted, n_modified)) := st in
  match replace_first (op_filter op) (op_replacement op) docs with
  | Some (docs', changed) =>
    (docs', oid, (n_upserted, if changed then n_modified + 1 else n_modified)%Z)
  | None =>
    if op_upsert op then
      match lookup "_id" (op_replacement op) with
      | Some _ =>
        ((docs ++ [op_replacement op])%list, oid,
         (n_upserted + 1, n_modified)%Z)
      | None =>
        ((docs ++ [("_id", VInt oid) :: op_replacement op])%list,
         (oid + 1)%Z, (n_upserted + 1, n_modified)%Z)
      end
    else st
  end.

Definition memory_driver : Driver Store :=
  {| list_database_names := fun x => (x, Ok (source_dbs x));
     list_collection_names := fun role database_name x =>
       (x, Ok (names_in database_name (side role x)));
     create_collection := fun database_name collection_name x =>
       match docs_of database_name collection_name (dest x) with
       | Some _ =>
         (x, Raise (CollectionInvalid
                      ("collection " ++ collection_name ++ " already exists")))
       | None =>
         (with_dest x (set_docs database_name collection_name [] (dest x))
                   (next_oid x), Ok tt)
       end;
     command := fun database_name cmd x =>
       match cmd with
       | CreateCollection collection_name _ _ =>
         match docs_of database_name collection_name (dest x) with
         | Some _ =>
           (x, Raise (OperationFailure
                        ("Collection already exists, full error: "
                         ++ "{'code': 48, 'codeName': 'NamespaceExists'}")))
         | None =>
           (with_dest x (set_docs database_name collection_name [] (dest x))
                     (next_oid x), Ok (mkReply (Some 1%Z)))
         end
       | GetCollection collection_name
       | UpdateCollection collection_name _ =>
         match docs_of database_name collection_name (dest x) with
         | Some _ => (x, Ok (mkReply (Some 1%Z)))
         | None =>
           (x, Raise (OperationFailure
                        ("Collection not found, full error: "
                         ++ "{'code': 26, 'codeName': 'NamespaceNotFound'}")))
         end
       end;
     count_documents := fun role database_name collection_name x =>
       (x, Ok (match docs_of database_name collection_name (side role x) with
               | Some docs => Z.of_nat (List.length docs)
               | None => 0%Z
               end));
     find := fun database_name collection_name x =>
       (x, mkCursor
             (match docs_of database_name collection_name (source x) with
              | Some docs => docs
              | None => []
              end) None);
     bulk_write := fun database_name collection_name ops x =>
       let docs :=
         match docs_of database_name collection_name (dest x) with
         | Some docs => docs
         | None => []
         end in
       let '(docs', oid, (n_upserted, n_modified)) :=
         fold_left (fun st op => apply_op op st) ops
                   (docs, next_oid x, (0, 0)%Z) in
       (with_dest x (set_docs database_name collection_name docs' (dest x)) oid,
        Ok (mkBulkWriteResult 0 n_upserted n_modified)) |}.

End Memory.

(** ** Notions used to state the properties of the capacity adapter *)

Module Capacity.

(** A destination whose listing reflects its collections, for one
    collection of one database: listing changes nothing; a collection
    that was created, by the standard call or by a [CreateCollection]
    command answered with [ok = 1], is listed afterwards; a command that
    raises changes nothing. *)
Record coherent {X : Type} (drv : Driver X)
    (database_name collection_name : string) : Prop := mkCoherent {
  listing_reads_only :
    forall x, fst (list_collection_names drv Destination database_name x) = x;
  created_is_listed :
    forall x x',
      create_collection drv database_name collection_name x = (x', Ok tt) ->
      exists names,
        snd (list_collection_names drv Destination database_name x')
        = Ok names
        /\ In collection_name names;
  commanded_is_listed :
    forall x x' shardKey tp reply,
      command drv database_name
        (CreateCollection collection_name shardKey tp) x = (x', Ok reply) ->
      reply_ok reply = Some 1%Z ->
      exists names,
        snd (list_collection_names drv Destination database_name x')
        = Ok names
        /\ In collection_name names;
  refused_changes_nothing :
    forall x x' cmd e,
      command drv database_name cmd x = (x', Raise e) -> x' = x
}.

(** The partition-key formula in the words of its description: a field
    occurs in the documents that hold it, its distinct values are the
    distinct strings its values print to, and its score weighs the two
    shares of the sample by 0.6 and 0.4. *)
Definition occurrences (field : string) (sample : list Doc) : nat :=
  List.length (filter (has_key field) sample).

Definition values_of (field : string) (sample : list Doc) : list string :=
  flat_map (fun doc => match lookup field doc with
                       | Some v => [py_str v]
                       | None => []
                       end) sample.

Definition distinct_values (field : string) (sample : list Doc) : nat :=
  List.length (nodup string_dec (values_of field sample)).

Definition score (field : string) (sample : list Doc) : Q :=
  let sample_size := inject_Z (Z.of_nat (List.length sample)) in
  let frequency :=
    inject_Z (Z.of_nat (occurrences field sample)) / sample_size in
  let cardinality :=
    inject_Z (Z.of_nat (distinct_values field sample)) / sample_size in
  frequency * (6 # 10) + cardinality * (4 # 10).

(** A Python dictionary holds each key once. *)
Definition is_dict (doc : Doc) : Prop := NoDup (keys doc).

(** [field_stats.get(field)]. *)
Fixpoint stat_of (field : string) (fs : CosmosDBRUManager.FieldStats)
    : option CosmosDBRUManager.FieldStat :=
  match fs with
  | [] => None
  | (f, st) :: rest =>
    if String.eqb f field then Some st else stat_of field rest
  end.

(** The values met under one field, in the order of the walk. *)
Definition visits (field : string) (pairs : list (string * Value))
    : list Value :=
  map snd (filter (fun kv => String.eqb (fst kv) field) pairs).

(** A statistic after the given visits. *)
Definition visited (vs : list Value) (st : CosmosDBRUManager.FieldStat)
    : CosmosDBRUManager.FieldStat :=
  fold_left (fun acc v => CosmosDBRUManager.visit v acc) vs st.

(** A set after the given strings were added. *)
Definition added (strs : list string) (s : list string) : list string :=
  fold_left (fun acc v => CosmosDBRUManager.set_add v acc) strs s.

End Capacity.

(** ** Concrete environments and inputs used in the statements below *)

Module Examples.

Import ConnectionManager.

(** An endpoint that times out on the first two tries and then answers
    with client 7. *)
Definition down_twice : Env :=
  mkEnv (fun _ n => if (n <? 2)%nat
                    then Raise (ServerSelectionTimeoutError "timed out")
                    else Ok 7%nat)
        (fun _ => "mongodb://typed").

(** An endpoint that never answers. *)
Definition always_down : Env :=
  mkEnv (fun _ _ => Raise (ServerSelectionTimeoutError "timed out"))
        (fun _ => "mongodb://typed").

(** An endpoint that answers at once with client 7. *)
Definition always_up : Env :=
  mkEnv (fun _ _ => Ok 7%nat) (fun _ => "mongodb://typed").

(** The default settings with both connection strings given. *)
Definition configured : Config :=
  update_connection_strings default_config
    (Some "mongodb://source") (Some "mongodb://destination").


(** An operation that always fails on a Python error outside the
    driver. *)
Definition fails_outside_driver (s : State nat) : State nat * result Z :=
  (mkState (cm s) (io s) (S (ext s)), Raise (ValueError "bad document")).

(** A service with the default batch size, with and without a
    connection manager. *)
Definition managed_service : MigrationService.service :=
  MigrationService.mkService configured true 1000.

Definition bare_service : MigrationService.service :=
  MigrationService.mkService configured false 1000.

(** A source whose database listing always times out. *)
Definition listing_down : Scripted.Script :=
  {| Scripted.on_list_database_names :=
       fun _ => Raise (ServerSelectionTimeoutError "timed out");
     Scripted.on_list_collection_names := fun _ => Ok [];
     Scripted.on_create_collection := fun _ => Ok tt;
     Scripted.on_command := fun _ => Ok (mkReply (Some 1%Z));
     Scripted.on_count_documents := fun _ _ => Ok 0%Z;
     Scripted.on_find := fun _ => mkCursor [] None;
     Scripted.on_bulk_write := fun _ => Ok (mkBulkWriteResult 0 0 0) |}.

(** A source holding two user databases beside the system ones. *)
Definition shop_source : Memory.Store :=
  Memory.mkStore ["admin"; "shop"; "local"; "config"; "blog"] [] [] 100.

(** Documents [{"_id": i, "n": i}] for [i] from [first] on. *)
Definition numbered (first : Z) (n : nat) : list Doc :=
  map (fun i => [("_id", VInt (first + Z.of_nat i));
                 ("n", VInt (first + Z.of_nat i))])
      (seq 0 n).

(** A service without a manager that writes one document per batch. *)
Definition one_by_one : MigrationService.service :=
  MigrationService.mkService configured false 1.

(** A run in which the destination collection exists, the source holds
    three documents, every bulk write is refused by the server, and the
    source cursor breaks after yielding two documents. *)
Definition cursor_breaks : Scripted.Script :=
  {| Scripted.on_list_database_names := fun _ => Ok ["shop"];
     Scripted.on_list_collection_names := fun _ => Ok ["orders"];
     Scripted.on_create_collection := fun _ => Ok tt;
     Scripted.on_command := fun _ => Ok (mkReply (Some 1%Z));
     Scripted.on_count_documents :=
       fun role _ => match role with
                     | Source => Ok 3%Z
                     | Destination => Ok 0%Z
                     end;
     Scripted.on_find :=
       fun _ => mkCursor (numbered 1 2)
                         (Some (ConnectionFailure "connection closed"));
     Scripted.on_bulk_write :=
       fun _ => Raise (OperationFailure "Request rate is large") |}.

(** The details of a [BulkWriteError] as the driver builds them for a
    batch of ten upserts of which seven went through and three failed:
    the counters sit at the top level of the dictionary, and there is
    no ['writeResult'] entry. *)
Definition seven_of_ten : BulkDetails :=
  {| bd_counts := [("nInserted", 0); ("nUpserted", 7); ("nMatched", 0);
                   ("nModified", 0); ("nRemoved", 0)]%Z;
     bd_writeResult := None;
     bd_writeErrors :=
       Some [mkWriteError 2 "Request rate is large";
             mkWriteError 5 "Request rate is large";
             mkWriteError 8 "Request rate is large"] |}.

(** A destination whose bulk writes all end in that error. *)
Definition three_writes_fail : Scripted.Script :=
  {| Scripted.on_list_database_names := fun _ => Ok ["shop"];
     Scripted.on_list_collection_names := fun _ => Ok ["orders"];
     Scripted.on_create_collection := fun _ => Ok tt;
     Scripted.on_command := fun _ => Ok (mkReply (Some 1%Z));
     Scripted.on_count_documents := fun _ _ => Ok 10%Z;
     Scripted.on_find := fun _ => mkCursor (numbered 1 10) None;
     Scripted.on_bulk_write := fun _ => Raise (BulkWriteError seven_of_ten) |}.

(** A service without a manager that writes five documents per batch. *)
Definition five_by_five : MigrationService.service :=
  MigrationService.mkService configured false 5.

(** A destination that already holds one order. *)
Definition one_order : Memory.Store :=
  Memory.mkStore ["shop"] []
    [("shop", "orders", [[("_id", VInt 1); ("item", VStr "tea")]])] 100.

(** A source of five numbered documents and an empty destination. *)
Definition five_documents : Memory.Store :=
  Memory.mkStore ["shop"] [("shop", "orders", numbered 1 5)] [] 100.

(** A service without a manager that writes two documents per batch. *)
Definition two_by_two : MigrationService.service :=
  MigrationService.mkService configured false 2.

(** A destination on the fixed (vCore) branch whose listing does not
    show the collection while its creation is refused because the
    collection exists (it was created in between, or the listing lags). *)
Definition created_in_between : Scripted.Script :=
  {| Scripted.on_list_database_names := fun _ => Ok ["shop"];
     Scripted.on_list_collection_names := fun _ => Ok [];
     Scripted.on_create_collection :=
       fun _ => Raise (CollectionInvalid "collection orders already exists");
     Scripted.on_command := fun _ => Ok (mkReply (Some 1%Z));
     Scripted.on_count_documents := fun _ _ => Ok 0%Z;
     Scripted.on_find := fun _ => mkCursor [] None;
     Scripted.on_bulk_write := fun _ => Ok (mkBulkWriteResult 0 0 0) |}.

(** The default settings for a provisioned (RU) destination. *)
Definition ru_config : Config :=
  {| source_connection_string := Some "mongodb://source";
     dest_connection_string := Some "mongodb://destination";
     use_managed_identity := false;
     batch_size := 1000;
     timeout_ms := 30000;
     connection_retry_attempts := 5;
     connection_retry_delay_ms := 2000;
     operation_retry_attempts := 3;
     health_check_interval_seconds := 30;
     target_is_vcore := false;
     ru_throughput_mode := "manual";
     ru_manual_throughput := 400;
     ru_autoscale_max_throughput := 4000;
     ru_default_partition_key := "_id" |}.

(** Four orders: [sku] is in every order and never twice the same,
    [gift] is in two of the four and always ["yes"]. *)
Definition four_orders : list Doc :=
  [ [("_id", VInt 1); ("sku", VStr "a1"); ("gift", VStr "yes")];
    [("_id", VInt 2); ("sku", VStr "b2")];
    [("_id", VInt 3); ("gift", VStr "yes"); ("sku", VStr "c3")];
    [("_id", VInt 4); ("sku", VStr "d4")] ].

(** A source that holds these four orders. *)
Definition orders_source : Memory.Store :=
  Memory.mkStore ["shop"] [("shop", "orders", four_orders)] [] 100.

End Examples.

(** ** More of [src/connection_manager.py] *)

Module ConnectionLifecycle.

Import ConnectionManager.

(** An operation whose outcome is given by the number of times it has
    been called: the state of its own is that number. *)
Definition scripted_operation {A : Type} (outcome : nat -> result A)
    (s : State nat) : State nat * result A :=
  (mkState (cm s) (io s) (S (ext s)), outcome (ext s)).

(** A manager with its shutdown flag. *)
Record Managed := mkManaged {
  manager : t;
  _shutdown_requested : bool
}.

(** [ConnectionManager.close_connections].  [close_raises] tells for
    which clients [close()] raises; the call is recorded in the trace
    either way.  A role is marked unhealthy only when its [close()]
    returned; its handle is cleared in the [finally] clause.  (The wait
    for the monitor thread is not part of the model.) *)
Definition close_connections (close_raises : Client -> bool)
    (m : Managed) (w : World) : Managed * World :=
  let self := manager m in
  let '(self, w) :=
    match source_client self with
    | Some c =>
      (set_source self None
         (if close_raises c then _source_healthy self else false),
       close_client c w)
    | None => (self, w)
    end in
  let '(self, w) :=
    match dest_client self with
    | Some c =>
      (set_dest self None
         (if close_raises c then _dest_healthy self else false),
       close_client c w)
    | None => (self, w)
    end in
  (mkManaged self true, w).

(** One round of the loop of [ConnectionManager._health_monitor], before
    its sleep: each role that has a client is pinged, and its flag is set
    to whether the ping returned.  [ping] gives the outcome of
    [client.admin.command('ping')]. *)
Definition health_check (ping : Client -> result unit) (self : t) : t :=
  let self :=
    match source_client self with
    | Some c =>
      match ping c with
      | Ok _ => set_source self (Some c) true
      | Raise _ => set_source self (Some c) false
      end
    | None => self
    end in
  match dest_client self with
  | Some c =>
    match ping c with
    | Ok _ => set_dest self (Some c) true
    | Raise _ => set_dest self (Some c) false
    end
  | None => self
  end.

End ConnectionLifecycle.

(** ** [src/migration_service.py]: listing collections and migrating a
       whole database *)

Module DatabaseMigration.

Import ConnectionManager MigrationService.

Local Open Scope list_scope.

(** The dictionary [migrate_database] builds and returns when its loop
    ends. *)
Module Stats.

Record t := mk {
  total_collections : Z;
  successful_collections : Z;
  failed_collections : Z;
  total_documents : Z;
  migrated_documents : Z;
  failed_documents : Z
}.

End Stats.

(** What [migrate_database] returns: the statistics, or the dictionary
    [{"success": False, "error": str(e)}] of its handler. *)
Inductive Outcome :=
| Completed (stats : Stats.t)
| Aborted (error : string).

(** [stats[key] += collection_stats[key]].  The report of the early
    return of the RU branch holds none of the counters, so the subscript
    raises [KeyError] (whose text is the quoted key); a report whose
    count is [None] holds the key, and the addition raises
    [TypeError]. *)
Definition add_counter (key : string) (collection_stats : Report)
    (value : option Z) (total : Z) : result Z :=
  match value with
  | Some n => Ok (total + n)%Z
  | None =>
    match MigrationService.migrated_documents collection_stats with
    | None => Raise (OtherException ("'" ++ key ++ "'"))
    | Some _ =>
      Raise (OtherException
               "unsupported operand type(s) for +=: 'int' and 'NoneType'")
    end
  end.

(** The statements after [migrate_collection] in the loop body. *)
Definition update_statistics (stats : Stats.t) (collection_stats : Report)
    : result Stats.t :=
  let successful :=
    if success collection_stats
    then (Stats.successful_collections stats + 1)%Z
    else Stats.successful_collections stats in
  let failed :=
    if success collection_stats
    then Stats.failed_collections stats
    else (Stats.failed_collections stats + 1)%Z in
  match add_counter "total_documents" collection_stats
          (MigrationService.total_documents collection_stats)
          (Stats.total_documents stats) with
  | Raise e => Raise e
  | Ok total =>
    match add_counter "migrated_documents" collection_stats
            (MigrationService.migrated_documents collection_stats)
            (Stats.migrated_documents stats) with
    | Raise e => Raise e
    | Ok migrated =>
      match add_counter "failed_documents" collection_stats
              (MigrationService.failed_documents collection_stats)
              (Stats.failed_documents stats) with
      | Raise e => Raise e
      | Ok failures =>
        Ok (Stats.mk (Stats.total_collections stats) successful failed
                     total migrated failures)
      end
    end
  end.

Section Database.

Context {X : Type}.
Variable env : Env.
Variable drv : Driver X.
Variable self : service.

Definition _list_collections_operation (database_name : string)
    (s : State X) : State X * result (list string) :=
  match list_collection_names drv Source database_name (ext s) with
  | (x', Ok collection_names) => (set_ext s x', Ok collection_names)
  | (x', Raise e) => (set_ext s x', Raise e)
  end.

(** [MigrationService.list_collections]. *)
Definition list_collections (database_name : string) (s : State X)
    : State X * result (option (list string)) :=
  match run env self (_list_collections_operation database_name)
          "source" s with
  | (s', Ok names) => (s', Ok names)
  | (s', Raise e) =>
    if is_PyMongoError e then (s', Ok (Some [])) else (s', Raise e)
  end.

(** [MigrationService.get_collection_count]. *)
Definition get_collection_count (database_name collection_name : string)
    (s : State X) : State X * result (option Z) :=
  count_documents env drv self database_name collection_name s.

(** [for collection_name in collections: ...], with the reports of the
    collections it got to, oldest first. *)
Fixpoint migrate_collections (database_name : string)
    (collections : list string) (stats : Stats.t) (s : State X)
    : State X * result Stats.t * list Report :=
  match collections with
  | [] => (s, Ok stats, [])
  | collection_name :: rest =>
    let '(s1, collection_stats) :=
      migrate_collection env drv self database_name collection_name s in
    match update_statistics stats collection_stats with
    | Raise e => (s1, Raise e, [collection_stats])
    | Ok stats1 =>
      let '(s2, r, reports) :=
        migrate_collections database_name rest stats1 s1 in
      (s2, r, collection_stats :: reports)
    end
  end.

(** [MigrationService.migrate_database], with the reports of the
    collections it got to.  [len(None)] raises [TypeError]. *)
Definition migrate_database_trace (database_name : string) (s : State X)
    : State X * Outcome * list Report :=
  match list_collections database_name s with
  | (s1, Raise e) => (s1, Aborted (exc_str e), [])
  | (s1, Ok None) =>
    (s1, Aborted "object of type 'NoneType' has no len()", [])
  | (s1, Ok (Some collections)) =>
    match migrate_collections database_name collections
            (Stats.mk (Z.of_nat (List.length collections)) 0 0 0 0 0) s1 with
    | (s2, Ok stats, reports) => (s2, Completed stats, reports)
    | (s2, Raise e, reports) => (s2, Aborted (exc_str e), reports)
    end
  end.

(** [MigrationService.migrate_database]. *)
Definition migrate_database (database_name : string) (s : State X)
    : State X * Outcome :=
  fst (migrate_database_trace database_name s).

End Database.

End DatabaseMigration.

(** ** Notions used to state the properties of the transfer engine *)

Module Transfer.

Import MigrationService.

(** The statistics the write path makes of one answer of [bulk_write]
    to a batch of [n] documents: the counters of a result; for a
    [BulkWriteError], its write errors as failures beside what the
    details show as written; for any other exception, the whole batch
    as failed. *)
Definition batch_outcome (n : nat) (r : result BulkWriteResult)
    (stats : BatchStats) : Prop :=
  match r with
  | Ok res =>
    stats = mkBatchStats
              (inserted_count res + upserted_count res + modified_count res)
              0 (upserted_count res) (modified_count res)
              (Some (inserted_count res))
  | Raise (BulkWriteError details) =>
    failed stats
    = Z.of_nat (List.length (match bd_writeErrors details with
                             | Some l => l
                             | None => []
                             end))
    /\ inserted stats
       = (match raw_inserted stats with Some n => n | None => 0 end
          + upserted stats + modified stats)%Z
  | Raise _ => stats = mkBatchStats 0 (Z.of_nat n) 0 0 None
  end.

(** The sum of a counter over reports that all hold it. *)
Definition counter_sum (counter : Report -> option Z) (reports : list Report)
    : Z :=
  fold_right (fun r total =>
                (match counter r with Some n => n | None => 0 end + total)%Z)
             0%Z reports.

(** The number of reports with the given [success] flag. *)
Definition count_success (flag : bool) (reports : list Report) : Z :=
  Z.of_nat (List.length (filter (fun r => Bool.eqb (success r) flag) reports)).

(** [doc.get("_id")]. *)
Definition identity (doc : Doc) : option Value := lookup "_id" doc.

(** Documents that all carry an identity, no two of them the same. *)
Definition identified (docs : list Doc) : Prop :=
  Forall (fun doc => identity doc <> None) docs
  /\ NoDup (map identity docs).

(** A document as a server hands it out: the identity comes first and
    is the only entry under ["_id"]. *)
Definition as_stored (doc : Doc) : Prop :=
  exists id rest, doc = ("_id", id) :: rest /\ has_key "_id" rest = false.

(** The documents a store holds in a collection (none when the
    collection does not exist). *)
Definition held (database_name collection_name : string)
    (c : Memory.Collections) : list Doc :=
  match Memory.docs_of database_name collection_name c with
  | Some docs => docs
  | None => []
  end.

End Transfer.

(** ** [src/config.py]: loading the settings from the environment *)

Module ConfigLoader.

(** The characters of a text are its bytes; a text is ASCII when every
    byte is below 128.  [int] is modelled for ASCII texts (in a text
    with other characters Python also reads the digits and blanks of
    other scripts). *)
Definition is_ascii (s : string) : bool :=
  forallb (fun c => (nat_of_ascii c <? 128)%nat) (list_ascii_of_string s).

(** [Py_ISSPACE], the blanks [int] skips around an ASCII numeral: tab,
    line feed, vertical tab, form feed, carriage return and space. *)
Definition is_space (c : ascii) : bool :=
  let n := nat_of_ascii c in
  ((9 <=? n) && (n <=? 13) || (n =? 32))%nat.

Fixpoint lstrip (s : string) : string :=
  match s with
  | EmptyString => EmptyString
  | String c rest => if is_space c then lstrip rest else s
  end.

(** A decimal digit, as the step it adds in front of a numeral. *)
Definition digit (c : ascii) : option (Decimal.uint -> Decimal.uint) :=
  match c with
  | "0"%char => Some Decimal.D0
  | "1"%char => Some Decimal.D1
  | "2"%char => Some Decimal.D2
  | "3"%char => Some Decimal.D3
  | "4"%char => Some Decimal.D4
  | "5"%char => Some Decimal.D5
  | "6"%char => Some Decimal.D6
  | "7"%char => Some Decimal.D7
  | "8"%char => Some Decimal.D8
  | "9"%char => Some Decimal.D9
  | _ => None
  end.

(** Digits, with single underscores allowed between two digits. *)
Fixpoint parse_digits (s : string) : option Decimal.uint :=
  match s with
  | EmptyString => None
  | String c rest =>
    match digit c with
    | None => None
    | Some d =>
      match rest with
      | EmptyString => Some (d Decimal.Nil)
      | String "_"%char rest' => option_map d (parse_digits rest')
      | String _ _ => option_map d (parse_digits rest)
      end
    end
  end.

Definition is_digit (c : ascii) : bool :=
  match digit c with
  | Some _ => true
  | None => false
  end.

(** The longest run of digits and underscores at the head of [s], and
    what follows it. *)
Fixpoint scan (s : string) : string * string :=
  match s with
  | EmptyString => (EmptyString, EmptyString)
  | String c rest =>
    if is_digit c || Ascii.eqb c "_"
    then let '(run, tail) := scan rest in (String c run, tail)
    else (EmptyString, s)
  end.

(** The number of digits of a run. *)
Fixpoint count_digits (run : string) : Z :=
  match run with
  | EmptyString => 0
  | String c rest =>
    ((if is_digit c then 1 else 0) + count_digits rest)%Z
  end.

(** [sys.get_int_max_str_digits()], as the interpreter starts. *)
Definition max_str_digits : Z := 4300.

(** [int(s)] for an ASCII text: blanks, a sign, a run of digits with
    single underscores between digits, blanks.  The run is checked
    first (an empty run, or an underscore that does not stand between
    two digits, is an invalid literal), then its number of digits
    against the limit, then what follows it.  Both errors are
    [ValueError]; the text of the first quotes the argument (the escapes
    of [repr] are not modelled). *)
Definition py_int (s : string) : result Z :=
  let invalid :=
    Raise (ValueError
             ("invalid literal for int() with base 10: '" ++ s ++ "'")) in
  let body := lstrip s in
  let '(negative, unsigned) :=
    match body with
    | String "-"%char rest => (true, rest)
    | String "+"%char rest => (false, rest)
    | _ => (false, body)
    end in
  let '(run, tail) := scan unsigned in
  match parse_digits run with
  | None => invalid
  | Some d =>
    if (max_str_digits <? count_digits run)%Z
    then Raise (ValueError
                  ("Exceeds the limit (" ++ str_int max_str_digits
                   ++ " digits) for integer string conversion: value has "
                   ++ str_int (count_digits run)
                   ++ " digits; use sys.set_int_max_str_digits() "
                   ++ "to increase the limit"))
    else
      match lstrip tail with
      | EmptyString =>
        Ok (Z.of_int (if negative then Decimal.Neg d else Decimal.Pos d))
      | String _ _ => invalid
      end
  end.

(** The process environment, after [load_dotenv()] has added the
    entries of the [.env] file. *)
Definition Environ := string -> option string.

(** [os.getenv(key, default)]. *)
Definition getenv (environ : Environ) (key default : string) : string :=
  match environ key with
  | Some value => value
  | None => default
  end.

(** Assignments to the attributes of the [Config] object. *)
Definition set_connection_strings (source destination : option string)
    (self : Config) : Config :=
  mkConfig source destination (use_managed_identity self) (batch_size self)
    (timeout_ms self) (connection_retry_attempts self)
    (connection_retry_delay_ms self) (operation_retry_attempts self)
    (health_check_interval_seconds self) (target_is_vcore self)
    (ru_throughput_mode self) (ru_manual_throughput self)
    (ru_autoscale_max_throughput self) (ru_default_partition_key self).

Definition set_use_managed_identity (value : bool) (self : Config) : Config :=
  mkConfig (source_connection_string self) (dest_connection_string self)
    value (batch_size self)
    (timeout_ms self) (connection_retry_attempts self)
    (connection_retry_delay_ms self) (operation_retry_attempts self)
    (health_check_interval_seconds self) (target_is_vcore self)
    (ru_throughput_mode self) (ru_manual_throughput self)
    (ru_autoscale_max_throughput self) (ru_default_partition_key self).

Definition set_batch_size (value : Z) (self : Config) : Config :=
  mkConfig (source_connection_string self) (dest_connection_string self)
    (use_managed_identity self) value
    (timeout_ms self) (connection_retry_attempts self)
    (connection_retry_delay_ms self) (operation_retry_attempts self)
    (health_check_interval_seconds self) (target_is_vcore self)
    (ru_throughput_mode self) (ru_manual_throughput self)
    (ru_autoscale_max_throughput self) (ru_default_partition_key self).

Definition set_timeout_ms (value : Z) (self : Config) : Config :=
  mkConfig (source_connection_string self) (dest_connection_string self)
    (use_managed_identity self) (batch_size self)
    value (connection_retry_attempts self)
    (connection_retry_delay_ms self) (operation_retry_attempts self)
    (health_check_interval_seconds self) (target_is_vcore self)
    (ru_throughput_mode self) (ru_manual_throughput self)
    (ru_autoscale_max_throughput self) (ru_default_partition_key self).

Definition set_connection_retry_attempts (value : Z) (self : Config)
    : Config :=
  mkConfig (source_connection_string self) (dest_connection_string self)
    (use_managed_identity self) (batch_size self)
    (timeout_ms self) value
    (connection_retry_delay_ms self) (operation_retry_attempts self)
    (health_check_interval_seconds self) (target_is_vcore self)
    (ru_throughput_mode self) (ru_manual_throughput self)
    (ru_autoscale_max_throughput self) (ru_default_partition_key self).

Definition set_connection_retry_delay_ms (value : Z) (self : Config)
    : Config :=
  mkConfig (source_connection_string self) (dest_connection_string self)
    (use_managed_identity self) (batch_size self)
    (timeout_ms self) (connection_retry_attempts self)
    value (operation_retry_attempts self)
    (health_check_interval_seconds self) (target_is_vcore self)
    (ru_throughput_mode self) (ru_manual_throughput self)
    (ru_autoscale_max_throughput self) (ru_default_partition_key self).

Definition set_operation_retry_attempts (value : Z) (self : Config)
    : Config :=
  mkConfig (source_connection_string self) (dest_connection_string self)
    (use_managed_identity self) (batch_size self)
    (timeout_ms self) (connection_retry_attempts self)
    (connection_retry_delay_ms self) value
    (health_check_interval_seconds self) (target_is_vcore self)
    (ru_throughput_mode self) (ru_manual_throughput self)
    (ru_autoscale_max_throughput self) (ru_default_partition_key self).

Definition set_health_check_interval_seconds (value : Z) (self : Config)
    : Config :=
  mkConfig (source_connection_string self) (dest_connection_string self)
    (use_managed_identity self) (batch_size self)
    (timeout_ms self) (connection_retry_attempts self)
    (connection_retry_delay_ms self) (operation_retry_attempts self)
    value (target_is_vcore self)
    (ru_throughput_mode self) (ru_manual_throughput self)
    (ru_autoscale_max_throughput self) (ru_default_partition_key self).

Definition set_target_is_vcore (value : bool) (self : Config) : Config :=
  mkConfig (source_connection_string self) (dest_connection_string self)
    (use_managed_identity self) (batch_size self)
    (timeout_ms self) (connection_retry_attempts self)
    (connection_retry_delay_ms self) (operation_retry_attempts self)
    (health_check_interval_seconds self) value
    (ru_throughput_mode self) (ru_manual_throughput self)
    (ru_autoscale_max_throughput self) (ru_default_partition_key self).

Definition set_ru_throughput_mode (value : string) (self : Config) : Config :=
  mkConfig (source_connection_string self) (dest_connection_string self)
    (use_managed_identity self) (batch_size self)
    (timeout_ms self) (connection_retry_attempts self)
    (connection_retry_delay_ms self) (operation_retry_attempts self)
    (health_check_interval_seconds self) (target_is_vcore self)
    value (ru_manual_throughput self)
    (ru_autoscale_max_throughput self) (ru_default_partition_key self).

Definition set_ru_manual_throughput (value : Z) (self : Config) : Config :=
  mkConfig (source_connection_string self) (dest_connection_string self)
    (use_managed_identity self) (batch_size self)
    (timeout_ms self) (connection_retry_attempts self)
    (connection_retry_delay_ms self) (operation_retry_attempts self)
    (health_check_interval_seconds self) (target_is_vcore self)
    (ru_throughput_mode self) value
    (ru_autoscale_max_throughput self) (ru_default_partition_key self).

Definition set_ru_autoscale_max_throughput (value : Z) (self : Config)
    : Config :=
  mkConfig (source_connection_string self) (dest_connection_string self)
    (use_managed_identity self) (batch_size self)
    (timeout_ms self) (connection_retry_attempts self)
    (connection_retry_delay_ms self) (operation_retry_attempts self)
    (health_check_interval_seconds self) (target_is_vcore self)
    (ru_throughput_mode self) (ru_manual_throughput self)
    value (ru_default_partition_key self).

Definition set_ru_default_partition_key (value : string) (self : Config)
    : Config :=
  mkConfig (source_connection_string self) (dest_connection_string self)
    (use_managed_identity self) (batch_size self)
    (timeout_ms self) (connection_retry_attempts self)
    (connection_retry_delay_ms self) (operation_retry_attempts self)
    (health_check_interval_seconds self) (target_is_vcore self)
    (ru_throughput_mode self) (ru_manual_throughput self)
    (ru_autoscale_max_throughput self) value.

(** Statements that change the object and may raise. *)
Definition Step := Config -> Config * result unit.

Definition assign (update : Config -> Config) : Step :=
  fun self => (update self, Ok tt).

(** [self.<attribute> = int(os.getenv(key, default))]. *)
Definition assign_int (environ : Environ) (key default : string)
    (update : Z -> Config -> Config) : Step :=
  fun self =>
    match py_int (getenv environ key default) with
    | Ok value => (update value self, Ok tt)
    | Raise e => (self, Raise e)
    end.

Definition then_ (first second : Step) : Step :=
  fun self =>
    match first self with
    | (self', Ok _) => second self'
    | (self', Raise e) => (self', Raise e)
    end.

Notation "a ;; b" := (then_ a b) (at level 61, right associativity).

(** [Config.load_config]: the assignments in the order of the source;
    the handler logs and raises again.  [RETRY_ATTEMPTS] and
    [RETRY_DELAY_MS] are read and parsed, their attributes are read by no
    code embedded here. *)
Definition load_config (environ : Environ) : Step :=
  assign (set_connection_strings (environ "SOURCE_CONNECTION_STRING")
                                 (environ "DEST_CONNECTION_STRING")) ;;
  assign (set_use_managed_identity
            (String.eqb (lower (getenv environ "USE_MANAGED_IDENTITY"
                                       "False")) "true")) ;;
  assign_int environ "BATCH_SIZE" "1000" set_batch_size ;;
  assign_int environ "TIMEOUT_MS" "30000" set_timeout_ms ;;
  assign_int environ "RETRY_ATTEMPTS" "3" (fun _ self => self) ;;
  assign_int environ "RETRY_DELAY_MS" "1000" (fun _ self => self) ;;
  assign_int environ "CONNECTION_RETRY_ATTEMPTS" "5"
    set_connection_retry_attempts ;;
  assign_int environ "CONNECTION_RETRY_DELAY_MS" "2000"
    set_connection_retry_delay_ms ;;
  assign_int environ "OPERATION_RETRY_ATTEMPTS" "3"
    set_operation_retry_attempts ;;
  assign_int environ "HEALTH_CHECK_INTERVAL_SECONDS" "30"
    set_health_check_interval_seconds ;;
  assign (set_target_is_vcore
            (String.eqb (lower (getenv environ "TARGET_IS_VCORE" "true"))
                        "true")) ;;
  assign (set_ru_throughput_mode
            (lower (getenv environ "RU_THROUGHPUT_MODE" "manual"))) ;;
  assign_int environ "RU_MANUAL_THROUGHPUT" "400" set_ru_manual_throughput ;;
  assign_int environ "RU_AUTOSCALE_MAX_THROUGHPUT" "4000"
    set_ru_autoscale_max_throughput ;;
  assign (set_ru_default_partition_key
            (getenv environ "RU_DEFAULT_PARTITION_KEY" "_id")).

(** The integer settings: the variable, its default, and the attribute
    it ends up in (none for the two that no embedded code reads). *)
Definition integer_settings : list (string * Z * option (Config -> Z)) :=
  [ ("BATCH_SIZE", 1000%Z, Some batch_size);
    ("TIMEOUT_MS", 30000%Z, Some timeout_ms);
    ("RETRY_ATTEMPTS", 3%Z, None);
    ("RETRY_DELAY_MS", 1000%Z, None);
    ("CONNECTION_RETRY_ATTEMPTS", 5%Z, Some connection_retry_attempts);
    ("CONNECTION_RETRY_DELAY_MS", 2000%Z, Some connection_retry_delay_ms);
    ("OPERATION_RETRY_ATTEMPTS", 3%Z, Some operation_retry_attempts);
    ("HEALTH_CHECK_INTERVAL_SECONDS", 30%Z,
     Some health_check_interval_seconds);
    ("RU_MANUAL_THROUGHPUT", 400%Z, Some ru_manual_throughput);
    ("RU_AUTOSCALE_MAX_THROUGHPUT", 4000%Z,
     Some ru_autoscale_max_throughput) ].

End ConfigLoader.

(** ** [src/cosmos_ru_manager.py], [src/migration_service.py],
       [src/main.py]: detecting the target and starting the tool *)

Module Startup.

Import ConnectionManager ConfigLoader.

(** What the detection reads of the reply to [serverStatus]:
    [str(result)] and [str(result.get("host", ""))]. *)
Record ServerStatus := mkServerStatus {
  status_text : string;
  status_host : string
}.

(** The three calls of the detection on the destination client: the
    [serverStatus] command on [admin], the [CreateCollection] command
    with 400 RU on [_temp_detection_test], and [drop_collection]. *)
Record Probe (X : Type) := mkProbe {
  server_status : X -> X * result ServerStatus;
  create_test_collection : X -> X * result Reply;
  drop_collection : X -> X * result unit
}.
Arguments server_status {X} p.
Arguments create_test_collection {X} p.
Arguments drop_collection {X} p.

(** [CosmosDBRUManager.detect_cosmos_db_type]. *)
Definition detect_cosmos_db_type {X : Type} (probe : Probe X) (x : X)
    : X * string :=
  match server_status probe x with
  | (x1, Raise _) => (x1, "unknown")
  | (x1, Ok result) =>
    if contains "cosmos" (lower (status_text result))
       || contains "microsoft" (lower (status_host result))
    then
      match create_test_collection probe x1 with
      | (x2, Ok _) =>
        let '(x3, _) := drop_collection probe x2 in (x3, "ru")
      | (x2, Raise e) =>
        if is_OperationFailure e then (x2, "vcore") else (x2, "unknown")
      end
    else (x1, "unknown")
  end.

(** [MigrationService.__init__]: the service, and the configuration
    object after the detection has overridden its target type.
    [connection_manager] tells whether a manager is passed. *)
Definition __init__ {X : Type} (probe : Probe X) (config : Config)
    (connection_manager : bool) (batch_size : Z) (x : X)
    : X * MigrationService.service :=
  let '(x', detected_target_type) := detect_cosmos_db_type probe x in
  let config :=
    if String.eqb detected_target_type "ru"
    then set_target_is_vcore false config
    else if String.eqb detected_target_type "vcore"
    then set_target_is_vcore true config
    else config in
  (x', MigrationService.mkService config connection_manager batch_size).

(** How [main] ends: its exit code, the manager, the connection trace
    and the stores as it leaves them (if it got to build a manager), and
    the service it started (if it got that far). *)
Record Exit (X : Type) := mkExit {
  exit_code : Z;
  reached : option (State X);
  started : option MigrationService.service
}.
Arguments mkExit {X} exit_code reached started.
Arguments exit_code {X} e.
Arguments reached {X} e.
Arguments started {X} e.

Section Main.

Context {X : Type}.
Variable environ : Environ.
Variable env : Env.
Variable probe : Probe X.

(** [CLI.run_interactive_mode], whatever the user does in it. *)
Variable run_interactive_mode :
  MigrationService.service -> State X -> State X * result unit.

(** [main], called without a command-line argument.  The configuration
    is one object, shared by the manager and the service; the service is
    built with the default batch size of its constructor. *)
Definition main (w : World) (x : X) : Exit X :=
  match load_config environ default_config with
  | (_, Raise _) => mkExit 1 None None
  | (config, Ok _) =>
    let connection_manager := init config in
    let '(connection_manager, w, source_client) :=
      connect_to_source env connection_manager w in
    match source_client with
    | None => mkExit 1 (Some (mkState connection_manager w x)) None
    | Some _ =>
      let '(connection_manager, w, destination_client) :=
        connect_to_destination env connection_manager w in
      match destination_client with
      | None => mkExit 1 (Some (mkState connection_manager w x)) None
      | Some _ =>
        let '(x, migration_service) :=
          __init__ probe (ConnectionManager.config connection_manager)
            true 1000 x in
        let connection_manager :=
          set_config connection_manager
            (MigrationService.config migration_service) in
        match run_interactive_mode migration_service
                (mkState connection_manager w x) with
        | (s, Ok _) => mkExit 0 (Some s) (Some migration_service)
        | (s, Raise _) => mkExit 1 (Some s) (Some migration_service)
        end
      end
    end
  end.

End Main.

End Startup.

(** ** More inputs for the statements below *)

Module Examples2.

Import ConnectionManager.

(** The configured settings with another number of connection tries. *)
Definition with_attempts (n : Z) : Config :=
  {| source_connection_string := Some "mongodb://source";
     dest_connection_string := Some "mongodb://destination";
     use_managed_identity := false;
     batch_size := 1000;
     timeout_ms := 30000;
     connection_retry_attempts := n;
     connection_retry_delay_ms := 2000;
     operation_retry_attempts := 3;
     health_check_interval_seconds := 30;
     target_is_vcore := true;
     ru_throughput_mode := "manual";
     ru_manual_throughput := 400;
     ru_autoscale_max_throughput := 4000;
     ru_default_partition_key := "_id" |}.

(** The configured settings with managed identity switched on. *)
Definition with_managed_identity : Config :=
  {| source_connection_string := Some "mongodb://source";
     dest_connection_string := Some "mongodb://destination";
     use_managed_identity := true;
     batch_size := 1000;
     timeout_ms := 30000;
     connection_retry_attempts := 5;
     connection_retry_delay_ms := 2000;
     operation_retry_attempts := 3;
     health_check_interval_seconds := 30;
     target_is_vcore := true;
     ru_throughput_mode := "manual";
     ru_manual_throughput := 400;
     ru_autoscale_max_throughput := 4000;
     ru_default_partition_key := "_id" |}.

(** The configured settings with another number of operation tries. *)
Definition with_operation_attempts (n : Z) : Config :=
  {| source_connection_string := Some "mongodb://source";
     dest_connection_string := Some "mongodb://destination";
     use_managed_identity := false;
     batch_size := 1000;
     timeout_ms := 30000;
     connection_retry_attempts := 5;
     connection_retry_delay_ms := 2000;
     operation_retry_attempts := n;
     health_check_interval_seconds := 30;
     target_is_vcore := true;
     ru_throughput_mode := "manual";
     ru_manual_throughput := 400;
     ru_autoscale_max_throughput := 4000;
     ru_default_partition_key := "_id" |}.

(** An endpoint that first refuses the credentials (not a connection
    failure), then times out, then answers with client 7. *)
Definition refused_then_down : Env :=
  mkEnv (fun _ n =>
           match n with
           | O => Raise (OperationFailure "Authentication failed")
           | S O => Raise (ServerSelectionTimeoutError "timed out")
           | _ => Ok 7%nat
           end)
        (fun _ => "mongodb://typed").

(** An endpoint that refuses the credentials twice (not a connection
    failure), then answers with client 7. *)
Definition refused_twice : Env :=
  mkEnv (fun _ n =>
           if (n <? 2)%nat
           then Raise (OperationFailure "Authentication failed")
           else Ok 7%nat)
        (fun _ => "mongodb://typed").

(** An endpoint that times out once, then answers with client 7. *)
Definition down_once : Env :=
  mkEnv (fun _ n =>
           match n with
           | O => Raise (ServerSelectionTimeoutError "timed out")
           | _ => Ok 7%nat
           end)
        (fun _ => "mongodb://typed").

(** The configured settings with another delay between connection
    tries, in milliseconds. *)
Definition with_delay (ms : Z) : Config :=
  {| source_connection_string := Some "mongodb://source";
     dest_connection_string := Some "mongodb://destination";
     use_managed_identity := false;
     batch_size := 1000;
     timeout_ms := 30000;
     connection_retry_attempts := 5;
     connection_retry_delay_ms := ms;
     operation_retry_attempts := 3;
     health_check_interval_seconds := 30;
     target_is_vcore := true;
     ru_throughput_mode := "manual";
     ru_manual_throughput := 400;
     ru_autoscale_max_throughput := 4000;
     ru_default_partition_key := "_id" |}.

(** A provisioned destination whose listing does not show the
    collection and whose creation command is refused because the
    collection already exists. *)
Definition namespace_exists : Scripted.Script :=
  {| Scripted.on_list_database_names := fun _ => Ok ["shop"];
     Scripted.on_list_collection_names := fun _ => Ok [];
     Scripted.on_create_collection := fun _ => Ok tt;
     Scripted.on_command :=
       fun _ => Raise (OperationFailure
                         ("Collection shop.orders already exists, "
                          ++ "full error: {'ok': 0.0, 'code': 48, "
                          ++ "'codeName': 'NamespaceExists'}"));
     Scripted.on_count_documents := fun _ _ => Ok 0%Z;
     Scripted.on_find := fun _ => mkCursor [] None;
     Scripted.on_bulk_write := fun _ => Ok (mkBulkWriteResult 0 0 0) |}.


(** An operation that times out twice and then returns 42. *)
Definition third_time_lucky (n : nat) : result Z :=
  if (n <? 2)%nat then Raise (ServerSelectionTimeoutError "timed out")
  else Ok 42%Z.

(** A destination that holds the collection and a source whose counts
    always time out. *)
Definition count_times_out : Scripted.Script :=
  {| Scripted.on_list_database_names := fun _ => Ok ["shop"];
     Scripted.on_list_collection_names := fun _ => Ok ["orders"];
     Scripted.on_create_collection := fun _ => Ok tt;
     Scripted.on_command := fun _ => Ok (mkReply (Some 1%Z));
     Scripted.on_count_documents :=
       fun _ _ => Raise (ServerSelectionTimeoutError "timed out");
     Scripted.on_find := fun _ => mkCursor (Examples.numbered 1 10) None;
     Scripted.on_bulk_write := fun _ => Ok (mkBulkWriteResult 0 0 0) |}.

(** A source database with a view catalogue beside its collection of
    three orders, and an empty destination. *)
Definition two_collections : Memory.Store :=
  Memory.mkStore ["shop"]
    [("shop", "system.views", []);
     ("shop", "orders", Examples.numbered 1 3)] [] 100.

(** A source database of two collections and an RU destination that
    lists neither and answers every command with a throttling error. *)
Definition creation_throttled : Scripted.Script :=
  {| Scripted.on_list_database_names := fun _ => Ok ["shop"];
     Scripted.on_list_collection_names :=
       fun n => match n with
                | O => Ok ["orders"; "users"]
                | S _ => Ok []
                end;
     Scripted.on_create_collection := fun _ => Ok tt;
     Scripted.on_command :=
       fun _ => Raise (OperationFailure "Request rate is large");
     Scripted.on_count_documents := fun _ _ => Ok 3%Z;
     Scripted.on_find := fun _ => mkCursor (Examples.numbered 1 3) None;
     Scripted.on_bulk_write := fun _ => Ok (mkBulkWriteResult 0 3 0) |}.

(** A service with a manager for an RU destination. *)
Definition ru_service : MigrationService.service :=
  MigrationService.mkService Examples.ru_config true 1000.

(** The five numbered documents after they were copied: source and
    destination hold the same collection. *)
Definition five_copied : Memory.Store :=
  Memory.mkStore ["shop"] [("shop", "orders", Examples.numbered 1 5)]
    [("shop", "orders", Examples.numbered 1 5)] 100.

(** Two customers: [city] and [name] are in both documents, each with
    two different values, and [city] comes first. *)
Definition two_tied_fields : list Doc :=
  [ [("_id", VInt 1); ("city", VStr "Lyon"); ("name", VStr "Ada")];
    [("_id", VInt 2); ("name", VStr "Bob"); ("city", VStr "Nice")] ].

(** An environment that asks for batches of 50 and (by mistake) for a
    negative connection delay, and one whose batch size is spelled out. *)
Definition small_batches : ConfigLoader.Environ :=
  fun key =>
    if String.eqb key "BATCH_SIZE" then Some "50"
    else if String.eqb key "CONNECTION_RETRY_DELAY_MS" then Some "-1"
    else None.

Definition batch_size_in_words : ConfigLoader.Environ :=
  fun key =>
    if String.eqb key "BATCH_SIZE" then Some "one thousand"
    else if String.eqb key "SOURCE_CONNECTION_STRING"
    then Some "mongodb://source"
    else None.

(** An environment that gives both connection strings and nothing
    else. *)
Definition both_given : ConfigLoader.Environ :=
  fun key =>
    if String.eqb key "SOURCE_CONNECTION_STRING"
    then Some "mongodb://source"
    else if String.eqb key "DEST_CONNECTION_STRING"
    then Some "mongodb://destination"
    else None.

(** A destination whose server status names neither Cosmos DB nor
    Microsoft; the state counts the calls. *)
Definition plain_mongodb : Startup.Probe nat :=
  {| Startup.server_status :=
       fun n => (S n, Ok (Startup.mkServerStatus
                            "{'host': 'db1', 'version': '7.0.2', 'ok': 1.0}"
                            "db1"));
     Startup.create_test_collection :=
       fun n => (S n, Raise (OperationFailure "no such command"));
     Startup.drop_collection := fun n => (S n, Ok tt) |}.

(** A user who leaves the menu at once. *)
Definition quits_at_once (service : MigrationService.service)
    (s : ConnectionManager.State nat)
    : ConnectionManager.State nat * result unit :=
  (s, Ok tt).

(** A source whose cursor yields 150 numbered documents and then
    loses its connection. *)
Definition breaks_after_150 : Scripted.Script :=
  {| Scripted.on_list_database_names := fun _ => Ok ["shop"];
     Scripted.on_list_collection_names := fun _ => Ok [];
     Scripted.on_create_collection := fun _ => Ok tt;
     Scripted.on_command := fun _ => Ok (mkReply (Some 1%Z));
     Scripted.on_count_documents := fun _ _ => Ok 150%Z;
     Scripted.on_find :=
       fun _ => mkCursor (Examples.numbered 1 150)
                         (Some (ConnectionFailure "connection closed"));
     Scripted.on_bulk_write := fun _ => Ok (mkBulkWriteResult 0 0 0) |}.

(** The service [main] starts in the environment [small_batches] when
    both endpoints answer and the user types both connection strings. *)
Definition started_with_small_batches : MigrationService.service :=
  MigrationService.mkService
    {| source_connection_string := Some "mongodb://typed";
       dest_connection_string := Some "mongodb://typed";
       use_managed_identity := false;
       batch_size := 50;
       timeout_ms := 30000;
       connection_retry_attempts := 5;
       connection_retry_delay_ms := -1;
       operation_retry_attempts := 3;
       health_check_interval_seconds := 30;
       target_is_vcore := true;
       ru_throughput_mode := "manual";
       ru_manual_throughput := 400;
       ru_autoscale_max_throughput := 4000;
       ru_default_partition_key := "_id" |}
    true 1000.

End Examples2.

(** * Properties *)

From Stdlib Require Import Lqa Permutation.

(** ** The connection layer *)

Module ConnectionFacts.

Import ConnectionManager.

Lemma pow2_pos (a : Z) : (0 <= a)%Z -> (0 < 2 ^ a)%Z.
Proof. intros. apply Z.pow_pos_nonneg; lia. Qed.

Lemma inject_Z_nonneg (z : Z) : (0 <= z)%Z -> 0 <= inject_Z z.
Proof. intros H. unfold Qle; simpl. lia. Qed.

Lemma base_seconds_nonneg (b : Z) : (0 <= b)%Z -> 0 <= inject_Z b / 1000.
Proof. intros H. unfold Qle, Qdiv, Qmult, Qinv; simpl. lia. Qed.

Lemma plain_delay_nonneg (b a : Z) :
  (0 <= b)%Z -> (0 <= a)%Z -> 0 <= plain_delay b a.
Proof.
  intros Hb Ha. unfold plain_delay.
  apply Qmult_le_0_compat.
  - now apply base_seconds_nonneg.
  - apply inject_Z_nonneg. pose proof (pow2_pos a Ha). lia.
Qed.

Lemma backoff_delay_split (b a : Z) :
  backoff_delay b a = plain_delay b a + inject_Z a * (1 # 10).
Proof. reflexivity. Qed.

Lemma backoff_delay_nonneg (b a : Z) :
  (0 <= b)%Z -> (0 <= a)%Z -> 0 <= backoff_delay b a.
Proof.
  intros Hb Ha. rewrite backoff_delay_split.
  pose proof (plain_delay_nonneg b a Hb Ha).
  pose proof (inject_Z_nonneg a Ha). lra.
Qed.

Lemma plain_delay_succ (b a : Z) :
  (0 <= a)%Z -> plain_delay b (a + 1) == 2 * plain_delay b a.
Proof.
  intros Ha. unfold plain_delay.
  rewrite Z.pow_add_r by lia. rewrite inject_Z_mult.
  change (inject_Z (2 ^ 1)) with 2. ring.
Qed.

Lemma backoff_delay_step (b a : Z) :
  (0 <= b)%Z -> (0 <= a)%Z -> backoff_delay b a < backoff_delay b (a + 1).
Proof.
  intros Hb Ha. rewrite !backoff_delay_split.
  rewrite plain_delay_succ by assumption.
  rewrite inject_Z_plus. change (inject_Z 1) with 1.
  pose proof (plain_delay_nonneg b a Hb Ha). lra.
Qed.

Lemma backoff_delay_increasing (b : Z) (i j : nat) :
  (0 <= b)%Z -> (i < j)%nat ->
  backoff_delay b (Z.of_nat i) < backoff_delay b (Z.of_nat j).
Proof.
  intros Hb Hij. induction Hij.
  - replace (Z.of_nat (S i)) with (Z.of_nat i + 1)%Z by lia.
    apply backoff_delay_step; lia.
  - eapply Qlt_trans; [exact IHHij|].
    replace (Z.of_nat (S m)) with (Z.of_nat m + 1)%Z by lia.
    apply backoff_delay_step; lia.
Qed.

Lemma sleep_nonneg (d : Q) (w : World) :
  0 <= d -> sleep d w = Ok (mkWorld (tries w) (slept w ++ [d]) (closed w)).
Proof.
  intros H. unfold sleep. apply Qle_bool_iff in H. now rewrite H.
Qed.

(** *** The range of the delays *)

Lemma float_overflows_small (n : Z) :
  (0 <= n < 2 ^ 1023)%Z -> float_overflows n = false.
Proof.
  intros H. unfold float_overflows. apply Z.leb_gt.
  rewrite Z.abs_eq by lia.
  assert (2 ^ 1023 <= 2 ^ 1024 - 2 ^ 970)%Z
    by (apply Z.leb_le; vm_compute; reflexivity).
  lia.
Qed.

Lemma float_overflows_pow2 (a : Z) :
  (0 <= a < 1024)%Z -> float_overflows (2 ^ a) = false.
Proof.
  intros H. unfold float_overflows. apply Z.leb_gt.
  rewrite Z.abs_eq by (apply Z.pow_nonneg; lia).
  assert (2 ^ a <= 2 ^ 1023)%Z by (apply Z.pow_le_mono_r; lia).
  assert (2 ^ 1023 < 2 ^ 1024 - 2 ^ 970)%Z
    by (apply Z.ltb_lt; vm_compute; reflexivity).
  lia.
Qed.

Lemma sleep_float_in_range (d : Q) (w : World) :
  0 <= d -> d < sleep_limit ->
  sleep_float d w = Ok (mkWorld (tries w) (slept w ++ [d]) (closed w)).
Proof.
  intros H0 H1. unfold sleep_float.
  assert (Ha : Qle_bool sleep_limit d = false).
  { destruct (Qle_bool sleep_limit d) eqn:E; [|reflexivity].
    apply Qle_bool_iff in E. exfalso. apply (Qlt_not_le _ _ H1 E). }
  assert (Hb : Qle_bool (- sleep_limit) d = true).
  { apply Qle_bool_iff. eapply Qle_trans; [|exact H0].
    apply Qle_bool_iff. vm_compute. reflexivity. }
  rewrite Ha, Hb. cbn [orb negb]. now apply sleep_nonneg.
Qed.

Lemma base_below_plain_delay (b a : Z) :
  (0 <= b)%Z -> (0 <= a)%Z -> inject_Z b / 1000 <= plain_delay b a.
Proof.
  intros Hb Ha. unfold plain_delay.
  pose proof (base_seconds_nonneg b Hb) as H.
  assert (1 <= inject_Z (2 ^ a)).
  { change 1 with (inject_Z 1). rewrite <- Zle_Qle.
    pose proof (pow2_pos a Ha). lia. }
  set (x := inject_Z b / 1000) in *. set (y := inject_Z (2 ^ a)) in *.
  setoid_replace x with (x * 1) at 1 by ring.
  apply Qmult_le_compat_nonneg; split; try assumption; lra.
Qed.

Lemma plain_delay_le_backoff_delay (b a : Z) :
  (0 <= a)%Z -> plain_delay b a <= backoff_delay b a.
Proof.
  intros Ha. rewrite backoff_delay_split.
  pose proof (inject_Z_nonneg a Ha). lra.
Qed.

(** A base delay that gives a delay within the range of [time.sleep]
    converts to a float. *)
Lemma base_in_range (b : Z) :
  (0 <= b)%Z -> inject_Z b / 1000 < sleep_limit -> float_overflows b = false.
Proof.
  intros Hb H. apply float_overflows_small. split; [exact Hb|].
  assert (H' : (b < 2 ^ 63)%Z).
  { unfold sleep_limit, Qlt, Qdiv, Qmult, Qinv, inject_Z in H.
    cbn [Qnum Qden] in H.
    change ((10 ^ 9)%positive) with 1000000000%positive in H.
    change ((2 ^ 63)%Z) with 9223372036854775808%Z in *. lia. }
  assert (2 ^ 63 < 2 ^ 1023)%Z by (apply Z.pow_lt_mono_r; lia).
  lia.
Qed.

Section Loop.

Variable env : Env.
Variable cfg : Config.
Variable cs : option string.
Variable ct : string.
Hypothesis base_nonneg : (0 <= connection_retry_delay_ms cfg)%Z.

Lemma delay_after_nonneg (e : PyExc) (a : Z) :
  (0 <= a)%Z -> 0 <= delay_after cfg e a.
Proof.
  intros Ha. unfold delay_after. destruct (is_ConnectionFailure e).
  - now apply backoff_delay_nonneg.
  - now apply plain_delay_nonneg.
Qed.

Lemma plain_delay_le_delay_after (e : PyExc) (a : Z) :
  (0 <= a)%Z ->
  plain_delay (connection_retry_delay_ms cfg) a <= delay_after cfg e a.
Proof.
  intros Ha. unfold delay_after. destruct (is_ConnectionFailure e).
  - now apply plain_delay_le_backoff_delay.
  - apply Qle_refl.
Qed.

(** A handler whose delay is in range sleeps it. *)
Lemma wait_before_retry_sleeps (e : PyExc) (a : Z) (w : World) :
  (0 <= a < 1024)%Z ->
  delay_after cfg e a < sleep_limit ->
  wait_before_retry (is_ConnectionFailure e) (connection_retry_delay_ms cfg)
    a w
  = Ok (mkWorld (tries w) (slept w ++ [delay_after cfg e a]) (closed w)).
Proof.
  intros Ha Hd. unfold wait_before_retry.
  assert (Hbase : float_overflows (connection_retry_delay_ms cfg) = false).
  { apply base_in_range; [exact base_nonneg|].
    eapply Qle_lt_trans; [|exact Hd].
    eapply Qle_trans; [|apply plain_delay_le_delay_after; lia].
    apply base_below_plain_delay; [exact base_nonneg|lia]. }
  rewrite Hbase, (float_overflows_pow2 a Ha). cbn [orb].
  apply sleep_float_in_range; [|exact Hd].
  apply delay_after_nonneg. lia.
Qed.

(** A failed try that is not the last sleeps and goes round again. *)
Lemma loop_retry (remaining : nat) (attempt : Z) (w : World) (e : PyExc) :
  (0 <= attempt < 1024)%Z ->
  (attempt < connection_retry_attempts cfg - 1)%Z ->
  delay_after cfg e attempt < sleep_limit ->
  mongo_client env cs (tries w) = Raise e ->
  create_client_loop env cfg cs ct (S remaining) attempt w =
  create_client_loop env cfg cs ct remaining (attempt + 1)%Z
    (mkWorld (S (tries w)) (slept w ++ [delay_after cfg e attempt])
             (closed w)).
Proof.
  intros Ha Hlt Hd He. cbn [create_client_loop]. rewrite He.
  apply Z.ltb_lt in Hlt. rewrite Hlt.
  pose proof (wait_before_retry_sleeps e attempt (count_try w) Ha Hd) as Hw.
  destruct (is_ConnectionFailure e); rewrite Hw; reflexivity.
Qed.

(** The last try, when it fails, raises. *)
Lemma loop_last (attempt : Z) (w : World) (e : PyExc) :
  (attempt = connection_retry_attempts cfg - 1)%Z ->
  mongo_client env cs (tries w) = Raise e ->
  create_client_loop env cfg cs ct 1 attempt w =
  (count_try w, Raise (final_error cfg ct e)).
Proof.
  intros Ha He. simpl. rewrite He.
  assert (Hlt : (attempt <? connection_retry_attempts cfg - 1)%Z = false)
    by (apply Z.ltb_ge; lia).
  rewrite Hlt. unfold final_error. now destruct (is_ConnectionFailure e).
Qed.

(** [k] failed tries, each followed by a delay in range, then a try
    that succeeds. *)
Lemma loop_succeeds (k : nat) :
  forall (remaining : nat) (attempt : Z) (w : World) (c : Client)
         (errs : nat -> PyExc),
    (0 <= attempt)%Z ->
    (attempt + Z.of_nat k < connection_retry_attempts cfg)%Z ->
    (attempt + Z.of_nat k <= 1024)%Z ->
    (k < remaining)%nat ->
    (forall i, (i < k)%nat ->
       mongo_client env cs (tries w + i) = Raise (errs i)) ->
    (forall i, (i < k)%nat ->
       delay_after cfg (errs i) (attempt + Z.of_nat i) < sleep_limit) ->
    mongo_client env cs (tries w + k) = Ok c ->
    create_client_loop env cfg cs ct remaining attempt w =
    (mkWorld (tries w + (k + 1))
       (slept w ++ map (fun i => delay_after cfg (errs i)
                                   (attempt + Z.of_nat i)) (seq 0 k))
       (closed w),
     Ok (Some c)).
Proof.
  induction k as [|k IH];
    intros remaining attempt w c errs Ha Hk Hcap Hrem Hfail Hdelay Hok.
  - destruct remaining as [|remaining]; [lia|].
    simpl. rewrite Nat.add_0_r in Hok. rewrite Hok.
    unfold count_try. rewrite app_nil_r.
    now replace (tries w + 1)%nat with (S (tries w)) by lia.
  - destruct remaining as [|remaining]; [lia|].
    pose proof (Hfail 0%nat ltac:(lia)) as He. rewrite Nat.add_0_r in He.
    pose proof (Hdelay 0%nat ltac:(lia)) as Hd.
    rewrite Z.add_0_r in Hd.
    rewrite (loop_retry remaining attempt w (errs 0%nat) ltac:(lia)
               ltac:(lia) Hd He).
    rewrite (IH remaining (attempt + 1)%Z _ c (fun i => errs (S i)));
      simpl tries; try lia.
    + simpl slept. simpl closed. f_equal. f_equal; [lia|].
      rewrite <- app_assoc. f_equal. simpl. f_equal.
      * f_equal. lia.
      * rewrite <- seq_shift, map_map. apply map_ext. intros i.
        f_equal. lia.
    + intros i Hi.
      replace (S (tries w) + i)%nat with (tries w + S i)%nat by lia.
      apply Hfail. lia.
    + intros i Hi.
      replace (attempt + 1 + Z.of_nat i)%Z
        with (attempt + Z.of_nat (S i))%Z by lia.
      apply Hdelay. lia.
    + now replace (S (tries w) + k)%nat with (tries w + S k)%nat by lia.
Qed.

End Loop.

(** When no try connects, the loop ends by raising: the error of the
    last try, or the error of a delay that cannot be computed or
    slept. *)
Lemma loop_raises (env : Env) (cfg : Config) (cs : option string)
    (ct : string) (remaining : nat) :
  forall (attempt : Z) (w : World),
    (attempt + Z.of_nat (S remaining) = connection_retry_attempts cfg)%Z ->
    (forall n, exists e, mongo_client env cs n = Raise e) ->
    exists e,
      snd (create_client_loop env cfg cs ct (S remaining) attempt w)
      = Raise e.
Proof.
  induction remaining as [|remaining IH]; intros attempt w Hn Hfail;
    destruct (Hfail (tries w)) as [e He];
    cbn [create_client_loop]; rewrite He.
  - assert (Hlt : (attempt <? connection_retry_attempts cfg - 1)%Z = false)
      by (apply Z.ltb_ge; lia).
    rewrite Hlt. destruct (is_ConnectionFailure e); cbn [snd]; eauto.
  - assert (Hlt : (attempt <? connection_retry_attempts cfg - 1)%Z = true)
      by (apply Z.ltb_lt; lia).
    rewrite Hlt.
    destruct (is_ConnectionFailure e);
      match goal with
      | |- context [wait_before_retry ?j ?b ?a ?w1] =>
        destruct (wait_before_retry j b a w1) as [w2|e']
      end;
      try (cbn [snd]; eauto; fail);
      apply IH; try assumption; lia.
Qed.

Lemma create_client_raises (env : Env) (cfg : Config) (cs : option string)
    (ct : string) (w : World) :
  (1 <= connection_retry_attempts cfg)%Z ->
  (forall n, exists e, mongo_client env cs n = Raise e) ->
  exists e,
    snd (_create_mongo_client_with_retry env cfg cs ct w) = Raise e.
Proof.
  intros Hn Hfail. unfold _create_mongo_client_with_retry.
  replace (Z.to_nat (connection_retry_attempts cfg))
    with (S (Z.to_nat (connection_retry_attempts cfg) - 1)) by lia.
  apply loop_raises; [lia|exact Hfail].
Qed.

Lemma create_client_without_tries (env : Env) (cfg : Config)
    (cs : option string) (ct : string) (w : World) :
  (connection_retry_attempts cfg <= 0)%Z ->
  _create_mongo_client_with_retry env cfg cs ct w = (w, Ok None).
Proof.
  intros Hn. unfold _create_mongo_client_with_retry.
  replace (Z.to_nat (connection_retry_attempts cfg)) with 0%nat by lia.
  reflexivity.
Qed.

(** C8, on the handler of connection failures.  An endpoint that
    refuses the first [k] tries with a connection failure
    ([ConnectionFailure] or [ServerSelectionTimeoutError]) and accepts
    try [k+1], with [k] below [connection_retry_attempts], a delay
    setting that is not negative, and delays the handler can compute
    and sleep ([k <= 1024], so that [2 ** attempt] converts to a float,
    and every delay below the [2^63] nanoseconds of [time.sleep]): the
    fresh-connection procedure returns the pinged client after exactly
    [k+1] tries; it sleeps [k] times, the [i]-th delay (from 0) being
    [connection_retry_delay_ms/1000 * 2^i + 0.1*i] seconds, and these
    delays increase strictly. *)
Theorem create_client_succeeds_after_k_failures
    (env : Env) (cfg : Config) (cs : option string) (ct : string)
    (w : World) (k : nat) (c : Client) :
  let delay := fun i : nat =>
    backoff_delay (connection_retry_delay_ms cfg) (Z.of_nat i) in
  (Z.of_nat k < connection_retry_attempts cfg)%Z ->
  (0 <= connection_retry_delay_ms cfg)%Z ->
  (k <= 1024)%nat ->
  (forall i, (i < k)%nat -> delay i < sleep_limit) ->
  (forall i, (i < k)%nat ->
     exists e, mongo_client env cs (tries w + i) = Raise e
               /\ is_ConnectionFailure e = true) ->
  mongo_client env cs (tries w + k) = Ok c ->
  _create_mongo_client_with_retry env cfg cs ct w =
    (mkWorld (tries w + (k + 1)) (slept w ++ map delay (seq 0 k)) (closed w),
     Ok (Some c))
  /\ (forall i : nat,
        delay i ==
        inject_Z (connection_retry_delay_ms cfg) / 1000
        * inject_Z (2 ^ Z.of_nat i) + inject_Z (Z.of_nat i) * (1 # 10))
  /\ (forall i j : nat, (i < j)%nat -> delay i < delay j).
Proof.
  intros delay Hk Hbase Hcap Hrange Hfail Hok. split; [|split].
  - unfold _create_mongo_client_with_retry.
    set (errs := fun i : nat =>
           match mongo_client env cs (tries w + i) with
           | Raise e => e
           | Ok _ => ConnectionFailure ""
           end).
    assert (Herrs : forall i, (i < k)%nat ->
              mongo_client env cs (tries w + i) = Raise (errs i)
              /\ is_ConnectionFailure (errs i) = true).
    { intros i Hi. destruct (Hfail i Hi) as (e & He & Hc).
      unfold errs. rewrite He. now split. }
    rewrite (loop_succeeds env cfg cs ct Hbase k _ 0%Z w c errs);
      try lia; try assumption.
    + f_equal. f_equal. f_equal. apply map_ext_in. intros i Hi.
      apply in_seq in Hi. unfold delay_after.
      now rewrite (proj2 (Herrs i ltac:(lia))).
    + intros i Hi. now apply Herrs.
    + intros i Hi. unfold delay_after.
      rewrite (proj2 (Herrs i Hi)). now apply Hrange.
  - intros i. unfold delay, backoff_delay. reflexivity.
  - intros i j Hij. now apply backoff_delay_increasing.
Qed.

Lemma create_client_succeeds_after_k_failures_witness :
  _create_mongo_client_with_retry Examples.down_twice default_config
    (Some "mongodb://source") "source" initial_world =
  (mkWorld 3 [backoff_delay 2000 0; backoff_delay 2000 1] [], Ok (Some 7%nat)).
Proof.
  refine (proj1 (create_client_succeeds_after_k_failures
                   Examples.down_twice default_config
                   (Some "mongodb://source") "source" initial_world
                   2%nat 7%nat _ _ _ _ _ _)).
  - simpl. lia.
  - simpl. lia.
  - lia.
  - intros i Hi. destruct i as [|[|i]]; [reflexivity | reflexivity | lia].
  - intros i Hi. exists (ServerSelectionTimeoutError "timed out").
    destruct i as [|[|i]]; [split; reflexivity | split; reflexivity | lia].
  - reflexivity.
Defined.

(** C8 as stated fails in three ways.  Tries that fail with an error
    that is not a connection failure are followed by the delay without
    the jitter, so with a delay setting of 0 the two delays are both 0
    and do not increase.  With a negative delay setting [time.sleep]
    raises [ValueError] after the first failed try and no client is
    returned, although the second try would have connected.  And a
    delay of [10^10] seconds is beyond the range of [time.sleep]. *)
Lemma delays_without_jitter_or_out_of_range :
  (_create_mongo_client_with_retry Examples2.refused_twice
     (Examples2.with_delay 0) (Some "mongodb://source") "source"
     initial_world
   = (mkWorld 3 [plain_delay 0 0; plain_delay 0 1] [], Ok (Some 7%nat))
   /\ plain_delay 0 0 == 0 /\ plain_delay 0 1 == 0)
  /\ _create_mongo_client_with_retry Examples2.down_once
       (Examples2.with_delay (-1)) (Some "mongodb://source") "source"
       initial_world
     = (mkWorld 1 [] [],
        Raise (ValueError "sleep length must be non-negative"))
  /\ _create_mongo_client_with_retry Examples2.down_once
       (Examples2.with_delay (10 ^ 13)) (Some "mongodb://source") "source"
       initial_world
     = (mkWorld 1 [] [],
        Raise (OtherException
                 "timestamp too large to convert to C _PyTime_t")).
Proof.
  split; [split; [reflexivity|split; reflexivity]|].
  split; vm_compute; reflexivity.
Qed.

Section AllTriesFail.

Variable env : Env.
Hypothesis every_try_fails :
  forall cs n, exists e, mongo_client env cs n = Raise e.

Lemma fresh_source_connection_fails (self : t) (w : World) :
  let r := fresh_source_connection env self w in
  snd r = None
  /\ source_client (fst (fst r)) = None
  /\ ((1 <= connection_retry_attempts (config self))%Z ->
      _source_healthy (fst (fst r)) = false).
Proof.
  cbv zeta. unfold fresh_source_connection.
  destruct (negb (truthy (source_connection_string (config self)))
            && negb (use_managed_identity (config self)));
    cbn [config set_config update_connection_strings use_managed_identity
         connection_retry_attempts fst snd];
    destruct (use_managed_identity (config self));
    cbn [fst snd set_source source_client _source_healthy];
    try (repeat split; reflexivity);
    match goal with
    | |- context [_create_mongo_client_with_retry env ?c ?cs ?ct w] =>
      destruct (Z_le_gt_dec (connection_retry_attempts c) 0) as [Hn|Hn];
      [ rewrite (create_client_without_tries env c cs ct w Hn)
      | destruct (create_client_raises env c cs ct w ltac:(lia)
                    (every_try_fails cs)) as [e He];
        destruct (_create_mongo_client_with_retry env c cs ct w)
          as [w' r]; cbn [snd] in He; subst r ]
    end;
    cbn [fst snd set_source source_client _source_healthy config set_config
         update_connection_strings connection_retry_attempts] in *;
    repeat split; try reflexivity; intros; lia.
Qed.

Lemma fresh_dest_connection_fails (self : t) (w : World) :
  let r := fresh_dest_connection env self w in
  snd r = None
  /\ dest_client (fst (fst r)) = None
  /\ ((1 <= connection_retry_attempts (config self))%Z ->
      _dest_healthy (fst (fst r)) = false).
Proof.
  cbv zeta. unfold fresh_dest_connection.
  destruct (negb (truthy (dest_connection_string (config self)))
            && negb (use_managed_identity (config self)));
    cbn [config set_config update_connection_strings use_managed_identity
         connection_retry_attempts fst snd];
    destruct (use_managed_identity (config self));
    cbn [fst snd set_dest dest_client _dest_healthy];
    try (repeat split; reflexivity);
    match goal with
    | |- context [_create_mongo_client_with_retry env ?c ?cs ?ct w] =>
      destruct (Z_le_gt_dec (connection_retry_attempts c) 0) as [Hn|Hn];
      [ rewrite (create_client_without_tries env c cs ct w Hn)
      | destruct (create_client_raises env c cs ct w ltac:(lia)
                    (every_try_fails cs)) as [e He];
        destruct (_create_mongo_client_with_retry env c cs ct w)
          as [w' r]; cbn [snd] in He; subst r ]
    end;
    cbn [fst snd set_dest dest_client _dest_healthy config set_config
         update_connection_strings connection_retry_attempts] in *;
    repeat split; try reflexivity; intros; lia.
Qed.

End AllTriesFail.

(** C5, as the code has it, for both roles: with no reusable handle (the
    role holds none, or holds one that is marked unhealthy) and an
    endpoint that refuses every connection try, [connect_to_source] and
    [connect_to_destination] do not raise: whatever the fresh-connection
    procedure raised is caught, the caller gets [None], the role is left
    without a handle and, when at least one try is configured, it is
    marked unhealthy. *)
Theorem connect_returns_none_when_all_tries_fail
    (env : Env) (self : t) (w : World) :
  (forall cs n, exists e, mongo_client env cs n = Raise e) ->
  (source_client self = None \/ _source_healthy self = false ->
   let r := connect_to_source env self w in
   snd r = None
   /\ source_client (fst (fst r)) = None
   /\ ((1 <= connection_retry_attempts (config self))%Z ->
       _source_healthy (fst (fst r)) = false))
  /\ (dest_client self = None \/ _dest_healthy self = false ->
      let r := connect_to_destination env self w in
      snd r = None
      /\ dest_client (fst (fst r)) = None
      /\ ((1 <= connection_retry_attempts (config self))%Z ->
          _dest_healthy (fst (fst r)) = false)).
Proof.
  intros Hfail. split; intros Hreuse; cbv zeta.
  - unfold connect_to_source, is_source_healthy.
    destruct (source_client self) as [c|] eqn:Hsc.
    + destruct Hreuse as [Hnone|Hunhealthy]; [discriminate|].
      rewrite Hunhealthy.
      exact (fresh_source_connection_fails env Hfail
               (set_source self None false) (close_client c w)).
    + exact (fresh_source_connection_fails env Hfail self w).
  - unfold connect_to_destination, is_dest_healthy.
    destruct (dest_client self) as [c|] eqn:Hsc.
    + destruct Hreuse as [Hnone|Hunhealthy]; [discriminate|].
      rewrite Hunhealthy.
      exact (fresh_dest_connection_fails env Hfail
               (set_dest self None false) (close_client c w)).
    + exact (fresh_dest_connection_fails env Hfail self w).
Qed.

Lemma connect_returns_none_when_all_tries_fail_witness :
  connect_to_source Examples.always_down (init Examples.configured)
    initial_world
  = (init Examples.configured,
     mkWorld 5
       (map (fun i => backoff_delay 2000 (Z.of_nat i)) (seq 0 4)) [],
     None)
  /\ snd (connect_to_destination Examples.always_down
            (init Examples.configured) initial_world) = None.
Proof.
  assert (Hdown : forall (cs : option string) (n : nat),
            exists e, mongo_client Examples.always_down cs n = Raise e)
    by (intros cs n; eexists; reflexivity).
  destruct (connect_returns_none_when_all_tries_fail Examples.always_down
              (init Examples.configured) initial_world Hdown) as [Hs Hd].
  split.
  - reflexivity.
  - exact (proj1 (Hd (or_introl eq_refl))).
Defined.

(** C5 as stated fails: when all five tries fail, [connect_to_source]
    does not fail with an error, it returns the null handle [None]. *)
Lemma connect_to_source_returns_none :
  let '(self', w', handle) :=
    connect_to_source Examples.always_down (init Examples.configured)
      initial_world in
  handle = None /\ tries w' = 5%nat /\ source_client self' = None.
Proof. vm_compute. repeat split. Qed.

(** *** [execute_with_retry] *)

Section Retry.

Context {X A : Type}.
Variable env : Env.
Variable operation : State X -> State X * result A.
Variable client_type : string.

Lemma sleep_pow2 (attempt : Z) (w : World) :
  sleep (inject_Z (2 ^ attempt)) w
  = Ok (mkWorld (tries w) (slept w ++ [inject_Z (2 ^ attempt)]) (closed w)).
Proof.
  apply sleep_nonneg. apply inject_Z_nonneg. apply Z.pow_nonneg. lia.
Qed.

(** A success ends the loop. *)
Lemma execute_loop_ok (max_retries : Z) (remaining : nat) (attempt : Z)
    (s s1 : State X) (a : A) :
  operation s = (s1, Ok a) ->
  execute_loop env operation client_type max_retries (S remaining) attempt s
  = (s1, Ok (Some a)).
Proof. intros H. simpl. now rewrite H. Qed.

(** An exception that is not a driver error leaves the loop at once. *)
Lemma execute_loop_other (max_retries : Z) (remaining : nat) (attempt : Z)
    (s s1 : State X) (e : PyExc) :
  operation s = (s1, Raise e) ->
  is_PyMongoError e = false ->
  execute_loop env operation client_type max_retries (S remaining) attempt s
  = (s1, Raise e).
Proof.
  intros H He. simpl. rewrite H.
  destruct e; try discriminate; reflexivity.
Qed.

(** A driver error on a try that is not the last: reconnect, sleep
    [2 ** attempt] seconds, try again. *)
Lemma execute_loop_retry (max_retries : Z) (remaining : nat) (attempt : Z)
    (s s1 : State X) (e : PyExc) :
  operation s = (s1, Raise e) ->
  is_PyMongoError e = true ->
  (attempt < max_retries - 1)%Z ->
  execute_loop env operation client_type max_retries (S remaining) attempt s
  = let s2 := reconnect env client_type s1 in
    execute_loop env operation client_type max_retries remaining
      (attempt + 1)%Z
      (mkState (cm s2)
         (mkWorld (tries (io s2))
            (slept (io s2) ++ [inject_Z (2 ^ attempt)]) (closed (io s2)))
         (ext s2)).
Proof.
  intros H He Hlt. simpl. rewrite H.
  replace (is_ConnectionFailure e || is_ServerSelectionTimeoutError e
           || is_PyMongoError e) with true
    by (rewrite He; now rewrite orb_true_r).
  apply Z.ltb_lt in Hlt. rewrite Hlt. now rewrite sleep_pow2.
Qed.

(** A driver error on the last try is raised again. *)
Lemma execute_loop_exhausted (max_retries : Z) (remaining : nat)
    (attempt : Z) (s s1 : State X) (e : PyExc) :
  operation s = (s1, Raise e) ->
  (max_retries - 1 <= attempt)%Z ->
  execute_loop env operation client_type max_retries (S remaining) attempt s
  = (s1, Raise e).
Proof.
  intros H Hge. simpl. rewrite H.
  apply Z.ltb_ge in Hge. rewrite Hge.
  now destruct (is_ConnectionFailure e || is_ServerSelectionTimeoutError e
                || is_PyMongoError e).
Qed.

Lemma reconnect_ext (s : State X) :
  ext (reconnect env client_type s) = ext s.
Proof.
  unfold reconnect.
  destruct (String.eqb client_type "source").
  - now destruct (connect_to_source env (cm s) (io s)) as [[? ?] ?].
  - destruct (String.eqb client_type "destination"); [|reflexivity].
    now destruct (connect_to_destination env (cm s) (io s)) as [[? ?] ?].
Qed.

(** When every call of the operation raises a driver error, the loop
    ends by raising one. *)
Lemma execute_loop_all_fail (max_retries : Z) (remaining : nat) :
  (forall s, exists s1 e,
      operation s = (s1, Raise e) /\ is_PyMongoError e = true) ->
  forall (attempt : Z) (s : State X),
    (attempt + Z.of_nat (S remaining) = max_retries)%Z ->
    exists e,
      snd (execute_loop env operation client_type max_retries (S remaining)
             attempt s) = Raise e
      /\ is_PyMongoError e = true.
Proof.
  intros Hfail. induction remaining as [|remaining IH]; intros attempt s Hn.
  - destruct (Hfail s) as (s1 & e & Hop & He).
    rewrite (execute_loop_exhausted max_retries 0 attempt s s1 e Hop) by lia.
    now exists e.
  - destruct (Hfail s) as (s1 & e & Hop & He).
    rewrite (execute_loop_retry max_retries (S remaining) attempt s s1 e
               Hop He) by lia.
    apply IH. lia.
Qed.


End Retry.





End ConnectionFacts.

(** ** The batch transfer engine *)

Module MigrationFacts.

Import ConnectionManager MigrationService.

Local Open Scope list_scope.

Section Run.

Context {X A : Type}.
Variable env : Env.
Variable self : MigrationService.service.
Variable operation : State X -> State X * result A.
Variable client_type : string.

(** A value returned by the retry loop was returned by some call of the
    operation. *)
Lemma execute_loop_value (max_retries : Z) (remaining : nat) :
  forall (attempt : Z) (s s' : State X) (a : A),
    execute_loop env operation client_type max_retries remaining attempt s
    = (s', Ok (Some a)) ->
    exists s0 s1, operation s0 = (s1, Ok a).
Proof.
  induction remaining as [|remaining IH]; intros attempt s s' a H.
  - discriminate.
  - simpl in H. destruct (operation s) as [s1 [a1|e]] eqn:Hop.
    + inversion H; subst. now exists s, s'.
    + destruct (is_ConnectionFailure e || is_ServerSelectionTimeoutError e
                || is_PyMongoError e); [|discriminate].
      destruct (attempt <? max_retries - 1)%Z; [|discriminate].
      rewrite ConnectionFacts.sleep_pow2 in H. now apply IH in H.
Qed.

Lemma run_value (s s' : State X) (a : A) :
  run env self operation client_type s = (s', Ok (Some a)) ->
  exists s0 s1, operation s0 = (s1, Ok a).
Proof.
  unfold run. destruct (connection_manager self).
  - apply execute_loop_value.
  - destruct (operation s) as [s1 [a1|e]] eqn:Hop; intros H;
      inversion H; subst. now exists s, s'.
Qed.

Lemma run_all_fail (s : State X) :
  (forall s, exists s1 e,
      operation s = (s1, Raise e) /\ is_PyMongoError e = true) ->
  connection_manager self = false
  \/ (1 <= operation_retry_attempts (ConnectionManager.config (cm s)))%Z ->
  exists e,
    snd (run env self operation client_type s) = Raise e
    /\ is_PyMongoError e = true.
Proof.
  intros Hfail Hcfg. unfold run.
  destruct (connection_manager self) eqn:Hcm.
  - destruct Hcfg as [Hcfg|Hcfg]; [discriminate|].
    unfold execute_with_retry.
    replace (Z.to_nat (operation_retry_attempts
                         (ConnectionManager.config (cm s))))
      with (S (Z.to_nat (operation_retry_attempts
                           (ConnectionManager.config (cm s))) - 1)) by lia.
    apply ConnectionFacts.execute_loop_all_fail; [exact Hfail|lia].
  - destruct (Hfail s) as (s1 & e & Hop & He). rewrite Hop. now exists e.
Qed.

End Run.

(** The loop returns [None] only when it runs no iteration. *)
Lemma execute_loop_not_none {X A : Type} (env : Env)
    (operation : State X -> State X * result A) (client_type : string)
    (max_retries : Z) (remaining : nat) :
  forall (attempt : Z) (s : State X),
    (attempt + Z.of_nat (S remaining) = max_retries)%Z ->
    snd (execute_loop env operation client_type max_retries (S remaining)
           attempt s) <> Ok None.
Proof.
  induction remaining as [|remaining IH]; intros attempt s Hn.
  - simpl. destruct (operation s) as [s1 [a|e]]; simpl; [discriminate|].
    destruct (is_ConnectionFailure e || is_ServerSelectionTimeoutError e
              || is_PyMongoError e); simpl; [|discriminate].
    replace (attempt <? max_retries - 1)%Z with false
      by (symmetry; apply Z.ltb_ge; lia).
    discriminate.
  - remember (S remaining) as r. simpl.
    destruct (operation s) as [s1 [a|e]]; simpl; [discriminate|].
    destruct (is_ConnectionFailure e || is_ServerSelectionTimeoutError e
              || is_PyMongoError e); simpl; [|discriminate].
    destruct (attempt <? max_retries - 1)%Z; simpl; [|discriminate].
    rewrite ConnectionFacts.sleep_pow2. subst r. apply IH. lia.
Qed.

(** Reconnecting leaves the retry setting of the manager as it is. *)
Lemma fresh_dest_connection_retries (env : Env) (self : ConnectionManager.t)
    (w : World) :
  operation_retry_attempts
    (ConnectionManager.config (fst (fst (fresh_dest_connection env self w))))
  = operation_retry_attempts (ConnectionManager.config self).
Proof.
  unfold fresh_dest_connection.
  destruct (negb (truthy (dest_connection_string
                            (ConnectionManager.config self)))
            && negb (use_managed_identity (ConnectionManager.config self)));
    simpl;
    destruct (use_managed_identity (ConnectionManager.config self)); simpl;
    try reflexivity;
    match goal with
    | |- context [_create_mongo_client_with_retry ?e ?c ?cs ?ct ?w] =>
      destruct (_create_mongo_client_with_retry e c cs ct w) as [w' [c'|e']]
    end; reflexivity.
Qed.

Lemma fresh_source_connection_retries (env : Env) (self : ConnectionManager.t)
    (w : World) :
  operation_retry_attempts
    (ConnectionManager.config (fst (fst (fresh_source_connection env self w))))
  = operation_retry_attempts (ConnectionManager.config self).
Proof.
  unfold fresh_source_connection.
  destruct (negb (truthy (source_connection_string
                            (ConnectionManager.config self)))
            && negb (use_managed_identity (ConnectionManager.config self)));
    simpl;
    destruct (use_managed_identity (ConnectionManager.config self)); simpl;
    try reflexivity;
    match goal with
    | |- context [_create_mongo_client_with_retry ?e ?c ?cs ?ct ?w] =>
      destruct (_create_mongo_client_with_retry e c cs ct w) as [w' [c'|e']]
    end; reflexivity.
Qed.

Lemma reconnect_retries {X : Type} (env : Env) (client_type : string)
    (s : State X) :
  operation_retry_attempts
    (ConnectionManager.config (cm (reconnect env client_type s)))
  = operation_retry_attempts (ConnectionManager.config (cm s)).
Proof.
  unfold reconnect.
  destruct (String.eqb client_type "source").
  - pose proof (fresh_source_connection_retries env) as Hf.
    unfold connect_to_source.
    destruct (source_client (cm s)) as [c|].
    + destruct (is_source_healthy (cm s)); [reflexivity|].
      specialize (Hf (set_source (cm s) None (_source_healthy (cm s)))
                     (close_client c (io s))).
      destruct (fresh_source_connection env _ _) as [[self' w'] h].
      exact Hf.
    + specialize (Hf (cm s) (io s)).
      destruct (fresh_source_connection env _ _) as [[self' w'] h].
      exact Hf.
  - destruct (String.eqb client_type "destination"); [|reflexivity].
    pose proof (fresh_dest_connection_retries env) as Hf.
    unfold connect_to_destination.
    destruct (dest_client (cm s)) as [c|].
    + destruct (is_dest_healthy (cm s)); [reflexivity|].
      specialize (Hf (set_dest (cm s) None (_dest_healthy (cm s)))
                     (close_client c (io s))).
      destruct (fresh_dest_connection env _ _) as [[self' w'] h].
      exact Hf.
    + specialize (Hf (cm s) (io s)).
      destruct (fresh_dest_connection env _ _) as [[self' w'] h].
      exact Hf.
Qed.

Lemma execute_loop_retries {X A : Type} (env : Env)
    (operation : State X -> State X * result A) (client_type : string)
    (max_retries : Z) (remaining : nat) :
  (forall s, cm (fst (operation s)) = cm s) ->
  forall (attempt : Z) (s : State X),
    operation_retry_attempts
      (ConnectionManager.config
         (cm (fst (execute_loop env operation client_type max_retries
                     remaining attempt s))))
    = operation_retry_attempts (ConnectionManager.config (cm s)).
Proof.
  intros Hop. induction remaining as [|remaining IH]; intros attempt s.
  - reflexivity.
  - simpl. pose proof (Hop s) as Hs.
    destruct (operation s) as [s1 [a|e]]; simpl in *;
      [now rewrite Hs|].
    destruct (is_ConnectionFailure e || is_ServerSelectionTimeoutError e
              || is_PyMongoError e); simpl; [|now rewrite Hs].
    destruct (attempt <? max_retries - 1)%Z; simpl; [|now rewrite Hs].
    rewrite ConnectionFacts.sleep_pow2. rewrite IH. simpl.
    rewrite reconnect_retries. now rewrite Hs.
Qed.

Section Engine.

Context {X : Type}.
Variable env : Env.
Variable drv : Driver X.
Variable self : MigrationService.service.
Variable database_name collection_name : string.

Lemma process_batch_operation_cm (batch : list Doc) (s : State X) :
  cm (fst (_process_batch_operation drv database_name collection_name
             batch s)) = cm s.
Proof.
  unfold _process_batch_operation. destruct batch as [|d batch];
    [reflexivity|].
  destruct (bulk_write drv _ _ _ _) as [x' [r|e]]; [reflexivity|].
  destruct e; reflexivity.
Qed.

(** With at least one try allowed, the write path returns an outcome
    for the batch, whatever the driver does. *)
Lemma process_batch_returns (batch : list Doc) (s : State X) :
  can_write self s ->
  exists s' stats,
    _process_batch env drv self database_name collection_name batch s
    = (s', Some stats)
    /\ can_write self s'.
Proof.
  intros Hw. unfold _process_batch, run, can_write in *.
  destruct (connection_manager self) eqn:Hcm.
  - destruct Hw as [Hw|Hw]; [discriminate|].
    unfold execute_with_retry.
    remember (operation_retry_attempts (ConnectionManager.config (cm s)))
      as max_retries.
    assert (Hnat : Z.to_nat max_retries = S (Z.to_nat max_retries - 1))
      by lia.
    pose proof (execute_loop_not_none env
                  (_process_batch_operation drv database_name collection_name
                     batch) "destination" max_retries
                  (Z.to_nat max_retries - 1) 0%Z s ltac:(lia)) as Hsome.
    pose proof (execute_loop_retries env
                  (_process_batch_operation drv database_name collection_name
                     batch) "destination" max_retries (Z.to_nat max_retries)
                  (process_batch_operation_cm batch) 0%Z s) as Hkeep.
    rewrite <- Hnat in Hsome.
    destruct (execute_loop env _ "destination" max_retries
                (Z.to_nat max_retries) 0%Z s) as [s' [[stats|]|e]];
      simpl in *.
    + exists s', stats. split; [reflexivity|]. right. lia.
    + now contradiction Hsome.
    + eexists s', _. split; [reflexivity|]. right. lia.
  - pose proof (process_batch_operation_cm batch s) as Hkeep.
    destruct (_process_batch_operation drv database_name collection_name
                batch s) as [s' [stats|e]]; eexists s', _;
      (split; [reflexivity|now left]).
Qed.

(** So the batch is accounted for and the loop goes on. *)
Lemma flush_returns (batch : list Doc) (acc : Totals) (s : State X) :
  can_write self s ->
  exists s' acc',
    flush env drv self database_name collection_name batch acc s
    = (s', Ok acc')
    /\ flushed acc' = (flushed acc ++ [batch])%list
    /\ can_write self s'.
Proof.
  intros Hw. unfold flush.
  destruct (process_batch_returns batch s Hw) as (s' & stats & Hp & Hw').
  rewrite Hp. eexists s', _. split; [reflexivity|]. split; [reflexivity|].
  exact Hw'.
Qed.



(** The loop over the cursor ends normally whatever the batch size. *)
Lemma stream_returns :
  forall (documents batch : list Doc) (acc : Totals) (s : State X),
    can_write self s ->
    exists s' batch' acc',
      stream env drv self database_name collection_name documents batch acc s
      = (s', Ok (batch', acc')).
Proof.
  induction documents as [|d documents IH]; intros batch acc s Hw.
  - now exists s, batch, acc.
  - simpl.
    destruct (Z.of_nat (List.length (batch ++ [d])) >=? batch_size self)%Z.
    + destruct (flush_returns (batch ++ [d]) acc s Hw)
        as (s1 & acc1 & Hf & _ & Hw1).
      rewrite Hf. now apply IH.
    + now apply IH.
Qed.


End Engine.

(** Five documents in batches of two: three batches, of sizes 2, 2, 1. *)
Example five_documents_in_three_batches :
  map (@List.length Doc)
    (snd (migrate_collection_trace Examples.always_up Memory.memory_driver
            Examples.two_by_two "shop" "orders"
            (mkState (init Examples.configured) initial_world
                     Examples.five_documents)))
  = [2; 2; 1]%nat.
Proof. reflexivity. Qed.

Lemma option_eq_dec_Z (a b : option Z) : {a = b} + {a <> b}.
Proof. decide equality. apply Z.eq_dec. Qed.

(** Once the destination is ensured and the source counted, with a count
    that is not zero, the report is made by the streaming phase. *)
Lemma migrate_collection_after_count {X : Type}
    (env : Env) (drv : Driver X) (self : MigrationService.service)
    (database_name collection_name : string) (s s1 s2 : State X)
    (total : option Z) :
  ensure_destination drv self database_name collection_name s
  = (s1, Ok true) ->
  MigrationService.count_documents env drv self database_name
    collection_name s1 = (s2, Ok total) ->
  total <> Some 0%Z ->
  migrate_collection_trace env drv self database_name collection_name s
  = match Pymongo.count_documents drv Destination database_name
            collection_name (ext s2) with
    | (x3, Raise e) => (set_ext s2 x3, failure_report e, [])
    | (x3, Ok _) =>
      let '(x4, cursor) := find drv database_name collection_name x3 in
      match stream_all env drv self database_name collection_name cursor
              (set_ext s2 x4) with
      | (s5, Ok acc) =>
        (s5,
         mkReport true total (Some (migrated acc)) (Some (failures acc))
           (Some (raw acc)) (Some (ups acc)) (Some (mods acc)) None,
         flushed acc)
      | (s5, Raise e) => (s5, failure_report e, [])
      end
    end.
Proof.
  intros He Hc Hnz. unfold migrate_collection_trace. rewrite He, Hc.
  destruct total as [[|p|p]|]; try congruence; reflexivity.
Qed.

(** C9.  The report of [migrate_collection].  A report that shows
    [failed_documents > 0] has [success = true]: a failed count never
    makes [success] false.  A transfer that completes (the steps before
    the loop went through and the streaming phase ended normally) has
    [success = true], whatever the number of failed records it counted.
    And [success] is false only with an error text, when an error
    occurred before streaming began or when an exception aborted the
    stream before its end. *)
Theorem migrate_collection_success_flag {X : Type}
    (env : Env) (drv : Driver X) (self : MigrationService.service)
    (database_name collection_name : string) (s : State X) :
  let report :=
    snd (migrate_collection env drv self database_name collection_name s) in
  (forall f, failed_documents report = Some f -> (0 < f)%Z ->
             success report = true)
  /\ (forall s_stream total cursor s' acc,
        reaches_streaming env drv self database_name collection_name
          s s_stream total cursor ->
        stream_all env drv self database_name collection_name cursor
          s_stream = (s', Ok acc) ->
        success report = true
        /\ failed_documents report = Some (failures acc))
  /\ (success report = false ->
      error report <> None
      /\ (fails_before_streaming env drv self database_name collection_name s
          \/ aborted_in_stream env drv self database_name collection_name
               s)).
Proof.
  intros report.
  assert (Hcases :
    (success report = true
     /\ (forall f, failed_documents report = Some f -> (0 < f)%Z -> True))
    \/ (success report = false
        /\ error report <> None
        /\ (forall f, failed_documents report = Some f -> (f <= 0)%Z)
        /\ (fails_before_streaming env drv self database_name
              collection_name s
            \/ aborted_in_stream env drv self database_name collection_name
                 s))).
  { subst report. unfold migrate_collection.
    destruct (ensure_destination drv self database_name collection_name s)
      as [s1 [[|]|e]] eqn:He.
    - destruct (MigrationService.count_documents env drv self database_name
                  collection_name s1) as [s2 [total|e]] eqn:Hc.
      + destruct (option_eq_dec_Z total (Some 0%Z)) as [H0|Hnz].
        * subst total. unfold migrate_collection_trace. rewrite He, Hc.
          left. cbn. split; [reflexivity|trivial].
        * rewrite (migrate_collection_after_count env drv self _ _ s s1 s2
                     total He Hc Hnz).
          destruct (Pymongo.count_documents drv Destination database_name
                      collection_name (ext s2)) as [x3 [n|e]] eqn:Hd.
          -- destruct (find drv database_name collection_name x3)
               as [x4 cursor] eqn:Hfind.
             destruct (stream_all env drv self database_name collection_name
                         cursor (set_ext s2 x4)) as [s5 [acc|e]] eqn:Hst.
             ++ left. cbn. split; [reflexivity|trivial].
             ++ right. cbn. split; [reflexivity|]. split; [discriminate|].
                split; [intros f [= <-]; lia|].
                right. exists (set_ext s2 x4), total, cursor, s5, e.
                split; [|exact Hst].
                exists s1, s2, x3, n, x4. repeat split; assumption.
          -- right. cbn. split; [reflexivity|]. split; [discriminate|].
             split; [intros f [= <-]; lia|].
             left. right. right. right.
             exists s1, s2, total, x3, e. repeat split; assumption.
      + right. unfold migrate_collection_trace. rewrite He, Hc. cbn.
        split; [reflexivity|]. split; [discriminate|].
        split; [intros f [= <-]; lia|].
        left. right. right. left. exists s1, s2, e. split; assumption.
    - right. unfold migrate_collection_trace. rewrite He. cbn.
      split; [reflexivity|]. split; [discriminate|].
      split; [intros f; discriminate|].
      left. right. left. now exists s1.
    - right. unfold migrate_collection_trace. rewrite He. cbn.
      split; [reflexivity|]. split; [discriminate|].
      split; [intros f [= <-]; lia|].
      left. left. now exists s1, e. }
  split; [|split].
  - intros f Hf Hpos. destruct Hcases as [[Hs _]|(_ & _ & Hz & _)];
      [exact Hs|]. specialize (Hz f Hf). lia.
  - intros s_stream total cursor s' acc
      (s1 & s2 & x3 & n & x4 & He & Hc & Hnz & Hd & Hfind & Hs) Hst.
    subst report. unfold migrate_collection.
    rewrite (migrate_collection_after_count env drv self _ _ s s1 s2
               total He Hc Hnz).
    rewrite Hd, Hfind, <- Hs, Hst. split; reflexivity.
  - intros Hfalse. destruct Hcases as [[Hs _]|(_ & Herr & _ & Hwhy)];
      [congruence|]. split; assumption.
Qed.

Lemma migrate_collection_success_flag_witness :
  success
    (snd (migrate_collection Examples.always_up
            (Scripted.scripted_driver Examples.three_writes_fail)
            Examples.five_by_five "shop" "orders"
            (mkState (init Examples.configured) initial_world 0%nat)))
  = true.
Proof.
  refine (proj1 (migrate_collection_success_flag Examples.always_up
                   (Scripted.scripted_driver Examples.three_writes_fail)
                   Examples.five_by_five "shop" "orders"
                   (mkState (init Examples.configured) initial_world 0%nat))
            6%Z _ _).
  - reflexivity.
  - lia.
Defined.

(** A source cursor that breaks in the middle of the stream aborts the
    transfer: the steps before the loop go through, two batches are
    written (one record each, both failed), then the cursor raises and
    the failure report is returned. *)
Example broken_cursor_aborts_the_transfer :
  let drv := Scripted.scripted_driver Examples.cursor_breaks in
  let s0 := mkState (init Examples.configured) initial_world 0%nat in
  let s4 := mkState (init Examples.configured) initial_world 4%nat in
  let cursor := mkCursor (Examples.numbered 1 2)
                         (Some (ConnectionFailure "connection closed")) in
  reaches_streaming Examples.always_up drv Examples.one_by_one
    "shop" "orders" s0 s4 (Some 3%Z) cursor
  /\ (exists s' acc,
        stream Examples.always_up drv Examples.one_by_one "shop" "orders"
          (yielded cursor) [] (mkTotals 0 0 0 0 0 []) s4 = (s', Ok ([], acc))
        /\ List.length (flushed acc) = 2%nat
        /\ failures acc = 2%Z)
  /\ snd (migrate_collection Examples.always_up drv
            Examples.one_by_one "shop" "orders" s0)
     = failure_report (ConnectionFailure "connection closed").
Proof.
  split; [|split].
  - exists (mkState (init Examples.configured) initial_world 1%nat),
           (mkState (init Examples.configured) initial_world 2%nat),
           3%nat, 0%Z, 4%nat.
    repeat split. discriminate.
  - eexists _, _. split; [reflexivity|]. split; reflexivity.
  - reflexivity.
Qed.

(** What the handler of [BulkWriteError] makes of the details, whatever
    they are: the counters are looked up under ['writeResult'] (zero
    when that entry or a counter is missing) and [failed] is the length
    of ['writeErrors']. *)
Lemma process_batch_operation_on_bulk_write_error {X : Type}
    (drv : Driver X) (database_name collection_name : string)
    (d : Doc) (batch : list Doc) (s : State X) (x' : X)
    (details : BulkDetails) :
  bulk_write drv database_name collection_name (operations (d :: batch))
    (ext s) = (x', Raise (BulkWriteError details)) ->
  let result := match bd_writeResult details with
                | Some r => r
                | None => []
                end in
  let write_errors := match bd_writeErrors details with
                      | Some l => l
                      | None => []
                      end in
  _process_batch_operation drv database_name collection_name (d :: batch) s
  = (set_ext s x',
     Ok (mkBatchStats
           (get_int result "nInserted" 0 + get_int result "nUpserted" 0
            + get_int result "nModified" 0)
           (Z.of_nat (List.length write_errors))
           (get_int result "nUpserted" 0)
           (get_int result "nModified" 0)
           (Some (get_int result "nInserted" 0)))).
Proof.
  intros H. unfold _process_batch_operation. rewrite H. reflexivity.
Qed.

(** C4 fails on the code: the driver reports a batch of ten upserts of
    which seven went through and three failed.  The outcome counts the
    three failures but none of the seven successes: the counters are
    read from a ['writeResult'] entry that the details do not have. *)
Theorem partial_failure_drops_success_counts :
  get_int (bd_counts Examples.seven_of_ten) "nUpserted" 0 = 7%Z
  /\ snd (_process_batch Examples.always_up
            (Scripted.scripted_driver Examples.three_writes_fail)
            Examples.managed_service "shop" "orders"
            (Examples.numbered 1 10)
            (mkState (init Examples.configured) initial_world 0%nat))
     = Some (mkBatchStats 0 3 0 0 (Some 0%Z)).
Proof. split; reflexivity. Qed.

(** After a partial failure the stream goes on: ten documents in two
    batches of five, each bulk write failing in part; both batches are
    written, the failures add up, and [success] stays true. *)
Example partial_failures_do_not_stop_the_stream :
  let '(_, report, batches) :=
    migrate_collection_trace Examples.always_up
      (Scripted.scripted_driver Examples.three_writes_fail)
      Examples.five_by_five "shop" "orders"
      (mkState (init Examples.configured) initial_world 0%nat) in
  map (@List.length Doc) batches = [5; 5]%nat
  /\ success report = true
  /\ failed_documents report = Some 6%Z
  /\ migrated_documents report = Some 0%Z.
Proof. repeat split. Qed.

(** On the in-memory destination, the empty filter replaces the first
    document of a collection that is not empty, whatever the documents:
    the collection keeps its size. *)
Lemma empty_filter_replaces_first (replacement existing : Doc)
    (others : list Doc) :
  exists replaced changed,
    Memory.replace_first [] replacement (existing :: others)
    = Some (replaced :: others, changed)
    /\ Memory.without_id replaced = Memory.without_id replacement.
Proof.
  simpl. eexists _, _. split; [reflexivity|].
  assert (Hidem : forall d, Memory.without_id (Memory.without_id d)
                            = Memory.without_id d).
  { intros d. unfold Memory.without_id. induction d as [|[k v] d IH];
      simpl; [reflexivity|].
    destruct (String.eqb k "_id") eqn:Hk; simpl; [exact IH|].
    rewrite Hk. simpl. now rewrite IH. }
  destruct (lookup "_id" existing); simpl; now rewrite Hidem.
Qed.

(** The write issued for a record without ["_id"] is a replace-or-insert
    with the empty filter, and the empty filter matches every
    document. *)
Lemma operation_for_record_without_id (document : Doc) :
  lookup "_id" document = None ->
  operations [document] = [ReplaceOne [] document true]
  /\ forall existing : Doc, Memory.matches [] existing = true.
Proof.
  intros H. unfold operations. simpl. rewrite H. split; reflexivity.
Qed.

(** C1 fails on the code: the destination holds one order (tea, with
    identity 1); a batch with one record that has no ["_id"] (coffee) is
    written.  The destination still holds one record: the tea order has
    been replaced by the coffee order, which took over identity 1;
    nothing has been inserted, and the outcome counts one modification. *)
Theorem record_without_id_replaces_existing_record :
  let '(s', stats) :=
    _process_batch Examples.always_up Memory.memory_driver
      Examples.managed_service "shop" "orders" [[("item", VStr "coffee")]]
      (mkState (init Examples.configured) initial_world Examples.one_order) in
  Memory.dest Examples.one_order
  = [("shop", "orders", [[("_id", VInt 1); ("item", VStr "tea")]])]
  /\ Memory.dest (ext s')
     = [("shop", "orders", [[("_id", VInt 1); ("item", VStr "coffee")]])]
  /\ stats = Some (mkBatchStats 1 0 0 1 (Some 0%Z)).
Proof. repeat split. Qed.

Lemma str_in_In (x : string) (xs : list string) :
  str_in x xs = true <-> In x xs.
Proof.
  unfold str_in. rewrite existsb_exists. split.
  - intros (y & Hy & Heq). apply String.eqb_eq in Heq. now subst.
  - intros H. exists x. split; [exact H|apply String.eqb_refl].
Qed.

(** C10. Whatever the source and the settings: a list returned by
    [list_databases] holds none of ['admin'], ['local'], ['config']; the
    call never raises a driver error; and when the listing raises a
    driver error each time it is called (with no manager, or with a
    manager that is allowed at least one try), the call returns the
    empty list. *)
Theorem list_databases_skips_system_and_absorbs_errors {X : Type}
    (env : Env) (drv : Driver X) (self : MigrationService.service)
    (s : State X) :
  (forall s' names,
      list_databases env drv self s = (s', Ok (Some names)) ->
      forall db, In db system_dbs -> ~ In db names)
  /\ (forall s' e,
        list_databases env drv self s = (s', Raise e) ->
        is_PyMongoError e = false)
  /\ ((forall x, exists e,
         snd (list_database_names drv x) = Raise e
         /\ is_PyMongoError e = true) ->
      connection_manager self = false
      \/ (1 <= operation_retry_attempts (ConnectionManager.config (cm s)))%Z ->
      snd (list_databases env drv self s) = Ok (Some [])).
Proof.
  split; [|split].
  - intros s' names H db Hsys Hin. unfold list_databases in H.
    destruct (run env self (_list_databases_operation drv) "source" s)
      as [s1 [r|e]] eqn:Hrun.
    + inversion H; subst.
      apply run_value in Hrun. destruct Hrun as (s0 & s2 & Hop).
      unfold _list_databases_operation in Hop.
      destruct (list_database_names drv (ext s0)) as [x' [all|e]];
        inversion Hop; subst.
      apply filter_In in Hin. destruct Hin as [_ Hneg]. cbv beta in Hneg.
      apply str_in_In in Hsys.
      change (negb (str_in db system_dbs) = true) in Hneg.
      rewrite Hsys in Hneg. discriminate.
    + destruct (is_PyMongoError e); inversion H; subst. contradiction.
  - intros s' e H. unfold list_databases in H.
    destruct (run env self (_list_databases_operation drv) "source" s)
      as [s1 [r|e1]]; [discriminate|].
    destruct (is_PyMongoError e1) eqn:He1; inversion H; subst. exact He1.
  - intros Hfail Hcfg. unfold list_databases.
    destruct (run_all_fail env self (_list_databases_operation drv) "source" s)
      as (e & Hrun & He); [|exact Hcfg|].
    + intros s0. destruct (Hfail (ext s0)) as (e & Hl & He).
      unfold _list_databases_operation.
      destruct (list_database_names drv (ext s0)) as [x' [all|e']];
        simpl in Hl; [discriminate|].
      inversion Hl; subst. eauto.
    + destruct (run env self (_list_databases_operation drv) "source" s)
        as [s1 r]. simpl in Hrun. subst r. now rewrite He.
Qed.

Lemma list_databases_skips_system_and_absorbs_errors_witness :
  snd (list_databases Examples.always_down
         (Scripted.scripted_driver Examples.listing_down)
         Examples.managed_service
         (mkState (init Examples.configured) initial_world 0%nat))
  = Ok (Some []).
Proof.
  refine (proj2 (proj2 (list_databases_skips_system_and_absorbs_errors
                          Examples.always_down
                          (Scripted.scripted_driver Examples.listing_down)
                          Examples.managed_service
                          (mkState (init Examples.configured)
                                   initial_world 0%nat))) _ _).
  - intros x. exists (ServerSelectionTimeoutError "timed out").
    split; reflexivity.
  - right. simpl. lia.
Defined.

(** The listing of a source with two user databases. *)
Example list_databases_shop :
  snd (list_databases Examples.always_up Memory.memory_driver
         Examples.bare_service
         (mkState (init Examples.configured) initial_world
                  Examples.shop_source))
  = Ok (Some ["shop"; "blog"]).
Proof. reflexivity. Qed.

End MigrationFacts.

(** ** The capacity adapter *)

Module CapacityFacts.

Import CosmosDBRUManager Capacity.

Local Open Scope list_scope.

(** *** [ensure_collection_exists] *)

Lemma str_in_iff (x : string) (xs : list string) :
  str_in x xs = true <-> In x xs.
Proof.
  unfold str_in. rewrite existsb_exists. split.
  - intros (y & Hy & Heq). apply String.eqb_eq in Heq. now subst.
  - intros H. exists x. split; [exact H|apply String.eqb_refl].
Qed.

Section Ensure.

Context {X : Type}.
Variable drv : Driver X.
Variable cfg : Config.
Variable database_name collection_name : string.

(** A listed collection: success, and nothing but the listing is done. *)
Lemma ensure_listed (partition_key : option string) (x x1 : X)
    (names : list string) :
  list_collection_names drv Destination database_name x = (x1, Ok names) ->
  In collection_name names ->
  ensure_collection_exists drv cfg database_name collection_name
    partition_key x = (x1, true).
Proof.
  intros Hl Hin. unfold ensure_collection_exists. rewrite Hl.
  apply str_in_iff in Hin. now rewrite Hin.
Qed.

(** A provisioned creation refused with [NamespaceExists] counts as a
    success. *)
Lemma create_refused_as_existing (partition_key : option string)
    (throughput_mode : string) (manual_ru autoscale_max_ru : Z)
    (x x' : X) (e : PyExc) :
  (forall shardKey tp,
      command drv database_name
        (CreateCollection collection_name shardKey tp) x = (x', Raise e)) ->
  is_OperationFailure e = true ->
  contains "NamespaceExists" (exc_str e) = true ->
  create_collection_with_throughput drv cfg database_name collection_name
    partition_key throughput_mode manual_ru autoscale_max_ru x = (x', true).
Proof.
  intros Hc He Hn. unfold create_collection_with_throughput.
  rewrite Hc, He, Hn. reflexivity.
Qed.

Hypothesis Hcoherent : coherent drv database_name collection_name.

Lemma listing_at (x : X) :
  list_collection_names drv Destination database_name x
  = (x, snd (list_collection_names drv Destination database_name x)).
Proof.
  pose proof (listing_reads_only _ _ _ Hcoherent x) as H.
  destruct (list_collection_names drv Destination database_name x) as [x1 r].
  simpl in *. now subst.
Qed.

(** After a success, a second call succeeds and changes nothing. *)
Lemma ensure_twice (partition_key : option string) (x x' : X) :
  ensure_collection_exists drv cfg database_name collection_name
    partition_key x = (x', true) ->
  ensure_collection_exists drv cfg database_name collection_name
    partition_key x' = (x', true).
Proof.
  intros H.
  assert (Hlisted : forall names,
    snd (list_collection_names drv Destination database_name x') = Ok names ->
    In collection_name names ->
    ensure_collection_exists drv cfg database_name collection_name
      partition_key x' = (x', true)).
  { intros names Hs Hin. apply ensure_listed with (names := names);
      [|exact Hin]. rewrite listing_at. now rewrite Hs. }
  pose proof H as H0. unfold ensure_collection_exists in H.
  rewrite listing_at in H.
  destruct (snd (list_collection_names drv Destination database_name x))
    as [names|e] eqn:Hnames; [|discriminate].
  destruct (str_in collection_name names) eqn:Hin.
  - inversion H; subst. exact H0.
  - destruct (target_is_vcore cfg).
    + destruct (create_collection drv database_name collection_name x)
        as [x2 [[]|e]] eqn:Hcreate; [|discriminate].
      inversion H; subst.
      destruct (created_is_listed _ _ _ Hcoherent x x' Hcreate)
        as (names' & Hs & Hin').
      now apply Hlisted with (names := names').
    + unfold create_collection_with_throughput in H.
      match type of H with
      | context [command drv database_name ?c x] =>
        destruct (command drv database_name c x) as [x2 [reply|e]] eqn:Hcmd
      end.
      * destruct (reply_ok reply) as [[|[p|p|]|p]|] eqn:Hok;
          try discriminate.
        inversion H; subst.
        destruct (commanded_is_listed _ _ _ Hcoherent x x' _ _ reply
                    Hcmd Hok) as (names' & Hs & Hin').
        now apply Hlisted with (names := names').
      * pose proof (refused_changes_nothing _ _ _ Hcoherent x x2 _ e Hcmd).
        subst x2. destruct (is_OperationFailure e); [|discriminate].
        destruct (contains "NamespaceExists" (exc_str e)); [|discriminate].
        inversion H; subst. exact H0.
Qed.

End Ensure.

(** The in-memory destination lists what it holds. *)
Lemma names_in_set_docs (database_name collection_name : string)
    (docs : list Doc) (c : Memory.Collections) :
  In collection_name
     (Memory.names_in database_name
        (Memory.set_docs database_name collection_name docs c)).
Proof.
  unfold Memory.names_in.
  induction c as [|[[d n] ds] c IH]; simpl.
  - rewrite String.eqb_refl. simpl. now left.
  - unfold Memory.same_name. simpl.
    destruct (String.eqb d database_name) eqn:Hd; simpl.
    + destruct (String.eqb n collection_name) eqn:Hn; simpl.
      * rewrite String.eqb_refl. simpl. now left.
      * rewrite Hd. simpl. right. exact IH.
    + rewrite Hd. exact IH.
Qed.

Lemma memory_coherent (database_name collection_name : string) :
  coherent Memory.memory_driver database_name collection_name.
Proof.
  constructor.
  - reflexivity.
  - intros x x' H. simpl in H.
    destruct (Memory.docs_of database_name collection_name (Memory.dest x));
      [discriminate|].
    inversion H; subst. eexists. split; [reflexivity|].
    apply names_in_set_docs.
  - intros x x' shardKey tp reply H _. simpl in H.
    destruct (Memory.docs_of database_name collection_name (Memory.dest x));
      [discriminate|].
    inversion H; subst. eexists. split; [reflexivity|].
    apply names_in_set_docs.
  - intros x x' cmd e H. simpl in H.
    destruct cmd as [c k tp|c|c tp];
      destruct (Memory.docs_of database_name c (Memory.dest x));
      now inversion H.
Qed.

(** On a destination whose listing reflects its collections: a listed
    collection makes the call return success with the destination
    untouched; a call that returns success is followed by a second call
    that returns success and leaves the destination as the first left
    it; and a provisioned (RU) creation refused by an [OperationFailure]
    whose text names [NamespaceExists] is a success that changes
    nothing. *)
Lemma ensure_collection_exists_idempotent {X : Type}
    (drv : Driver X) (cfg : Config)
    (database_name collection_name : string)
    (partition_key : option string) :
  coherent drv database_name collection_name ->
  (forall x names,
      snd (list_collection_names drv Destination database_name x)
      = Ok names ->
      In collection_name names ->
      ensure_collection_exists drv cfg database_name collection_name
        partition_key x = (x, true))
  /\ (forall x x',
        ensure_collection_exists drv cfg database_name collection_name
          partition_key x = (x', true) ->
        ensure_collection_exists drv cfg database_name collection_name
          partition_key x' = (x', true))
  /\ (forall x x' e throughput_mode manual_ru autoscale_max_ru,
        (forall shardKey tp,
            command drv database_name
              (CreateCollection collection_name shardKey tp) x
            = (x', Raise e)) ->
        is_OperationFailure e = true ->
        contains "NamespaceExists" (exc_str e) = true ->
        create_collection_with_throughput drv cfg database_name
          collection_name partition_key throughput_mode manual_ru
          autoscale_max_ru x = (x, true)).
Proof.
  intros Hco. split; [|split].
  - intros x names Hs Hin.
    apply ensure_listed with (names := names); [|exact Hin].
    rewrite (listing_at drv database_name collection_name Hco).
    now rewrite Hs.
  - intros x x'. now apply ensure_twice.
  - intros x x' e mode manual auto Hc He Hn.
    assert (x' = x).
    { apply (refused_changes_nothing _ _ _ Hco x x'
               (CreateCollection collection_name "" (OfferThroughput 0)) e).
      apply Hc. }
    subst x'. now apply create_refused_as_existing with (e := e).
Qed.

(** On the in-memory destination, a first call creates the collection
    and a second call finds it and changes nothing. *)
Example ensure_collection_exists_twice_in_memory :
  let created :=
    Memory.mkStore ["shop"] [("shop", "orders", Examples.numbered 1 5)]
      [("shop", "orders", [])] 100 in
  ensure_collection_exists Memory.memory_driver Examples.ru_config
    "shop" "orders" (Some "sku") Examples.five_documents = (created, true)
  /\ ensure_collection_exists Memory.memory_driver Examples.ru_config
       "shop" "orders" (Some "sku") created = (created, true).
Proof.
  split; [reflexivity|].
  refine (proj1 (proj2 (ensure_collection_exists_idempotent Memory.memory_driver
                          Examples.ru_config "shop" "orders" (Some "sku")
                          (memory_coherent "shop" "orders")))
                Examples.five_documents _ _).
  reflexivity.
Qed.

(** C6.  The claim holds of the provisioned (RU) branch and fails on the
    fixed (vCore) branch of [ensure_collection_exists]: there the
    listing does not show the collection, [create_collection] is refused
    because the collection already exists, and the call returns [False],
    where its docstring promises [True] when the collection exists; on
    the RU branch the same situation (a creation refused with
    [NamespaceExists]) returns [True]. *)
Theorem creation_refused_as_existing_is_a_failure :
  Scripted.on_create_collection Examples.created_in_between 1%nat
  = Raise (CollectionInvalid "collection orders already exists")
  /\ target_is_vcore default_config = true
  /\ ensure_collection_exists
       (Scripted.scripted_driver Examples.created_in_between)
       default_config "shop" "orders" None 0%nat = (2%nat, false)
  /\ target_is_vcore Examples.ru_config = false
  /\ ensure_collection_exists
       (Scripted.scripted_driver Examples2.namespace_exists)
       Examples.ru_config "shop" "orders" None 0%nat = (2%nat, true).
Proof. repeat split. Qed.

End CapacityFacts.

(** *** [get_recommended_partition_key] *)

Module PartitionKeyFacts.

Import CosmosDBRUManager Capacity.

Local Open Scope list_scope.

Lemma analyse_flat (sample : list Doc) (fs : FieldStats) :
  fold_left record_doc sample fs
  = fold_left (fun acc kv => record_field (fst kv) (snd kv) acc)
      (List.concat sample) fs.
Proof.
  revert fs. induction sample as [|doc sample IH]; intros fs; simpl.
  - reflexivity.
  - rewrite fold_left_app. apply IH.
Qed.

Lemma stat_of_record_field_same (f : string) (v : Value) (fs : FieldStats) :
  stat_of f (record_field f v fs)
  = Some (visit v (match stat_of f fs with
                   | Some st => st
                   | None => mkFieldStat 0 []
                   end)).
Proof.
  induction fs as [|[g st] fs IH]; simpl.
  - now rewrite String.eqb_refl.
  - destruct (String.eqb g f) eqn:Hg; simpl; rewrite Hg; [reflexivity|].
    exact IH.
Qed.

Lemma stat_of_record_field_other (f g : string) (v : Value)
    (fs : FieldStats) :
  g <> f -> stat_of g (record_field f v fs) = stat_of g fs.
Proof.
  intros Hne. induction fs as [|[h st] fs IH]; simpl.
  - apply String.eqb_neq in Hne. rewrite String.eqb_sym. now rewrite Hne.
  - destruct (String.eqb h f) eqn:Hh; simpl.
    + apply String.eqb_eq in Hh. subst h.
      apply not_eq_sym in Hne.
      apply String.eqb_neq in Hne. now rewrite Hne.
    + destruct (String.eqb h g); [reflexivity|exact IH].
Qed.

Lemma visits_cons (f k : string) (v : Value) (pairs : list (string * Value)) :
  visits f ((k, v) :: pairs)
  = if String.eqb k f then v :: visits f pairs else visits f pairs.
Proof. unfold visits. simpl. now destruct (String.eqb k f). Qed.

Lemma visits_app (f : string) (a b : list (string * Value)) :
  visits f (a ++ b) = visits f a ++ visits f b.
Proof. unfold visits. now rewrite filter_app, map_app. Qed.

Lemma stat_of_walk (f : string) :
  forall (pairs : list (string * Value)) (fs : FieldStats),
    stat_of f (fold_left (fun acc kv => record_field (fst kv) (snd kv) acc)
                 pairs fs)
    = match visits f pairs with
      | [] => stat_of f fs
      | _ :: _ =>
        Some (visited (visits f pairs)
                (match stat_of f fs with
                 | Some st => st
                 | None => mkFieldStat 0 []
                 end))
      end.
Proof.
  induction pairs as [|[k v] pairs IH]; intros fs.
  - reflexivity.
  - simpl fold_left. rewrite IH, visits_cons.
    destruct (String.eqb k f) eqn:Hk.
    + apply String.eqb_eq in Hk. subst k.
      rewrite stat_of_record_field_same.
      destruct (visits f pairs); reflexivity.
    + apply String.eqb_neq in Hk.
      rewrite stat_of_record_field_other by congruence. reflexivity.
Qed.

Lemma keys_record_field (f : string) (v : Value) (fs : FieldStats) :
  map fst (record_field f v fs)
  = if str_in f (map fst fs) then map fst fs else map fst fs ++ [f].
Proof.
  unfold str_in. induction fs as [|[g st] fs IH]; simpl.
  - reflexivity.
  - rewrite (String.eqb_sym f g).
    destruct (String.eqb g f); simpl; [reflexivity|].
    rewrite IH. now destruct (existsb (String.eqb f) (map fst fs)).
Qed.

Lemma keys_walk_NoDup :
  forall (pairs : list (string * Value)) (fs : FieldStats),
    NoDup (map fst fs) ->
    NoDup (map fst (fold_left
                      (fun acc kv => record_field (fst kv) (snd kv) acc)
                      pairs fs)).
Proof.
  induction pairs as [|[k v] pairs IH]; intros fs Hnd; simpl.
  - exact Hnd.
  - apply IH. rewrite keys_record_field.
    destruct (str_in k (map fst fs)) eqn:Hin; [exact Hnd|].
    apply NoDup_app; [exact Hnd|repeat constructor; now intros []|].
    intros x Hx [Hk|[]]. subst x.
    apply CapacityFacts.str_in_iff in Hx. congruence.
Qed.

Lemma stat_of_In (f : string) (st : FieldStat) (fs : FieldStats) :
  stat_of f fs = Some st -> In (f, st) fs.
Proof.
  induction fs as [|[g st'] fs IH]; simpl; [discriminate|].
  destruct (String.eqb g f) eqn:Hg.
  - apply String.eqb_eq in Hg. intros H. inversion H; subst. now left.
  - intros H. right. now apply IH.
Qed.

Lemma In_stat_of (f : string) (st : FieldStat) (fs : FieldStats) :
  NoDup (map fst fs) -> In (f, st) fs -> stat_of f fs = Some st.
Proof.
  induction fs as [|[g st'] fs IH]; simpl; [now intros _ []|].
  intros Hnd [Heq|Hin].
  - inversion Heq; subst. now rewrite String.eqb_refl.
  - inversion Hnd as [|? ? Hnotin Hnd']; subst.
    destruct (String.eqb g f) eqn:Hg.
    + apply String.eqb_eq in Hg. subst g. exfalso. apply Hnotin.
      now apply (in_map fst) in Hin.
    + now apply IH.
Qed.

Lemma count_visited (vs : list Value) :
  forall st, count (visited vs st) = (count st + Z.of_nat (List.length vs))%Z.
Proof.
  unfold visited. induction vs as [|v vs IH]; intros st; simpl fold_left.
  - simpl. lia.
  - rewrite IH. simpl. lia.
Qed.

Lemma length_set_add (v : string) (s : list string) :
  (List.length (set_add v s) <= S (List.length s))%nat.
Proof.
  unfold set_add. destruct (str_in v s); [lia|].
  rewrite length_app. simpl. lia.
Qed.

(** Below the cap, the set is the set of the strings met. *)
Lemma unique_visited (vs : list Value) :
  forall st,
    (List.length (unique_values st) + List.length vs <= 1000)%nat ->
    unique_values (visited vs st)
    = added (map py_str vs) (unique_values st).
Proof.
  unfold visited, added. induction vs as [|v vs IH]; intros st Hcap.
  - reflexivity.
  - simpl List.length in Hcap. simpl fold_left.
    assert (Hlt : (Z.of_nat (List.length (unique_values st)) <? 1000)%Z
                  = true) by (apply Z.ltb_lt; lia).
    rewrite IH.
    + simpl. now rewrite Hlt.
    + simpl. rewrite Hlt.
      pose proof (length_set_add (py_str v) (unique_values st)). lia.
Qed.

Lemma set_add_In (v x : string) (s : list string) :
  In x (set_add v s) <-> In x s \/ x = v.
Proof.
  unfold set_add. destruct (str_in v s) eqn:Hin.
  - apply CapacityFacts.str_in_iff in Hin. split; [now left|].
    intros [H|H]; [exact H|now subst].
  - rewrite in_app_iff. simpl. intuition.
Qed.

Lemma set_add_NoDup (v : string) (s : list string) :
  NoDup s -> NoDup (set_add v s).
Proof.
  intros Hnd. unfold set_add. destruct (str_in v s) eqn:Hin; [exact Hnd|].
  apply NoDup_app; [exact Hnd|repeat constructor; now intros []|].
  intros x Hx [Hv|[]]. subst x.
  apply CapacityFacts.str_in_iff in Hx. congruence.
Qed.

Lemma added_In (strs : list string) :
  forall s x, In x (added strs s) <-> In x s \/ In x strs.
Proof.
  unfold added. induction strs as [|v strs IH]; intros s x; simpl.
  - intuition.
  - rewrite IH, set_add_In. intuition.
Qed.

Lemma added_NoDup (strs : list string) :
  forall s, NoDup s -> NoDup (added strs s).
Proof.
  unfold added. induction strs as [|v strs IH]; intros s Hnd; simpl.
  - exact Hnd.
  - apply IH. now apply set_add_NoDup.
Qed.

Lemma length_added (strs : list string) :
  List.length (added strs []) = List.length (nodup string_dec strs).
Proof.
  apply Permutation_length. apply NoDup_Permutation.
  - apply added_NoDup. constructor.
  - apply NoDup_nodup.
  - intros x. rewrite added_In, nodup_In. simpl. intuition.
Qed.

(** A dictionary is walked once per key. *)
Lemma visits_absent (f : string) (doc : Doc) :
  ~ In f (keys doc) -> visits f doc = [].
Proof.
  unfold keys. induction doc as [|[k v] doc IH]; intros Hnot.
  - reflexivity.
  - rewrite visits_cons. simpl in Hnot.
    destruct (String.eqb k f) eqn:Hk.
    + apply String.eqb_eq in Hk. subst k. exfalso. apply Hnot. now left.
    + apply IH. intros Hin. apply Hnot. now right.
Qed.

Lemma visits_dict (f : string) (doc : Doc) :
  is_dict doc ->
  visits f doc = match lookup f doc with
                 | Some v => [v]
                 | None => []
                 end.
Proof.
  unfold is_dict, keys. induction doc as [|[k v] doc IH]; intros Hnd.
  - reflexivity.
  - inversion Hnd as [|? ? Hnotin Hnd']; subst.
    rewrite visits_cons. simpl lookup.
    destruct (String.eqb k f) eqn:Hk.
    + apply String.eqb_eq in Hk. subst k.
      now rewrite visits_absent.
    + now apply IH.
Qed.

Lemma visits_sample (f : string) (sample : list Doc) :
  Forall is_dict sample ->
  visits f (List.concat sample)
  = flat_map (fun doc => match lookup f doc with
                         | Some v => [v]
                         | None => []
                         end) sample.
Proof.
  induction 1 as [|doc sample Hd _ IH]; simpl.
  - reflexivity.
  - now rewrite visits_app, IH, visits_dict.
Qed.

Lemma has_key_lookup (f : string) (doc : Doc) :
  has_key f doc = match lookup f doc with
                  | Some _ => true
                  | None => false
                  end.
Proof.
  unfold has_key, str_in, keys. induction doc as [|[k v] doc IH]; simpl.
  - reflexivity.
  - rewrite (String.eqb_sym f k). destruct (String.eqb k f); [reflexivity|].
    exact IH.
Qed.

Lemma strs_of_visits (f : string) (sample : list Doc) :
  Forall is_dict sample ->
  map py_str (visits f (List.concat sample)) = values_of f sample.
Proof.
  intros Hd. rewrite visits_sample by exact Hd. unfold values_of.
  clear Hd. induction sample as [|doc sample IH]; simpl.
  - reflexivity.
  - rewrite map_app, IH. now destruct (lookup f doc).
Qed.

Lemma length_visits (f : string) (sample : list Doc) :
  Forall is_dict sample ->
  List.length (visits f (List.concat sample)) = occurrences f sample.
Proof.
  intros Hd. rewrite visits_sample by exact Hd. unfold occurrences.
  clear Hd. induction sample as [|doc sample IH]; simpl.
  - reflexivity.
  - rewrite length_app, IH, has_key_lookup.
    now destruct (lookup f doc).
Qed.

Lemma occurrences_le (f : string) (sample : list Doc) :
  (occurrences f sample <= List.length sample)%nat.
Proof. unfold occurrences. apply filter_length_le. Qed.

(** What the analysis holds for a field: nothing when no document has
    it, and otherwise its number of occurrences and the set of the
    strings of its values. *)
Lemma analyse_field (f : string) (sample : list Doc) :
  Forall is_dict sample ->
  (List.length sample <= 1000)%nat ->
  match stat_of f (analyse sample) with
  | None => occurrences f sample = 0%nat
  | Some st =>
    (1 <= occurrences f sample)%nat
    /\ count st = Z.of_nat (occurrences f sample)
    /\ List.length (unique_values st) = distinct_values f sample
  end.
Proof.
  intros Hd Hlen. unfold analyse. rewrite analyse_flat, stat_of_walk.
  simpl stat_of.
  pose proof (length_visits f sample Hd) as Hocc.
  pose proof (strs_of_visits f sample Hd) as Hstrs.
  pose proof (occurrences_le f sample) as Hle.
  destruct (visits f (List.concat sample)) as [|v vs] eqn:Hv.
  - now rewrite <- Hocc.
  - rewrite <- Hv in *. split; [|split].
    + rewrite <- Hocc, Hv. simpl. lia.
    + rewrite count_visited, Hocc. simpl. lia.
    + rewrite unique_visited by (simpl; lia).
      simpl unique_values. rewrite Hstrs. apply length_added.
Qed.

Lemma score_fields_In (n : nat) (fs : FieldStats) (f : string) (sc : Q) :
  In (f, sc) (score_fields n fs)
  <-> exists st, In (f, st) fs /\ f <> "_id" /\ sc = total_score n st.
Proof.
  unfold score_fields. rewrite in_map_iff. split.
  - intros ([g st] & Heq & Hin). simpl in Heq. inversion Heq; subst.
    apply filter_In in Hin. destruct Hin as [Hin Hid]. simpl in Hid.
    exists st. split; [exact Hin|]. split; [|reflexivity].
    intros ->. discriminate.
  - intros (st & Hin & Hid & ->). exists (f, st). split; [reflexivity|].
    apply filter_In. split; [exact Hin|]. simpl.
    apply String.eqb_neq in Hid. now rewrite Hid.
Qed.

Lemma analyse_NoDup (sample : list Doc) : NoDup (map fst (analyse sample)).
Proof.
  unfold analyse. rewrite analyse_flat. apply keys_walk_NoDup. constructor.
Qed.

(** The scored fields are the fields met, but ["_id"], each with the
    score of the formula. *)
Lemma scored_fields_spec (sample : list Doc) (f : string) (sc : Q) :
  Forall is_dict sample ->
  (List.length sample <= 1000)%nat ->
  In (f, sc) (score_fields (List.length sample) (analyse sample))
  <-> f <> "_id" /\ (1 <= occurrences f sample)%nat
      /\ sc = score f sample.
Proof.
  intros Hd Hlen. rewrite score_fields_In.
  pose proof (analyse_field f sample Hd Hlen) as Hf.
  split.
  - intros (st & Hin & Hid & ->).
    rewrite (In_stat_of f st _ (analyse_NoDup sample) Hin) in Hf.
    destruct Hf as (Hocc & Hcount & Hcard).
    split; [exact Hid|]. split; [exact Hocc|].
    unfold total_score, score. now rewrite Hcount, Hcard.
  - intros (Hid & Hocc & ->).
    destruct (stat_of f (analyse sample)) as [st|] eqn:Hst; [|lia].
    destruct Hf as (_ & Hcount & Hcard).
    exists st. split; [now apply stat_of_In|]. split; [exact Hid|].
    unfold total_score, score. now rewrite Hcount, Hcard.
Qed.

(** *** The stable sort *)

Lemma insert_desc_In (x y : string * Q) (l : list (string * Q)) :
  In y (insert_desc x l) <-> y = x \/ In y l.
Proof.
  induction l as [|z l IH]; simpl.
  - intuition.
  - destruct (Qle_bool (snd z) (snd x)); simpl; [intuition|].
    rewrite IH. intuition.
Qed.

Lemma sort_desc_In (y : string * Q) (l : list (string * Q)) :
  In y (sort_desc l) <-> In y l.
Proof.
  unfold sort_desc. induction l as [|x l IH]; simpl; [reflexivity|].
  rewrite insert_desc_In, IH. intuition.
Qed.

(** The first entry after the sort has the largest score. *)
Lemma sort_desc_head (l : list (string * Q)) :
  match sort_desc l with
  | [] => l = []
  | x :: _ => In x l /\ forall y, In y l -> snd y <= snd x
  end.
Proof.
  induction l as [|a l IH]; [reflexivity|].
  change (sort_desc (a :: l)) with (insert_desc a (sort_desc l)).
  destruct (sort_desc l) as [|x rest] eqn:Hs.
  - subst l. simpl. split; [now left|].
    intros y [->|[]]. apply Qle_refl.
  - destruct IH as [Hx IH]. simpl.
    destruct (Qle_bool (snd x) (snd a)) eqn:Hle.
    + apply Qle_bool_iff in Hle. split; [now left|].
      intros y [->|Hy]; [apply Qle_refl|].
      eapply Qle_trans; [now apply IH|exact Hle].
    + split; [now right|].
      intros y [->|Hy]; [|now apply IH].
      apply Qlt_le_weak. apply Qnot_le_lt. intros Hc.
      apply Qle_bool_iff in Hc. congruence.
Qed.

(** *** The two fields of the example *)






(** The four orders: [sku] is recommended. *)
Example four_orders_recommend_sku :
  snd (get_recommended_partition_key Memory.memory_driver Examples.ru_config
         "shop" "orders" Examples.orders_source) = "sku".
Proof. reflexivity. Qed.

(** No sample, no recommendation: the default is returned. *)
Example empty_source_recommends_default :
  snd (get_recommended_partition_key Memory.memory_driver Examples.ru_config
         "shop" "orders" Examples.one_order) = "_id".
Proof. reflexivity. Qed.

End PartitionKeyFacts.

(** * Further properties of the code *)

(** ** The connection layer *)

Module ConnectionExtras.

Import ConnectionManager ConnectionLifecycle.

Local Open Scope list_scope.

Section Tries.

Variable env : Env.
Variable cfg : Config.
Variable cs : option string.
Variable ct : string.

Lemma sleep_cases (d : Q) (w : World) :
  sleep d w = Ok (mkWorld (tries w) (slept w ++ [d]) (closed w))
  \/ exists e, sleep d w = Raise e.
Proof.
  unfold sleep. destruct (Qle_bool 0 d); [now left|right; eauto].
Qed.

(** A handler either sleeps one delay or raises. *)
Lemma wait_before_retry_cases (jitter : bool) (b a : Z) (w : World) :
  (exists d,
      wait_before_retry jitter b a w
      = Ok (mkWorld (tries w) (slept w ++ [d]) (closed w)))
  \/ exists e, wait_before_retry jitter b a w = Raise e.
Proof.
  unfold wait_before_retry, sleep_float.
  destruct (float_overflows b || float_overflows (2 ^ a));
    [right; eauto|].
  match goal with
  | |- context [sleep ?d w] =>
    destruct (Qle_bool sleep_limit d || negb (Qle_bool (- sleep_limit) d));
    [right; eauto|];
    destruct (sleep_cases d w) as [H|H]; [left; eauto|now right]
  end.
Qed.

(** The loop makes at most one try per iteration, at least one when it
    runs at all, sleeps once between two tries, and closes nothing. *)
Lemma create_client_loop_bounds (remaining : nat) :
  forall (attempt : Z) (w : World),
    (remaining = 0%nat
     \/ attempt + Z.of_nat remaining = connection_retry_attempts cfg)%Z ->
    let w' := fst (create_client_loop env cfg cs ct remaining attempt w) in
    (tries w <= tries w' <= tries w + remaining)%nat
    /\ closed w' = closed w
    /\ (remaining = 0%nat -> w' = w)
    /\ ((1 <= remaining)%nat ->
        (tries w < tries w')%nat
        /\ (List.length (slept w') + 1
            = List.length (slept w) + (tries w' - tries w))%nat).
Proof.
  induction remaining as [|remaining IH]; intros attempt w Hrel; cbv zeta.
  - cbn [create_client_loop fst].
    split; [lia|]. split; [reflexivity|]. split; [reflexivity|].
    intros H. inversion H.
  - assert (Hdone : forall r : result (option Client),
      (tries w <= tries (fst (count_try w, r)) <= tries w + S remaining)%nat
      /\ closed (fst (count_try w, r)) = closed w
      /\ (S remaining = 0%nat -> fst (count_try w, r) = w)
      /\ ((1 <= S remaining)%nat ->
          (tries w < tries (fst (count_try w, r)))%nat
          /\ (List.length (slept (fst (count_try w, r))) + 1
              = List.length (slept w)
                + (tries (fst (count_try w, r)) - tries w))%nat)).
    { intros r. unfold count_try. cbn [fst tries slept closed].
      split; [lia|]. split; [reflexivity|]. split; [discriminate|].
      intros _. split; lia. }
    assert (Hstep : forall jitter,
      (attempt <? connection_retry_attempts cfg - 1)%Z = true ->
      let w' := fst (match wait_before_retry jitter
                             (connection_retry_delay_ms cfg) attempt
                             (count_try w) with
                     | Ok w2 =>
                       create_client_loop env cfg cs ct remaining
                         (attempt + 1)%Z w2
                     | Raise e' => (count_try w, Raise e')
                     end) in
      (tries w <= tries w' <= tries w + S remaining)%nat
      /\ closed w' = closed w
      /\ (S remaining = 0%nat -> w' = w)
      /\ ((1 <= S remaining)%nat ->
          (tries w < tries w')%nat
          /\ (List.length (slept w') + 1
              = List.length (slept w) + (tries w' - tries w))%nat)).
    { intros jitter Hlt. cbv zeta. apply Z.ltb_lt in Hlt.
      destruct (wait_before_retry_cases jitter
                  (connection_retry_delay_ms cfg) attempt (count_try w))
        as [[d Hs]|[e' Hs]]; rewrite Hs; [|apply Hdone].
      specialize (IH (attempt + 1)%Z
                       (mkWorld (tries (count_try w))
                                (slept (count_try w) ++ [d])
                                (closed (count_try w)))
                       ltac:(right; lia)).
      cbv zeta in IH. unfold count_try in *.
      cbn [tries slept closed] in IH. cbn [tries slept closed].
      destruct IH as (Ht & Hc & H0 & H1).
      destruct (H1 ltac:(lia)) as [Hlt' Hlen].
      rewrite length_app in Hlen. cbn [List.length] in Hlen.
      split; [lia|]. split; [exact Hc|]. split; [discriminate|].
      intros _. split; lia. }
    cbn [create_client_loop].
    destruct (mongo_client env cs (tries w)) as [c|e]; [apply Hdone|].
    destruct (is_ConnectionFailure e);
      destruct (attempt <? connection_retry_attempts cfg - 1)%Z eqn:Hlt;
      try (apply Hstep; reflexivity); apply Hdone.
Qed.

(** [_create_mongo_client_with_retry] makes at most
    [connection_retry_attempts] tries (none when that setting is not
    positive), one sleep less than tries, and closes no client. *)
Lemma create_client_bounds (w : World) :
  let w' := fst (_create_mongo_client_with_retry env cfg cs ct w) in
  (tries w <= tries w'
   <= tries w + Z.to_nat (connection_retry_attempts cfg))%nat
  /\ closed w' = closed w
  /\ (List.length (slept w')
      = List.length (slept w) + (tries w' - tries w - 1))%nat.
Proof.
  unfold _create_mongo_client_with_retry.
  pose proof (create_client_loop_bounds
                (Z.to_nat (connection_retry_attempts cfg)) 0%Z w) as H.
  cbv zeta in *.
  destruct (Z.to_nat (connection_retry_attempts cfg)) as [|n] eqn:Hn.
  - destruct (H ltac:(now left)) as (Ht & Hc & H0 & _).
    rewrite (H0 eq_refl). split; [lia|]. split; [reflexivity|]. lia.
  - destruct (H ltac:(right; lia)) as (Ht & Hc & _ & H1).
    destruct (H1 ltac:(lia)) as [Hlt Hlen].
    split; [exact Ht|]. split; [exact Hc|]. lia.
Qed.

End Tries.

Ltac fresh_connection_cases create_bounds :=
  match goal with
  | |- context [_create_mongo_client_with_retry ?e ?c ?cs ?ct ?w] =>
    pose proof (create_bounds e c cs ct w) as Hb; cbv zeta in Hb;
    destruct (_create_mongo_client_with_retry e c cs ct w)
      as [w' [[client|]|err]];
    cbn [fst snd] in *; destruct Hb as (Ht & Hc & Hl)
  end.

Lemma fresh_source_connection_invariants (env : Env) (self : t) (w : World) :
  let r := fresh_source_connection env self w in
  snd r = source_client (fst (fst r))
  /\ dest_client (fst (fst r)) = dest_client self
  /\ _dest_healthy (fst (fst r)) = _dest_healthy self
  /\ (snd r <> None -> _source_healthy (fst (fst r)) = true)
  /\ (tries w <= tries (snd (fst r))
      <= tries w + Z.to_nat (connection_retry_attempts (config self)))%nat
  /\ closed (snd (fst r)) = closed w.
Proof.
  cbv zeta. unfold fresh_source_connection.
  destruct (negb (truthy (source_connection_string (config self)))
            && negb (use_managed_identity (config self)));
    cbn [config set_config update_connection_strings use_managed_identity
         connection_retry_attempts fst snd];
    destruct (use_managed_identity (config self));
    cbn [fst snd set_source source_client dest_client _dest_healthy
         _source_healthy];
    try (repeat split; try lia; congruence);
    fresh_connection_cases create_client_bounds;
    cbn [fst snd set_source set_config source_client dest_client
         _dest_healthy _source_healthy config connection_retry_attempts
         update_connection_strings] in *;
    repeat split; try lia; try congruence.
Qed.

Lemma fresh_dest_connection_invariants (env : Env) (self : t) (w : World) :
  let r := fresh_dest_connection env self w in
  snd r = dest_client (fst (fst r))
  /\ source_client (fst (fst r)) = source_client self
  /\ _source_healthy (fst (fst r)) = _source_healthy self
  /\ (snd r <> None -> _dest_healthy (fst (fst r)) = true)
  /\ (tries w <= tries (snd (fst r))
      <= tries w + Z.to_nat (connection_retry_attempts (config self)))%nat
  /\ closed (snd (fst r)) = closed w.
Proof.
  cbv zeta. unfold fresh_dest_connection.
  destruct (negb (truthy (dest_connection_string (config self)))
            && negb (use_managed_identity (config self)));
    cbn [config set_config update_connection_strings use_managed_identity
         connection_retry_attempts fst snd];
    destruct (use_managed_identity (config self));
    cbn [fst snd set_dest source_client dest_client _dest_healthy
         _source_healthy];
    try (repeat split; try lia; congruence);
    fresh_connection_cases create_client_bounds;
    cbn [fst snd set_dest set_config source_client dest_client
         _dest_healthy _source_healthy config connection_retry_attempts
         update_connection_strings] in *;
    repeat split; try lia; try congruence.
Qed.

(** X1. What [connect_to_source] and [connect_to_destination] keep, whatever
    the endpoint does: the handle returned is the handle stored for the
    role; the other role's handle and health flag are untouched; a
    handle that is returned belongs to a role marked healthy; at most
    [connection_retry_attempts] connection tries are made; and the only
    client closed is the unhealthy handle the role held before. *)
Theorem connect_invariants (env : Env) (self : t) (w : World) :
  (let r := connect_to_source env self w in
   snd r = source_client (fst (fst r))
   /\ dest_client (fst (fst r)) = dest_client self
   /\ _dest_healthy (fst (fst r)) = _dest_healthy self
   /\ (snd r <> None -> _source_healthy (fst (fst r)) = true)
   /\ (tries w <= tries (snd (fst r))
       <= tries w + Z.to_nat (connection_retry_attempts (config self)))%nat
   /\ closed (snd (fst r))
      = closed w ++ match source_client self with
                    | Some c => if _source_healthy self then [] else [c]
                    | None => []
                    end)
  /\ (let r := connect_to_destination env self w in
      snd r = dest_client (fst (fst r))
      /\ source_client (fst (fst r)) = source_client self
      /\ _source_healthy (fst (fst r)) = _source_healthy self
      /\ (snd r <> None -> _dest_healthy (fst (fst r)) = true)
      /\ (tries w <= tries (snd (fst r))
          <= tries w + Z.to_nat (connection_retry_attempts (config self)))%nat
      /\ closed (snd (fst r))
         = closed w ++ match dest_client self with
                       | Some c => if _dest_healthy self then [] else [c]
                       | None => []
                       end).
Proof.
  split; cbv zeta.
  - unfold connect_to_source, is_source_healthy.
    destruct (source_client self) as [c|] eqn:Hsc.
    + destruct (_source_healthy self) eqn:Hh.
      * cbn [fst snd]. rewrite app_nil_r.
        repeat split; try lia; congruence.
      * pose proof (fresh_source_connection_invariants env
                      (set_source self None false) (close_client c w)) as H.
        cbv zeta in H. cbn [set_source config dest_client _dest_healthy
                            close_client tries closed] in H.
        exact H.
    + pose proof (fresh_source_connection_invariants env self w) as H.
      cbv zeta in H. now rewrite app_nil_r.
  - unfold connect_to_destination, is_dest_healthy.
    destruct (dest_client self) as [c|] eqn:Hsc.
    + destruct (_dest_healthy self) eqn:Hh.
      * cbn [fst snd]. rewrite app_nil_r.
        repeat split; try lia; congruence.
      * pose proof (fresh_dest_connection_invariants env
                      (set_dest self None false) (close_client c w)) as H.
        cbv zeta in H. cbn [set_dest config source_client _source_healthy
                            close_client tries closed] in H.
        exact H.
    + pose proof (fresh_dest_connection_invariants env self w) as H.
      cbv zeta in H. now rewrite app_nil_r.
Qed.

Lemma connect_invariants_witness :
  _source_healthy
    (fst (fst (connect_to_source Examples.always_up
                 (init Examples.configured) initial_world))) = true
  /\ _dest_healthy
       (fst (fst (connect_to_destination Examples.always_up
                    (init Examples.configured) initial_world))) = true.
Proof.
  destruct (connect_invariants Examples.always_up (init Examples.configured)
              initial_world) as [Hs Hd].
  cbv zeta in Hs, Hd.
  destruct Hs as (_ & _ & _ & Hs & _). destruct Hd as (_ & _ & _ & Hd & _).
  split; [apply Hs|apply Hd]; discriminate.
Defined.

(** X2. With [connection_retry_attempts <= 0] the connection loop does not
    run: [connect_to_source], when it has no handle to reuse, makes no
    try and no sleep and returns [None], and yet marks the source
    healthy. *)
Theorem connect_without_attempts (env : Env) (self : t) (w : World) :
  (connection_retry_attempts (config self) <= 0)%Z ->
  use_managed_identity (config self) = false ->
  source_client self = None \/ _source_healthy self = false ->
  let r := connect_to_source env self w in
  snd r = None
  /\ source_client (fst (fst r)) = None
  /\ _source_healthy (fst (fst r)) = true
  /\ tries (snd (fst r)) = tries w
  /\ slept (snd (fst r)) = slept w.
Proof.
  intros Hn Hmi Hreuse. cbv zeta.
  assert (Hfresh : forall self0 w0,
    connection_retry_attempts (config self0) = connection_retry_attempts
                                                 (config self) ->
    use_managed_identity (config self0) = false ->
    let r := fresh_source_connection env self0 w0 in
    snd r = None /\ source_client (fst (fst r)) = None
    /\ _source_healthy (fst (fst r)) = true
    /\ snd (fst r) = w0).
  { intros self0 w0 Hc Hm. cbv zeta. unfold fresh_source_connection.
    rewrite Hm.
    destruct (negb (truthy (source_connection_string (config self0)))
              && negb false);
      cbn [config set_config update_connection_strings use_managed_identity];
      rewrite ?Hm; unfold _create_mongo_client_with_retry;
      cbn [connection_retry_attempts update_connection_strings];
      rewrite Hc;
      replace (Z.to_nat (connection_retry_attempts (config self)))
        with 0%nat by lia;
      cbn; repeat split. }
  unfold connect_to_source, is_source_healthy.
  destruct (source_client self) as [c|] eqn:Hsc.
  - destruct Hreuse as [Hr|Hr]; [discriminate|]. rewrite Hr.
    destruct (Hfresh (set_source self None false) (close_client c w)
                eq_refl Hmi) as (H1 & H2 & H3 & H4).
    rewrite H4. cbn [close_client tries slept]. auto.
  - destruct (Hfresh self w eq_refl Hmi) as (H1 & H2 & H3 & H4).
    rewrite H4. auto.
Qed.

Lemma connect_without_attempts_witness :
  let r := connect_to_source Examples.always_up
             (init (Examples2.with_attempts 0)) initial_world in
  snd r = None
  /\ source_client (fst (fst r)) = None
  /\ _source_healthy (fst (fst r)) = true
  /\ tries (snd (fst r)) = 0%nat
  /\ slept (snd (fst r)) = [].
Proof.
  refine (connect_without_attempts Examples.always_up
            (init (Examples2.with_attempts 0)) initial_world _ _ _).
  - simpl. lia.
  - reflexivity.
  - left. reflexivity.
Defined.

(** X3. With managed identity switched on, [connect_to_source] (with no
    handle to reuse) gives up at once: no prompt, no connection try, no
    sleep; the handle is cleared, the source is marked unhealthy and
    [None] is returned. *)
Theorem connect_with_managed_identity (env : Env) (self : t) (w : World) :
  use_managed_identity (config self) = true ->
  source_client self = None \/ _source_healthy self = false ->
  connect_to_source env self w
  = (set_source self None false,
     match source_client self with
     | Some c => close_client c w
     | None => w
     end,
     None).
Proof.
  intros Hmi Hreuse. unfold connect_to_source, is_source_healthy.
  assert (Hfresh : forall self0 w0,
    config self0 = config self ->
    fresh_source_connection env self0 w0 = (set_source self0 None false,
                                            w0, None)).
  { intros self0 w0 Hc. unfold fresh_source_connection. rewrite Hc, Hmi.
    rewrite andb_false_r. cbn. now rewrite Hc, Hmi. }
  destruct (source_client self) as [c|].
  - destruct Hreuse as [Hr|Hr]; [discriminate|]. rewrite Hr.
    now rewrite Hfresh.
  - now rewrite Hfresh.
Qed.

Lemma connect_with_managed_identity_witness :
  connect_to_source Examples.always_up
    (init Examples2.with_managed_identity) initial_world
  = (init Examples2.with_managed_identity, initial_world, None).
Proof.
  refine (connect_with_managed_identity Examples.always_up
            (init Examples2.with_managed_identity) initial_world _ _).
  - reflexivity.
  - left. reflexivity.
Defined.

(** X4. Prompting amounts to configuring: when the source connection string
    is missing and the user types a string that is not empty, connecting
    behaves as if that string had been in the settings from the start,
    and the settings hold it afterwards. *)
Theorem connect_after_prompt (env : Env) (self : t) (w : World) :
  truthy (source_connection_string (config self)) = false ->
  use_managed_identity (config self) = false ->
  source_client self = None \/ _source_healthy self = false ->
  truthy (Some (getpass env "source")) = true ->
  let typed := Some (getpass env "source") in
  let told := set_config self
                (update_connection_strings (config self) typed None) in
  connect_to_source env self w = connect_to_source env told w
  /\ source_connection_string (config (fst (fst (connect_to_source env self w))))
     = typed
  /\ dest_connection_string (config (fst (fst (connect_to_source env self w))))
     = dest_connection_string (config self).
Proof.
  intros Hcs Hmi Hreuse Htyped typed told.
  assert (Hfresh : forall self0 w0,
    config self0 = config self ->
    let told0 := set_config self0
                   (update_connection_strings (config self) typed None) in
    fresh_source_connection env self0 w0
    = fresh_source_connection env told0 w0
    /\ source_connection_string
         (config (fst (fst (fresh_source_connection env self0 w0)))) = typed
    /\ dest_connection_string
         (config (fst (fst (fresh_source_connection env self0 w0))))
       = dest_connection_string (config self)).
  { intros self0 w0 Hc told0. subst told0 typed.
    unfold fresh_source_connection, _prompt_for_connection_string.
    cbn [config set_config]. rewrite Hc, Hcs.
    repeat (progress
              (cbn [config set_config update_connection_strings
                    use_managed_identity source_connection_string
                    dest_connection_string negb andb fst snd];
               rewrite ?Hmi, ?Htyped, ?Hcs)).
    match goal with
    | |- context [_create_mongo_client_with_retry ?e ?c ?cs ?ct ?w1] =>
      destruct (_create_mongo_client_with_retry e c cs ct w1)
        as [w' [client|err]]
    end;
      cbn [config set_config set_source update_connection_strings
           source_connection_string dest_connection_string fst snd];
      rewrite ?Htyped; repeat split. }
  unfold connect_to_source, is_source_healthy. subst told.
  cbn [set_config source_client _source_healthy].
  destruct (source_client self) as [c|].
  - destruct Hreuse as [Hr|Hr]; [discriminate|]. rewrite Hr.
    exact (Hfresh (set_source self None false) (close_client c w) eq_refl).
  - exact (Hfresh self w eq_refl).
Qed.

Lemma connect_after_prompt_witness :
  connect_to_source Examples.always_up (init default_config) initial_world
  = connect_to_source Examples.always_up
      (init (update_connection_strings default_config
               (Some "mongodb://typed") None)) initial_world.
Proof.
  refine (proj1 (connect_after_prompt Examples.always_up
                   (init default_config) initial_world _ _ _ _)).
  - reflexivity.
  - reflexivity.
  - left. reflexivity.
  - reflexivity.
Defined.

(** X5. The first [k] tries fail in any way and try [k+1] succeeds, with
    a delay setting that is not negative and delays the handlers can
    compute and sleep ([k <= 1024], every delay below the [2^63]
    nanoseconds of [time.sleep]): exactly [k+1] tries are made, and the
    delay after failed try [i] carries the jitter [0.1*i] only when that
    try ended in a connection failure; after any other exception it is
    [connection_retry_delay_ms/1000 * 2^i] alone. *)
Theorem create_client_after_failures_of_any_kind
    (env : Env) (cfg : Config) (cs : option string) (ct : string)
    (w : World) (k : nat) (errs : nat -> PyExc) (c : Client) :
  (Z.of_nat k < connection_retry_attempts cfg)%Z ->
  (0 <= connection_retry_delay_ms cfg)%Z ->
  (k <= 1024)%nat ->
  (forall i, (i < k)%nat ->
     delay_after cfg (errs i) (Z.of_nat i) < sleep_limit) ->
  (forall i, (i < k)%nat ->
     mongo_client env cs (tries w + i) = Raise (errs i)) ->
  mongo_client env cs (tries w + k) = Ok c ->
  _create_mongo_client_with_retry env cfg cs ct w
  = (mkWorld (tries w + (k + 1))
       (slept w ++ map (fun i => delay_after cfg (errs i) (Z.of_nat i))
                       (seq 0 k))
       (closed w),
     Ok (Some c))
  /\ (forall i,
        is_ConnectionFailure (errs i) = false ->
        delay_after cfg (errs i) (Z.of_nat i)
        = inject_Z (connection_retry_delay_ms cfg) / 1000
          * inject_Z (2 ^ Z.of_nat i))
  /\ (forall i,
        is_ConnectionFailure (errs i) = true ->
        delay_after cfg (errs i) (Z.of_nat i)
        = inject_Z (connection_retry_delay_ms cfg) / 1000
          * inject_Z (2 ^ Z.of_nat i) + inject_Z (Z.of_nat i) * (1 # 10)).
Proof.
  intros Hk Hbase Hcap Hrange Hfail Hok. split; [|split].
  - unfold _create_mongo_client_with_retry.
    rewrite (ConnectionFacts.loop_succeeds env cfg cs ct Hbase k _ 0%Z w c
               errs); try assumption; try lia.
    reflexivity.
  - intros i Hc. unfold delay_after. now rewrite Hc.
  - intros i Hc. unfold delay_after. now rewrite Hc.
Qed.

Lemma create_client_after_failures_of_any_kind_witness :
  _create_mongo_client_with_retry Examples2.refused_then_down default_config
    (Some "mongodb://source") "source" initial_world
  = (mkWorld 3 [plain_delay 2000 0; backoff_delay 2000 1] [],
     Ok (Some 7%nat)).
Proof.
  refine (proj1 (create_client_after_failures_of_any_kind
                   Examples2.refused_then_down default_config
                   (Some "mongodb://source") "source" initial_world 2%nat
                   (fun i => match i with
                             | O => OperationFailure "Authentication failed"
                             | _ => ServerSelectionTimeoutError "timed out"
                             end)
                   7%nat _ _ _ _ _ _)).
  - simpl. lia.
  - simpl. lia.
  - lia.
  - intros i Hi. destruct i as [|[|i]]; [reflexivity|reflexivity|lia].
  - intros i Hi. destruct i as [|[|i]]; [reflexivity|reflexivity|lia].
  - reflexivity.
Defined.

(** *** [execute_with_retry] *)

Lemma reconnect_other_role {X : Type} (env : Env) (client_type : string)
    (s : State X) :
  client_type <> "source" -> client_type <> "destination" ->
  reconnect env client_type s = s.
Proof.
  intros H1 H2. unfold reconnect.
  apply String.eqb_neq in H1. apply String.eqb_neq in H2.
  now rewrite H1, H2.
Qed.

(** X6. An operation that raises a driver error on its first [k] calls and
    returns [a] on the next, with [k] below [operation_retry_attempts]:
    [execute_with_retry] returns [a] after calling the operation exactly
    [k+1] times; and when [client_type] names neither role, nothing is
    reconnected, the manager is untouched, and the delays slept are
    1, 2, 4, ..., [2^(k-1)] seconds. *)
Theorem execute_with_retry_schedule {A : Type}
    (env : Env) (outcome : nat -> result A) (client_type : string)
    (s : State nat) (k : nat) (a : A) :
  (Z.of_nat k < operation_retry_attempts (config (cm s)))%Z ->
  (forall i, (i < k)%nat ->
     exists e, outcome (ext s + i)%nat = Raise e
               /\ is_PyMongoError e = true) ->
  outcome (ext s + k)%nat = Ok a ->
  let r := execute_with_retry env (scripted_operation outcome)
             client_type s in
  snd r = Ok (Some a)
  /\ ext (fst r) = (ext s + (k + 1))%nat
  /\ (client_type <> "source" -> client_type <> "destination" ->
      cm (fst r) = cm s
      /\ io (fst r)
         = mkWorld (tries (io s))
             (slept (io s)
              ++ map (fun i => inject_Z (2 ^ Z.of_nat i)) (seq 0 k))
             (closed (io s))).
Proof.
  intros Hk Hfail Hok. cbv zeta. unfold execute_with_retry.
  remember (operation_retry_attempts (config (cm s))) as max_retries.
  clear Heqmax_retries.
  assert (Hloop : forall (k : nat) (remaining : nat) (attempt : Z)
                         (s : State nat),
    (0 <= attempt)%Z ->
    (attempt + Z.of_nat k < max_retries)%Z ->
    (k < remaining)%nat ->
    (forall i, (i < k)%nat ->
       exists e, outcome (ext s + i)%nat = Raise e
                 /\ is_PyMongoError e = true) ->
    outcome (ext s + k)%nat = Ok a ->
    let r := execute_loop env (scripted_operation outcome) client_type
               max_retries remaining attempt s in
    snd r = Ok (Some a)
    /\ ext (fst r) = (ext s + (k + 1))%nat
    /\ (client_type <> "source" -> client_type <> "destination" ->
        cm (fst r) = cm s
        /\ io (fst r)
           = mkWorld (tries (io s))
               (slept (io s)
                ++ map (fun i => inject_Z (2 ^ (attempt + Z.of_nat i)))
                       (seq 0 k))
               (closed (io s)))).
  { clear Hk Hfail Hok. clear s k. intros k. induction k as [|k IH];
      intros remaining attempt s Ha Hk Hrem Hfail Hok; cbv zeta.
    - destruct remaining as [|remaining]; [lia|].
      rewrite Nat.add_0_r in Hok.
      rewrite (ConnectionFacts.execute_loop_ok env
                 (scripted_operation outcome) client_type max_retries
                 remaining attempt s (mkState (cm s) (io s) (S (ext s))) a)
        by (unfold scripted_operation; now rewrite Hok).
      cbn [fst snd ext cm io]. split; [reflexivity|]. split; [lia|].
      intros _ _. split; [reflexivity|].
      simpl. rewrite app_nil_r. now destruct (io s).
    - destruct remaining as [|remaining]; [lia|].
      destruct (Hfail 0%nat ltac:(lia)) as (e & He & Hpm).
      rewrite Nat.add_0_r in He.
      rewrite (ConnectionFacts.execute_loop_retry env
                 (scripted_operation outcome) client_type max_retries
                 remaining attempt s (mkState (cm s) (io s) (S (ext s))) e)
        by (try (unfold scripted_operation; now rewrite He);
            try assumption; lia).
      cbv zeta. rewrite (ConnectionFacts.reconnect_ext env client_type).
      cbn [ext].
      match goal with
      | |- context [execute_loop _ _ _ _ _ _ ?s2] =>
        specialize (IH remaining (attempt + 1)%Z s2)
      end.
      cbv zeta in IH. cbn [ext cm io] in IH.
      destruct IH as (Hr & He2 & Hio); try lia.
      + intros i Hi. destruct (Hfail (S i) ltac:(lia)) as (e' & He' & Hpm').
        exists e'. split; [|exact Hpm'].
        now replace (S (ext s) + i)%nat with (ext s + S i)%nat by lia.
      + now replace (S (ext s) + k)%nat with (ext s + S k)%nat by lia.
      + split; [exact Hr|]. split; [etransitivity; [exact He2|lia]|].
        intros H1 H2. destruct (Hio H1 H2) as [Hcm Hw].
        rewrite (reconnect_other_role env client_type _ H1 H2) in Hcm, Hw.
        rewrite (reconnect_other_role env client_type _ H1 H2).
        cbn [cm io tries slept closed] in Hcm, Hw.
        cbn [cm io tries slept closed].
        split; [exact Hcm|]. rewrite Hw. f_equal.
        rewrite <- app_assoc. f_equal. simpl. f_equal.
        * f_equal. f_equal. lia.
        * rewrite <- seq_shift, map_map. apply map_ext. intros i.
          f_equal. f_equal. lia. }
  destruct (Hloop k (Z.to_nat max_retries) 0%Z s) as (Hr & He & Hio);
    try assumption; try lia.
  split; [exact Hr|]. split; [exact He|]. exact Hio.
Qed.

Lemma execute_with_retry_schedule_witness :
  let r := execute_with_retry Examples.always_up
             (scripted_operation Examples2.third_time_lucky) "unknown"
             (mkState (init Examples.configured) initial_world 0%nat) in
  snd r = Ok (Some 42%Z)
  /\ ext (fst r) = 3%nat
  /\ ("unknown" <> "source" -> "unknown" <> "destination" ->
      cm (fst r) = init Examples.configured
      /\ io (fst r) = mkWorld 0 [1; 2] []).
Proof.
  refine (execute_with_retry_schedule Examples.always_up
            Examples2.third_time_lucky "unknown"
            (mkState (init Examples.configured) initial_world 0%nat)
            2%nat 42%Z _ _ _).
  - simpl. lia.
  - intros i Hi. exists (ServerSelectionTimeoutError "timed out").
    destruct i as [|[|i]]; [split; reflexivity|split; reflexivity|lia].
  - reflexivity.
Defined.

(** *** [close_connections] and the health monitor *)

(** X7. After [close_connections] no role has a handle, whatever [close()]
    does; [close()] was called once on each handle that was held, the
    source's first; the shutdown flag is set; a role whose [close()]
    returned is marked unhealthy, while one whose [close()] raised keeps
    its flag; and closing again changes nothing. *)
Theorem close_connections_clears_handles
    (close_raises : Client -> bool) (m : Managed) (w : World) :
  let r := close_connections close_raises m w in
  source_client (manager (fst r)) = None
  /\ dest_client (manager (fst r)) = None
  /\ _shutdown_requested (fst r) = true
  /\ snd r
     = mkWorld (tries w) (slept w)
         (closed w
          ++ match source_client (manager m) with
             | Some c => [c]
             | None => []
             end
          ++ match dest_client (manager m) with
             | Some c => [c]
             | None => []
             end)
  /\ (forall c, source_client (manager m) = Some c ->
      _source_healthy (manager (fst r))
      = if close_raises c then _source_healthy (manager m) else false)
  /\ (forall c, dest_client (manager m) = Some c ->
      _dest_healthy (manager (fst r))
      = if close_raises c then _dest_healthy (manager m) else false)
  /\ close_connections close_raises (fst r) (snd r) = r.
Proof.
  cbv zeta. unfold close_connections.
  destruct m as [[cfg sc dc sh dh] sd]. destruct w as [t sl cl].
  cbn [manager source_client dest_client].
  destruct sc as [c1|]; destruct dc as [c2|];
    unfold set_source, set_dest, close_client; simpl;
    rewrite <- ?app_assoc, ?app_nil_r; simpl;
    repeat split; try (intros c Hc; inversion Hc; subst); reflexivity.
Qed.

Lemma close_connections_clears_handles_witness :
  let m := mkManaged (mk Examples.configured (Some 7%nat) (Some 8%nat)
                         true true) false in
  let r := close_connections (fun c => (c =? 8)%nat) m initial_world in
  _source_healthy (manager (fst r)) = false
  /\ _dest_healthy (manager (fst r)) = true
  /\ snd r = mkWorld 0 [] [7%nat; 8%nat].
Proof.
  cbv zeta.
  destruct (close_connections_clears_handles (fun c => (c =? 8)%nat)
              (mkManaged (mk Examples.configured (Some 7%nat) (Some 8%nat)
                             true true) false) initial_world)
    as (_ & _ & _ & Hw & Hs & Hd & _).
  split; [exact (Hs 7%nat eq_refl)|].
  split; [exact (Hd 8%nat eq_refl)|exact Hw].
Defined.

(** X8. A round of the health monitor leaves the handles and the settings
    alone and sets the flag of each role that has a handle to the
    outcome of its ping; a role without a handle keeps its flag.  The
    flags reflect the latest round only: a round after another gives
    what it would give alone. *)
Theorem health_check_reflects_latest_probe
    (ping ping' : Client -> result unit) (self : t) :
  let self' := health_check ping self in
  source_client self' = source_client self
  /\ dest_client self' = dest_client self
  /\ config self' = config self
  /\ _source_healthy self'
     = match source_client self with
       | Some c => match ping c with Ok _ => true | Raise _ => false end
       | None => _source_healthy self
       end
  /\ _dest_healthy self'
     = match dest_client self with
       | Some c => match ping c with Ok _ => true | Raise _ => false end
       | None => _dest_healthy self
       end
  /\ health_check ping' (health_check ping self) = health_check ping' self.
Proof.
  cbv zeta. unfold health_check. destruct self as [cfg sc dc sh dh].
  cbn [source_client dest_client].
  unfold set_source, set_dest.
  destruct sc as [c1|]; destruct dc as [c2|]; simpl;
    repeat (match goal with
            | |- context [match ping ?c with _ => _ end] =>
              destruct (ping c) as [[]|?]
            | |- context [match ping' ?c with _ => _ end] =>
              destruct (ping' c) as [[]|?]
            end; simpl);
    repeat split; reflexivity.
Qed.

End ConnectionExtras.

(** ** The batch transfer engine *)

Module MigrationExtras.

Import ConnectionManager MigrationService DatabaseMigration Transfer.

Local Open Scope list_scope.

(** An operation whose first call returns, or raises outside the driver,
    is called once: the wrapper hands its outcome through and leaves the
    manager and the clock alone. *)
Lemma run_first_call {X A : Type} (env : Env) (self : service)
    (operation : State X -> State X * result A) (client_type : string)
    (s s' : State X) (r : result A) :
  can_write self s ->
  operation s = (s', r) ->
  (forall e, r = Raise e -> is_PyMongoError e = false) ->
  run env self operation client_type s
  = (s', match r with Ok a => Ok (Some a) | Raise e => Raise e end).
Proof.
  intros Hw Hop Hr. unfold run.
  destruct (connection_manager self) eqn:Hcm.
  - destruct Hw as [Hw|Hw]; [congruence|].
    unfold execute_with_retry.
    replace (Z.to_nat (operation_retry_attempts
                         (ConnectionManager.config (cm s))))
      with (S (Z.to_nat (operation_retry_attempts
                           (ConnectionManager.config (cm s))) - 1)) by lia.
    destruct r as [a|e].
    + now apply ConnectionFacts.execute_loop_ok.
    + apply ConnectionFacts.execute_loop_other; [exact Hop|].
      specialize (Hr e eq_refl). destruct e; simpl in *; congruence.
  - rewrite Hop. now destruct r.
Qed.

Section WritePath.

Context {X : Type}.
Variable env : Env.
Variable drv : Driver X.
Variable self : MigrationService.service.
Variable database_name collection_name : string.

Lemma process_batch_single_call (d : Doc) (batch : list Doc) (s : State X) :
  can_write self s ->
  exists stats,
    _process_batch env drv self database_name collection_name (d :: batch) s
    = (set_ext s (fst (bulk_write drv database_name collection_name
                         (operations (d :: batch)) (ext s))),
       Some stats)
    /\ batch_outcome (List.length (d :: batch))
         (snd (bulk_write drv database_name collection_name
                 (operations (d :: batch)) (ext s)))
         stats.
Proof.
  intros Hw. unfold _process_batch.
  destruct (bulk_write drv database_name collection_name
              (operations (d :: batch)) (ext s)) as [x' r] eqn:Hbw.
  cbn [fst snd].
  assert (Hpure :
    forall stats,
      _process_batch_operation drv database_name collection_name
        (d :: batch) s = (set_ext s x', Ok stats) ->
      run env self
        (_process_batch_operation drv database_name collection_name
           (d :: batch)) "destination" s
      = (set_ext s x', Ok (Some stats))).
  { intros stats Hop.
    now rewrite (run_first_call env self _ "destination" s _ _ Hw Hop). }
  assert (Hother :
    forall e, is_PyMongoError e = false ->
      _process_batch_operation drv database_name collection_name
        (d :: batch) s = (set_ext s x', Raise e) ->
      run env self
        (_process_batch_operation drv database_name collection_name
           (d :: batch)) "destination" s
      = (set_ext s x', Raise e)).
  { intros e He Hop.
    rewrite (run_first_call env self _ "destination" s _ _ Hw Hop);
      [reflexivity|]. intros e' [= <-]. exact He. }
  pose proof (eq_refl (_process_batch_operation drv database_name
                         collection_name (d :: batch) s)) as Hop.
  unfold _process_batch_operation at 2 in Hop. rewrite Hbw in Hop.
  destruct r as [res|e].
  - rewrite (Hpure _ Hop). eexists. split; reflexivity.
  - destruct e; cbn [is_PyMongoError] in Hop;
      match type of Hop with
      | _ = (_, Ok _) =>
        rewrite (Hpure _ Hop); eexists; (split; [reflexivity|]);
        cbn; try split; reflexivity
      | _ = (_, Raise ?e) =>
        rewrite (Hother e eq_refl Hop); eexists; split; reflexivity
      end.
Qed.

(** X9. The retry wrapper never comes into play on the write path: the
    operation absorbs the driver errors of [bulk_write] itself.  So a
    batch that is not empty costs exactly one call of [bulk_write],
    nothing is reconnected and nothing is slept, with or without a
    manager; a [BulkWriteError] counts its write errors as failed; any
    other exception counts the whole batch as failed. *)
Theorem write_path_calls_bulk_write_once (d : Doc) (batch : list Doc)
    (s : State X) :
  can_write self s ->
  exists stats,
    _process_batch env drv self database_name collection_name (d :: batch) s
    = (set_ext s (fst (bulk_write drv database_name collection_name
                         (operations (d :: batch)) (ext s))),
       Some stats)
    /\ batch_outcome (List.length (d :: batch))
         (snd (bulk_write drv database_name collection_name
                 (operations (d :: batch)) (ext s)))
         stats.
Proof.
  exact (process_batch_single_call d batch s).
Qed.

End WritePath.

Lemma write_path_calls_bulk_write_once_witness :
  can_write Examples.managed_service
    (mkState (init Examples.configured) initial_world 0%nat)
  /\ exists stats,
      _process_batch Examples.always_up
        (Scripted.scripted_driver Examples.three_writes_fail)
        Examples.managed_service "shop" "orders" (Examples.numbered 1 10)
        (mkState (init Examples.configured) initial_world 0%nat)
      = (mkState (init Examples.configured) initial_world 1%nat, Some stats)
      /\ failed stats = 3%Z
      /\ inserted stats
         = (match raw_inserted stats with Some n => n | None => 0 end
            + upserted stats + modified stats)%Z.
Proof.
  assert (Hw : can_write Examples.managed_service
                 (mkState (init Examples.configured) initial_world 0%nat))
    by (right; simpl; lia).
  split; [exact Hw|].
  exact (write_path_calls_bulk_write_once Examples.always_up
           (Scripted.scripted_driver Examples.three_writes_fail)
           Examples.managed_service "shop" "orders"
           [("_id", VInt 1); ("n", VInt 1)] (Examples.numbered 2 9)
           (mkState (init Examples.configured) initial_world 0%nat) Hw).
Defined.

(** *** The bulk writes of the streaming phase *)

Section Batches.

Context {X : Type}.
Variable env : Env.
Variable drv : Driver X.
Variable self : MigrationService.service.
Variable database_name collection_name : string.





End Batches.



(** *** A manager that is allowed no try *)

Section NoTry.

Context {X : Type}.
Variable env : Env.
Variable drv : Driver X.
Variable self : MigrationService.service.

Lemma run_without_attempts {A : Type}
    (operation : State X -> State X * result A) (client_type : string)
    (s : State X) :
  connection_manager self = true ->
  (operation_retry_attempts (ConnectionManager.config (cm s)) <= 0)%Z ->
  run env self operation client_type s = (s, Ok None).
Proof.
  intros Hcm Hz. unfold run, execute_with_retry. rewrite Hcm.
  replace (Z.to_nat (operation_retry_attempts
                       (ConnectionManager.config (cm s)))) with 0%nat by lia.
  reflexivity.
Qed.

Lemma ensure_destination_cm (database_name collection_name : string)
    (s : State X) :
  cm (fst (ensure_destination drv self database_name collection_name s))
  = cm s
  /\ io (fst (ensure_destination drv self database_name collection_name s))
     = io s.
Proof.
  unfold ensure_destination.
  destruct (negb (target_is_vcore (MigrationService.config self))).
  - destruct (CosmosDBRUManager.get_recommended_partition_key _ _ _ _ _)
      as [x1 pk].
    destruct (CosmosDBRUManager.ensure_collection_exists _ _ _ _ _ _)
      as [x2 [|]].
    + destruct (CosmosDBRUManager.get_collection_throughput _ _ _ _)
        as [x3 t]. split; reflexivity.
    + split; reflexivity.
  - destruct (list_collection_names drv Destination database_name (ext s))
      as [x1 [names|e]]; [|split; reflexivity].
    destruct (str_in collection_name names); [split; reflexivity|].
    destruct (create_collection drv database_name collection_name x1)
      as [x2 [u|e]]; split; reflexivity.
Qed.

Lemma stream_without_attempts (database_name collection_name : string)
    (s : State X) :
  connection_manager self = true ->
  (operation_retry_attempts (ConnectionManager.config (cm s)) <= 0)%Z ->
  forall (documents batch : list Doc) (acc : Totals),
    stream env drv self database_name collection_name documents batch acc s
    = (s, Raise (OtherException "'NoneType' object is not subscriptable"))
    \/ stream env drv self database_name collection_name documents batch acc s
       = (s, Ok (batch ++ documents, acc)).
Proof.
  intros Hcm Hz. induction documents as [|d documents IH]; intros batch acc.
  - right. simpl. now rewrite app_nil_r.
  - simpl.
    destruct (Z.of_nat (List.length (batch ++ [d])) >=? batch_size self)%Z.
    + left. unfold flush, _process_batch.
      now rewrite run_without_attempts.
    + destruct (IH (batch ++ [d]) acc) as [H|H]; [now left|right].
      rewrite H, <- app_assoc. reflexivity.
Qed.

(** X10. With a manager whose [operation_retry_attempts] is zero or less the
    operations are never called: listing and counting return [None] and
    leave the driver untouched, and a transfer that got to its streaming
    phase with a cursor holding at least one document ends in the
    failure report of a [TypeError], having written nothing. *)
Theorem manager_without_attempts_calls_nothing
    (database_name collection_name : string)
    (s s_stream : State X) (total : option Z) (cursor : Cursor) :
  connection_manager self = true ->
  (operation_retry_attempts (ConnectionManager.config (cm s)) <= 0)%Z ->
  list_databases env drv self s = (s, Ok None)
  /\ list_collections env drv self database_name s = (s, Ok None)
  /\ count_documents env drv self database_name collection_name s
     = (s, Ok None)
  /\ (forall batch,
         _process_batch env drv self database_name collection_name batch s
         = (s, None))
  /\ (reaches_streaming env drv self database_name collection_name
        s s_stream total cursor ->
      yielded cursor <> [] ->
      fails cursor = None ->
      total = None
      /\ migrate_collection_trace env drv self database_name collection_name s
         = (s_stream,
            failure_report
              (OtherException "'NoneType' object is not subscriptable"),
            [])).
Proof.
  intros Hcm Hz.
  split; [unfold list_databases; now rewrite run_without_attempts|].
  split; [unfold list_collections; now rewrite run_without_attempts|].
  split; [unfold count_documents; now rewrite run_without_attempts|].
  split; [intros batch; unfold _process_batch;
          now rewrite run_without_attempts|].
  intros (s1 & s2 & x3 & n & x4 & He & Hc & Hne & Hd & Hf & ->) Hy Hfails.
  pose proof (ensure_destination_cm database_name collection_name s)
    as [Hcm1 _].
  rewrite He in Hcm1. cbn [fst] in Hcm1.
  assert (Hz1 : (operation_retry_attempts
                   (ConnectionManager.config (cm s1)) <= 0)%Z)
    by now rewrite Hcm1.
  unfold count_documents in Hc.
  rewrite (run_without_attempts _ _ _ Hcm Hz1) in Hc.
  injection Hc as <- <-. split; [reflexivity|].
  unfold migrate_collection_trace. rewrite He.
  unfold count_documents. rewrite (run_without_attempts _ _ _ Hcm Hz1).
  rewrite Hd, Hf.
  assert (Hz4 : (operation_retry_attempts
                   (ConnectionManager.config (cm (set_ext s1 x4))) <= 0)%Z)
    by exact Hz1.
  unfold stream_all. rewrite Hfails.
  destruct (stream_without_attempts database_name collection_name
              (set_ext s1 x4) Hcm Hz4 (yielded cursor) []
              (mkTotals 0 0 0 0 0 [])) as [H|H]; rewrite H.
  - reflexivity.
  - cbn [app]. destruct (yielded cursor) as [|d docs]; [congruence|].
    unfold flush, _process_batch.
    now rewrite (run_without_attempts _ _ _ Hcm Hz4).
Qed.

End NoTry.

Lemma manager_without_attempts_calls_nothing_witness :
  let s := mkState (init (Examples2.with_operation_attempts 0)) initial_world
                   0%nat in
  list_databases Examples.always_up
    (Scripted.scripted_driver Examples.three_writes_fail)
    Examples.managed_service s = (s, Ok None)
  /\ migrate_collection_trace Examples.always_up
       (Scripted.scripted_driver Examples.three_writes_fail)
       Examples.managed_service "shop" "orders" s
     = (mkState (init (Examples2.with_operation_attempts 0)) initial_world
                3%nat,
        failure_report
          (OtherException "'NoneType' object is not subscriptable"),
        []).
Proof.
  cbv zeta.
  pose proof (manager_without_attempts_calls_nothing Examples.always_up
                (Scripted.scripted_driver Examples.three_writes_fail)
                Examples.managed_service "shop" "orders"
                (mkState (init (Examples2.with_operation_attempts 0))
                         initial_world 0%nat)
                (mkState (init (Examples2.with_operation_attempts 0))
                         initial_world 3%nat)
                None (mkCursor (Examples.numbered 1 10) None)
                eq_refl ltac:(simpl; lia)) as (Hl & _ & _ & _ & Hm).
  split; [exact Hl|].
  apply Hm.
  - exists (mkState (init (Examples2.with_operation_attempts 0))
                    initial_world 1%nat),
           (mkState (init (Examples2.with_operation_attempts 0))
                    initial_world 1%nat), 2%nat, 10%Z, 3%nat.
    repeat split; discriminate.
  - discriminate.
  - reflexivity.
Defined.

(** *** Counting, listing and the counters of a report *)

Section Reports.

Context {X : Type}.
Variable env : Env.
Variable drv : Driver X.
Variable self : MigrationService.service.
Variable database_name collection_name : string.

(** X11. A source count that fails with a driver error on every try is
    taken for zero: once the destination collection is there, the
    transfer returns the report of an empty collection, [success = True]
    with all counters zero, without handing a batch to the write path,
    even though the source may hold documents. *)
Theorem failed_source_count_reports_an_empty_success (s s1 : State X) :
  can_write self s ->
  ensure_destination drv self database_name collection_name s
  = (s1, Ok true) ->
  (forall x, exists x' e,
      Pymongo.count_documents drv Source database_name collection_name x
      = (x', Raise e)
      /\ is_PyMongoError e = true) ->
  exists s2,
    migrate_collection_trace env drv self database_name collection_name s
    = (s2,
       mkReport true (Some 0%Z) (Some 0%Z) (Some 0%Z) None None None None,
       []).
Proof.
  intros Hw He Hfail.
  pose proof (ensure_destination_cm drv self database_name collection_name s)
    as [Hcm1 _].
  rewrite He in Hcm1. cbn [fst] in Hcm1.
  assert (Hw1 : can_write self s1).
  { unfold can_write in *. now rewrite Hcm1. }
  unfold migrate_collection_trace. rewrite He. unfold count_documents.
  destruct (MigrationFacts.run_all_fail env self
              (_count_documents_operation drv database_name collection_name)
              "source" s1) as (e & Hr & Hpm).
  - intros s0. unfold _count_documents_operation.
    destruct (Hfail (ext s0)) as (x' & e & Hc & Hpm). rewrite Hc.
    now exists (set_ext s0 x'), e.
  - exact Hw1.
  - destruct (run env self _ "source" s1) as [s2 r]. cbn [snd] in Hr.
    subst r. rewrite Hpm. now exists s2.
Qed.

(** The statistics of a batch, however the write path came by them. *)
Lemma process_batch_stats (batch : list Doc) (s s' : State X)
    (stats : BatchStats) :
  _process_batch env drv self database_name collection_name batch s
  = (s', Some stats) ->
  inserted stats
  = (match raw_inserted stats with Some n => n | None => 0 end
     + upserted stats + modified stats)%Z
  /\ (0 <= failed stats)%Z.
Proof.
  unfold _process_batch.
  destruct (run env self _ "destination" s) as [s1 [[st|]|e]] eqn:Hrun;
    intros H; inversion H; subst; clear H.
  - apply MigrationFacts.run_value in Hrun.
    destruct Hrun as (s0 & s2 & Hop).
    unfold _process_batch_operation in Hop.
    destruct batch as [|d batch].
    + inversion Hop; subst. simpl. lia.
    + destruct (bulk_write drv _ _ _ _) as [x' [res|e]].
      * inversion Hop; subst. simpl. lia.
      * destruct e; simpl in Hop; inversion Hop; subst; simpl; lia.
  - simpl. lia.
Qed.

Lemma flush_counters (batch : list Doc) (acc acc' : Totals)
    (s s' : State X) :
  flush env drv self database_name collection_name batch acc s
  = (s', Ok acc') ->
  migrated acc = (raw acc + ups acc + mods acc)%Z /\ (0 <= failures acc)%Z ->
  migrated acc' = (raw acc' + ups acc' + mods acc')%Z
  /\ (0 <= failures acc')%Z.
Proof.
  unfold flush.
  destruct (_process_batch env drv self database_name collection_name
              batch s) as [s1 [stats|]] eqn:Hp; intros H; inversion H; subst.
  apply process_batch_stats in Hp. simpl. lia.
Qed.

Lemma stream_counters :
  forall (documents batch batch' : list Doc) (acc acc' : Totals)
         (s s' : State X),
    stream env drv self database_name collection_name documents batch acc s
    = (s', Ok (batch', acc')) ->
    migrated acc = (raw acc + ups acc + mods acc)%Z
    /\ (0 <= failures acc)%Z ->
    migrated acc' = (raw acc' + ups acc' + mods acc')%Z
    /\ (0 <= failures acc')%Z.
Proof.
  induction documents as [|d documents IH];
    intros batch batch' acc acc' s s' H Hinv.
  - inversion H; subst. exact Hinv.
  - simpl in H.
    destruct (Z.of_nat (List.length (batch ++ [d])) >=? batch_size self)%Z.
    + destruct (flush env drv self database_name collection_name
                  (batch ++ [d]) acc s) as [s1 [acc1|e]] eqn:Hf;
        [|discriminate].
      eapply IH; [exact H|]. eapply flush_counters; eassumption.
    + eapply IH; eassumption.
Qed.

(** X12. In every report of [migrate_collection] that carries the detailed
    counters, [migrated_documents] is the sum of the inserted, upserted
    and modified counters, whatever the driver answered and however many
    batches failed; and [failed_documents] is never negative. *)
Theorem report_counters_add_up (s : State X) :
  let report :=
    snd (migrate_collection env drv self database_name collection_name s) in
  (forall m i u c,
      migrated_documents report = Some m ->
      inserted_documents report = Some i ->
      upserted_documents report = Some u ->
      modified_documents report = Some c ->
      m = (i + u + c)%Z)
  /\ (forall f, failed_documents report = Some f -> (0 <= f)%Z).
Proof.
  cbv zeta. unfold migrate_collection, migrate_collection_trace.
  assert (Hzero :
    forall e,
      (forall m i u c,
          migrated_documents (failure_report e) = Some m ->
          inserted_documents (failure_report e) = Some i ->
          upserted_documents (failure_report e) = Some u ->
          modified_documents (failure_report e) = Some c ->
          m = (i + u + c)%Z)
      /\ (forall f, failed_documents (failure_report e) = Some f ->
                    (0 <= f)%Z)).
  { intros e. split.
    - intros m i u c _ H. discriminate.
    - intros f [= <-]. lia. }
  destruct (ensure_destination drv self database_name collection_name s)
    as [s1 [[|]|e]]; cbn [fst snd]; [| |apply Hzero].
  2:{ split; [intros m i u c H|intros f H]; discriminate. }
  destruct (count_documents env drv self database_name collection_name s1)
    as [s2 [total|e]]; cbn [fst snd]; [|apply Hzero].
  assert (Hstream :
    forall total',
      let r :=
        snd (fst
          match Pymongo.count_documents drv Destination database_name
                  collection_name (ext s2) with
          | (x3, Ok _) =>
            let '(x4, cursor) := find drv database_name collection_name x3 in
            match stream_all env drv self database_name collection_name
                    cursor (set_ext s2 x4) with
            | (s5, Ok acc) =>
              (s5,
               mkReport true total' (Some (migrated acc))
                 (Some (failures acc)) (Some (raw acc)) (Some (ups acc))
                 (Some (mods acc)) None,
               flushed acc)
            | (s5, Raise e) => (s5, failure_report e, [])
            end
          | (x3, Raise e) => (set_ext s2 x3, failure_report e, [])
          end) in
      (forall m i u c,
          migrated_documents r = Some m ->
          inserted_documents r = Some i ->
          upserted_documents r = Some u ->
          modified_documents r = Some c ->
          m = (i + u + c)%Z)
      /\ (forall f, failed_documents r = Some f -> (0 <= f)%Z)).
  { intros total'. cbv zeta.
    destruct (Pymongo.count_documents drv Destination database_name
                collection_name (ext s2)) as [x3 [n|e]];
      [|apply Hzero].
    destruct (find drv database_name collection_name x3) as [x4 cursor].
    destruct (stream_all env drv self database_name collection_name cursor
                (set_ext s2 x4)) as [s5 [acc|e]] eqn:Hs; [|apply Hzero].
    assert (Hacc : migrated acc = (raw acc + ups acc + mods acc)%Z
                   /\ (0 <= failures acc)%Z).
    { unfold stream_all in Hs.
      destruct (stream env drv self database_name collection_name
                  (yielded cursor) [] (mkTotals 0 0 0 0 0 [])
                  (set_ext s2 x4)) as [s3 [[batch acc0]|e]] eqn:Hst;
        [|discriminate].
      apply stream_counters in Hst; [|simpl; lia].
      destruct (fails cursor); [discriminate|].
      destruct batch as [|d batch].
      - inversion Hs; subst. exact Hst.
      - eapply flush_counters; eassumption. }
    cbn [fst snd migrated_documents inserted_documents upserted_documents
         modified_documents failed_documents].
    split.
    - intros m i u c [= <-] [= <-] [= <-] [= <-]. apply Hacc.
    - intros f [= <-]. apply Hacc. }
  destruct total as [total|]; [|apply Hstream].
  destruct (Z.eq_dec total 0) as [->|Hne].
  - cbn [fst snd]. split; [intros m i u c _ H; discriminate|].
    intros f [= <-]. lia.
  - destruct total; try contradiction; apply Hstream.
Qed.

(** X13. [list_collections] returns the names the driver lists for the
    source database, all of them and in the driver's order (no name is
    skipped, unlike the databases), when the first call answers; and
    when every try ends in a driver error it returns the empty list. *)
Theorem list_collections_lists_or_absorbs (s : State X) :
  can_write self s ->
  (forall x' names,
      list_collection_names drv Source database_name (ext s)
      = (x', Ok names) ->
      list_collections env drv self database_name s
      = (set_ext s x', Ok (Some names)))
  /\ ((forall x, exists x' e,
          list_collection_names drv Source database_name x = (x', Raise e)
          /\ is_PyMongoError e = true) ->
      snd (list_collections env drv self database_name s) = Ok (Some [])).
Proof.
  intros Hw. split.
  - intros x' names Hl. unfold list_collections.
    rewrite (run_first_call env self _ "source" s (set_ext s x') (Ok names) Hw).
    + reflexivity.
    + unfold _list_collections_operation. now rewrite Hl.
    + discriminate.
  - intros Hfail. unfold list_collections.
    destruct (MigrationFacts.run_all_fail env self
                (_list_collections_operation drv database_name)
                "source" s) as (e & Hr & Hpm).
    + intros s0. unfold _list_collections_operation.
      destruct (Hfail (ext s0)) as (x' & e & Hc & Hpm). rewrite Hc.
      now exists (set_ext s0 x'), e.
    + exact Hw.
    + destruct (run env self _ "source" s) as [s2 r]. cbn [snd] in Hr.
      subst r. now rewrite Hpm.
Qed.

End Reports.

Lemma failed_source_count_reports_an_empty_success_witness :
  exists s2,
    migrate_collection_trace Examples.always_up
      (Scripted.scripted_driver Examples2.count_times_out)
      Examples.managed_service "shop" "orders"
      (mkState (init Examples.configured) initial_world 0%nat)
    = (s2,
       mkReport true (Some 0%Z) (Some 0%Z) (Some 0%Z) None None None None,
       []).
Proof.
  refine (failed_source_count_reports_an_empty_success Examples.always_up
            (Scripted.scripted_driver Examples2.count_times_out)
            Examples.managed_service "shop" "orders"
            (mkState (init Examples.configured) initial_world 0%nat)
            (mkState (init Examples.configured) initial_world 1%nat)
            _ _ _).
  - right. simpl. lia.
  - reflexivity.
  - intros x. exists (S x), (ServerSelectionTimeoutError "timed out").
    split; reflexivity.
Defined.

Lemma list_collections_lists_or_absorbs_witness :
  list_collections Examples.always_up Memory.memory_driver
    Examples.managed_service "shop"
    (mkState (init Examples.configured) initial_world Examples2.two_collections)
  = (mkState (init Examples.configured) initial_world
             Examples2.two_collections,
     Ok (Some ["system.views"; "orders"])).
Proof.
  refine (proj1 (list_collections_lists_or_absorbs Examples.always_up
                   Memory.memory_driver Examples.managed_service "shop"
                   (mkState (init Examples.configured) initial_world
                            Examples2.two_collections) _) _ _ _).
  - right. simpl. lia.
  - reflexivity.
Defined.

Lemma report_counters_add_up_witness :
  let report :=
    snd (migrate_collection Examples.always_up Memory.memory_driver
           Examples.two_by_two "shop" "orders"
           (mkState (init Examples.configured) initial_world
                    Examples.five_documents)) in
  (migrated_documents report = Some 5%Z
   /\ inserted_documents report = Some 0%Z
   /\ upserted_documents report = Some 5%Z
   /\ modified_documents report = Some 0%Z)
  /\ 5%Z = (0 + 5 + 0)%Z.
Proof.
  cbv zeta. split; [repeat split|].
  apply (proj1 (report_counters_add_up Examples.always_up
                  Memory.memory_driver Examples.two_by_two "shop" "orders"
                  (mkState (init Examples.configured) initial_world
                           Examples.five_documents)));
    reflexivity.
Defined.

(** *** Migrating a whole database *)

Section Database.

Context {X : Type}.
Variable env : Env.
Variable drv : Driver X.
Variable self : MigrationService.service.
Variable database_name : string.

Lemma run_can_write {A : Type} (operation : State X -> State X * result A)
    (client_type : string) (s : State X) :
  (forall s, cm (fst (operation s)) = cm s) ->
  can_write self s ->
  can_write self (fst (run env self operation client_type s))
  /\ snd (run env self operation client_type s) <> Ok None.
Proof.
  intros Hop Hw. unfold run, can_write in *.
  destruct (connection_manager self) eqn:Hcm.
  - destruct Hw as [Hw|Hw]; [discriminate|]. split.
    + right. unfold execute_with_retry.
      now rewrite MigrationFacts.execute_loop_retries.
    + unfold execute_with_retry.
      replace (Z.to_nat (operation_retry_attempts
                           (ConnectionManager.config (cm s))))
        with (S (Z.to_nat (operation_retry_attempts
                             (ConnectionManager.config (cm s))) - 1)) by lia.
      apply MigrationFacts.execute_loop_not_none. lia.
  - split; [now left|].
    destruct (operation s) as [s' [a|e]]; discriminate.
Qed.

Lemma count_documents_can_write (collection_name : string) (s : State X) :
  can_write self s ->
  can_write self
    (fst (count_documents env drv self database_name collection_name s))
  /\ snd (count_documents env drv self database_name collection_name s)
     <> Ok None.
Proof.
  intros Hw. unfold count_documents.
  destruct (run_can_write
              (_count_documents_operation drv database_name collection_name)
              "source" s) as [Hw' Hn]; [|exact Hw|].
  - intros s0. unfold _count_documents_operation.
    now destruct (Pymongo.count_documents drv Source _ _ _) as [x' [n|e]].
  - destruct (run env self _ "source" s) as [s' [n|e]]; cbn [fst snd] in *;
      [now split|].
    destruct (is_PyMongoError e); split; cbn [fst snd];
      try assumption; discriminate.
Qed.

Lemma stream_can_write (collection_name : string) :
  forall (documents batch : list Doc) (acc : Totals) (s : State X),
    can_write self s ->
    can_write self
      (fst (stream env drv self database_name collection_name documents
              batch acc s)).
Proof.
  induction documents as [|d documents IH]; intros batch acc s Hw.
  - exact Hw.
  - simpl.
    destruct (Z.of_nat (List.length (batch ++ [d])) >=? batch_size self)%Z.
    + destruct (MigrationFacts.flush_returns env drv self database_name
                  collection_name (batch ++ [d]) acc s Hw)
        as (s1 & acc1 & Hf & _ & Hw1).
      rewrite Hf. now apply IH.
    + now apply IH.
Qed.

Lemma stream_all_can_write (collection_name : string) (cursor : Cursor)
    (s : State X) :
  can_write self s ->
  can_write self
    (fst (stream_all env drv self database_name collection_name cursor s)).
Proof.
  intros Hw. unfold stream_all.
  pose proof (stream_can_write collection_name (yielded cursor) []
                (mkTotals 0 0 0 0 0 []) s Hw) as Hs.
  destruct (stream env drv self database_name collection_name
              (yielded cursor) [] (mkTotals 0 0 0 0 0 []) s)
    as [s1 [[batch acc]|e]]; cbn [fst] in *; [|exact Hs].
  destruct (fails cursor); [exact Hs|].
  destruct batch as [|d batch]; [exact Hs|].
  destruct (MigrationFacts.flush_returns env drv self database_name
              collection_name (d :: batch) acc s1 Hs)
    as (s2 & acc2 & Hf & _ & Hw2).
  now rewrite Hf.
Qed.

(** On a vCore destination, with a write path that is allowed a try, a
    transfer leaves the write path as it was and its report holds the
    three counters the database loop adds up. *)
Lemma migrate_collection_counts (collection_name : string) (s : State X) :
  target_is_vcore (MigrationService.config self) = true ->
  can_write self s ->
  can_write self
    (fst (migrate_collection env drv self database_name collection_name s))
  /\ exists t m f,
      let report :=
        snd (migrate_collection env drv self database_name collection_name s)
      in
      total_documents report = Some t
      /\ migrated_documents report = Some m
      /\ failed_documents report = Some f.
Proof.
  intros Hv Hw. unfold migrate_collection, migrate_collection_trace.
  pose proof (ensure_destination_cm drv self database_name collection_name s)
    as [Hcm1 _].
  assert (Hnf : snd (ensure_destination drv self database_name
                       collection_name s) <> Ok false).
  { unfold ensure_destination. rewrite Hv. cbn [negb].
    destruct (list_collection_names drv Destination database_name (ext s))
      as [x1 [names|e]]; [|discriminate].
    destruct (str_in collection_name names); [discriminate|].
    destruct (create_collection drv database_name collection_name x1)
      as [x2 [u|e]]; discriminate. }
  destruct (ensure_destination drv self database_name collection_name s)
    as [s1 [[|]|e]]; cbn [fst snd] in *.
  2:{ now contradiction Hnf. }
  2:{ split; [unfold can_write in *; now rewrite Hcm1|].
      exists 0%Z, 0%Z, 0%Z. repeat split. }
  assert (Hw1 : can_write self s1)
    by (unfold can_write in *; now rewrite Hcm1).
  destruct (count_documents_can_write collection_name s1 Hw1) as [Hw2 Hn].
  destruct (count_documents env drv self database_name collection_name s1)
    as [s2 [total|e]]; cbn [fst snd] in *.
  2:{ split; [exact Hw2|]. exists 0%Z, 0%Z, 0%Z. repeat split. }
  destruct total as [total|]; [|now contradiction Hn].
  assert (Hstream :
    let r :=
      fst
        match Pymongo.count_documents drv Destination database_name
                collection_name (ext s2) with
        | (x3, Ok _) =>
          let '(x4, cursor) := find drv database_name collection_name x3 in
          match stream_all env drv self database_name collection_name
                  cursor (set_ext s2 x4) with
          | (s5, Ok acc) =>
            (s5,
             mkReport true (Some total) (Some (migrated acc))
               (Some (failures acc)) (Some (raw acc)) (Some (ups acc))
               (Some (mods acc)) None,
             flushed acc)
          | (s5, Raise e) => (s5, failure_report e, [])
          end
        | (x3, Raise e) => (set_ext s2 x3, failure_report e, [])
        end in
    can_write self (fst r)
    /\ exists t m f,
        total_documents (snd r) = Some t
        /\ migrated_documents (snd r) = Some m
        /\ failed_documents (snd r) = Some f).
  { cbv zeta.
    destruct (Pymongo.count_documents drv Destination database_name
                collection_name (ext s2)) as [x3 [n|e]].
    - destruct (find drv database_name collection_name x3) as [x4 cursor].
      pose proof (stream_all_can_write collection_name cursor
                    (set_ext s2 x4) Hw2) as Hw5.
      destruct (stream_all env drv self database_name collection_name cursor
                  (set_ext s2 x4)) as [s5 [acc|e]]; cbn [fst snd] in *.
      + split; [exact Hw5|]. eexists _, _, _. repeat split.
      + split; [exact Hw5|]. exists 0%Z, 0%Z, 0%Z. repeat split.
    - cbn [fst snd]. split; [exact Hw2|].
      exists 0%Z, 0%Z, 0%Z. repeat split. }
  cbv zeta in Hstream.
  destruct (Z.eq_dec total 0) as [->|Hne].
  - cbn [fst snd]. split; [exact Hw2|]. exists 0%Z, 0%Z, 0%Z. repeat split.
  - destruct total; try contradiction; exact Hstream.
Qed.

(** What the loop over the collections adds to the statistics when it
    runs to its end. *)
Lemma migrate_collections_sums :
  forall (collections : list string) (stats stats' : Stats.t)
         (s s' : State X) (reports : list Report),
    migrate_collections env drv self database_name collections stats s
    = (s', Ok stats', reports) ->
    List.length reports = List.length collections
    /\ Stats.total_collections stats' = Stats.total_collections stats
    /\ Stats.successful_collections stats'
       = (Stats.successful_collections stats + count_success true reports)%Z
    /\ Stats.failed_collections stats'
       = (Stats.failed_collections stats + count_success false reports)%Z
    /\ Stats.total_documents stats'
       = (Stats.total_documents stats
          + counter_sum total_documents reports)%Z
    /\ Stats.migrated_documents stats'
       = (Stats.migrated_documents stats
          + counter_sum migrated_documents reports)%Z
    /\ Stats.failed_documents stats'
       = (Stats.failed_documents stats
          + counter_sum failed_documents reports)%Z.
Proof.
  induction collections as [|c collections IH];
    intros stats stats' s s' reports H.
  - inversion H; subst. unfold count_success. simpl. repeat split; lia.
  - simpl in H.
    destruct (migrate_collection env drv self database_name c s)
      as [s1 report].
    destruct (update_statistics stats report) as [stats1|e] eqn:Hu;
      [|discriminate].
    destruct (migrate_collections env drv self database_name collections
                stats1 s1) as [[s2 r] reports2] eqn:Hrest.
    inversion H; subst. apply IH in Hrest.
    destruct Hrest as (Hl & Htc & Hsc & Hfc & Htd & Hmd & Hfd).
    unfold update_statistics, add_counter in Hu.
    destruct (total_documents report) as [t|] eqn:Ht;
      [|now destruct (migrated_documents report)].
    destruct (migrated_documents report) as [m|] eqn:Hm; [|discriminate].
    destruct (failed_documents report) as [f|] eqn:Hf; [|discriminate].
    inversion Hu; subst; clear Hu. cbn [Stats.total_collections
      Stats.successful_collections Stats.failed_collections
      Stats.total_documents Stats.migrated_documents Stats.failed_documents]
      in *.
    unfold count_success in *. cbn [filter counter_sum fold_right List.length].
    fold (counter_sum total_documents reports2).
    fold (counter_sum migrated_documents reports2).
    fold (counter_sum failed_documents reports2).
    rewrite Ht, Hm, Hf.
    destruct (success report); cbn [Bool.eqb List.length];
      repeat split; try lia; try (simpl; lia).
Qed.

(** X14. The statistics of a database migration that ran to its end: every
    listed collection was attempted once, each is counted as successful
    or as failed by the [success] flag of its report, and the three
    document counters are the sums of the counters of the reports. *)
Theorem database_statistics_are_sums (s s' : State X) (stats : Stats.t)
    (reports : list Report) :
  migrate_database_trace env drv self database_name s
  = (s', Completed stats, reports) ->
  Stats.total_collections stats = Z.of_nat (List.length reports)
  /\ Stats.successful_collections stats = count_success true reports
  /\ Stats.failed_collections stats = count_success false reports
  /\ (Stats.successful_collections stats + Stats.failed_collections stats
      = Stats.total_collections stats)%Z
  /\ Stats.total_documents stats = counter_sum total_documents reports
  /\ Stats.migrated_documents stats = counter_sum migrated_documents reports
  /\ Stats.failed_documents stats = counter_sum failed_documents reports.
Proof.
  unfold migrate_database_trace.
  destruct (list_collections env drv self database_name s)
    as [s1 [[collections|]|e]]; try discriminate.
  destruct (migrate_collections env drv self database_name collections _ s1)
    as [[s2 [stats2|e]] reports2] eqn:Hloop; [|discriminate].
  intros H. inversion H; subst; clear H.
  apply migrate_collections_sums in Hloop.
  destruct Hloop as (Hl & Htc & Hsc & Hfc & Htd & Hmd & Hfd).
  cbn [Stats.total_collections Stats.successful_collections
       Stats.failed_collections Stats.total_documents
       Stats.migrated_documents Stats.failed_documents] in *.
  assert (Hsplit : (count_success true reports + count_success false reports
                    = Z.of_nat (List.length reports))%Z).
  { unfold count_success. clear. induction reports as [|r reports IH];
      [reflexivity|].
    cbn [filter]. destruct (success r); cbn [Bool.eqb List.length]; lia. }
  repeat split; try lia.
Qed.

Lemma migrate_collections_complete :
  target_is_vcore (MigrationService.config self) = true ->
  forall (collections : list string) (stats : Stats.t) (s : State X),
    can_write self s ->
    exists s' stats' reports,
      migrate_collections env drv self database_name collections stats s
      = (s', Ok stats', reports).
Proof.
  intros Hv. induction collections as [|c collections IH];
    intros stats s Hw.
  - now exists s, stats, [].
  - simpl.
    destruct (migrate_collection_counts c s Hv Hw)
      as (Hw1 & t & m & f & Ht & Hm & Hf).
    destruct (migrate_collection env drv self database_name c s)
      as [s1 report]. cbn [fst snd] in *.
    unfold update_statistics, add_counter. rewrite Ht, Hm, Hf.
    destruct (IH (Stats.mk (Stats.total_collections stats)
                    (if success report
                     then (Stats.successful_collections stats + 1)%Z
                     else Stats.successful_collections stats)
                    (if success report
                     then Stats.failed_collections stats
                     else (Stats.failed_collections stats + 1)%Z)
                    (Stats.total_documents stats + t)
                    (Stats.migrated_documents stats + m)
                    (Stats.failed_documents stats + f)) s1 Hw1)
      as (s' & stats' & reports & Hrest).
    rewrite Hrest. now exists s', stats', (report :: reports).
Qed.

(** X15. On a vCore destination, with a write path that is allowed a try,
    the loop over the collections never stops early: whatever the driver
    does in any collection (a refused creation, a broken cursor, failed
    writes), every listed collection is attempted and the database
    migration returns its statistics. *)
Theorem vcore_database_migration_attempts_every_collection
    (s s1 : State X) (collections : list string) :
  target_is_vcore (MigrationService.config self) = true ->
  can_write self s ->
  list_collections env drv self database_name s
  = (s1, Ok (Some collections)) ->
  exists s' stats reports,
    migrate_database_trace env drv self database_name s
    = (s', Completed stats, reports)
    /\ List.length reports = List.length collections
    /\ Stats.total_collections stats = Z.of_nat (List.length collections).
Proof.
  intros Hv Hw Hl. unfold migrate_database_trace. rewrite Hl.
  assert (Hw1 : can_write self s1).
  { pose proof (run_can_write (_list_collections_operation drv database_name)
                  "source" s) as Hr.
    unfold list_collections in Hl.
    destruct Hr as [Hr _]; [|exact Hw|].
    - intros s0. unfold _list_collections_operation.
      now destruct (list_collection_names drv Source database_name (ext s0))
        as [x' [n|e]].
    - destruct (run env self _ "source" s) as [s2 [n|e]]; cbn [fst] in Hr.
      + now inversion Hl; subst.
      + destruct (is_PyMongoError e); now inversion Hl; subst. }
  destruct (migrate_collections_complete Hv collections
              (Stats.mk (Z.of_nat (List.length collections)) 0 0 0 0 0)
              s1 Hw1) as (s' & stats & reports & Hloop).
  rewrite Hloop. exists s', stats, reports. split; [reflexivity|].
  apply migrate_collections_sums in Hloop.
  destruct Hloop as (Hlen & Htc & _). split; [exact Hlen|exact Htc].
Qed.

Lemma migrate_collections_app :
  forall (before after : list string) (stats : Stats.t) (s : State X),
    migrate_collections env drv self database_name (before ++ after) stats s
    = match migrate_collections env drv self database_name before stats s
      with
      | (s1, Ok stats1, reports) =>
        let '(s2, r, reports2) :=
          migrate_collections env drv self database_name after stats1 s1 in
        (s2, r, reports ++ reports2)
      | (s1, Raise e, reports) => (s1, Raise e, reports)
      end.
Proof.
  induction before as [|c before IH]; intros after stats s.
  - simpl.
    now destruct (migrate_collections env drv self database_name after
                    stats s) as [[s2 r] reports2].
  - simpl.
    destruct (migrate_collection env drv self database_name c s)
      as [s1 report].
    destruct (update_statistics stats report) as [stats1|e]; [|reflexivity].
    rewrite IH.
    destruct (migrate_collections env drv self database_name before
                stats1 s1) as [[s2 [stats2|e]] reports]; [|reflexivity].
    now destruct (migrate_collections env drv self database_name after
                    stats2 s2) as [[s3 r] reports3].
Qed.

(** X16. On an RU destination, a collection whose creation with throughput
    settings fails stops the whole database migration: its report holds
    no counters, adding it up raises [KeyError], and [migrate_database]
    returns the error dictionary with the text ['total_documents'].  The
    statistics of the collections migrated before it are dropped, and the
    collections after it are not attempted. *)
Theorem failed_ru_creation_aborts_the_database
    (s s1 s2 s3 : State X) (before after : list string)
    (collection_name : string) (stats : Stats.t) (reports : list Report) :
  list_collections env drv self database_name s
  = (s1, Ok (Some (before ++ collection_name :: after))) ->
  migrate_collections env drv self database_name before
    (Stats.mk (Z.of_nat (List.length (before ++ collection_name :: after)))
              0 0 0 0 0) s1
  = (s2, Ok stats, reports) ->
  ensure_destination drv self database_name collection_name s2
  = (s3, Ok false) ->
  migrate_database_trace env drv self database_name s
  = (s3, Aborted "'total_documents'",
     reports
     ++ [mkReport false None None None None None None
           (Some "Failed to create destination collection with RU settings")]).
Proof.
  intros Hl Hbefore He. unfold migrate_database_trace. rewrite Hl.
  rewrite migrate_collections_app, Hbefore.
  cbn [migrate_collections]. unfold migrate_collection,
    migrate_collection_trace. rewrite He. reflexivity.
Qed.

End Database.

Lemma database_statistics_are_sums_witness :
  exists s' stats,
    migrate_database_trace Examples.always_up Memory.memory_driver
      Examples.two_by_two "shop"
      (mkState (init Examples.configured) initial_world
               Examples2.two_collections)
    = (s', Completed stats,
       [mkReport true (Some 0%Z) (Some 0%Z) (Some 0%Z) None None None None;
        mkReport true (Some 3%Z) (Some 3%Z) (Some 0%Z) (Some 0%Z) (Some 3%Z)
                 (Some 0%Z) None])
    /\ Stats.total_collections stats = 2%Z
    /\ Stats.successful_collections stats = 2%Z
    /\ Stats.total_documents stats = 3%Z
    /\ Stats.migrated_documents stats = 3%Z.
Proof.
  eexists _, _. split; [reflexivity|].
  pose proof (database_statistics_are_sums Examples.always_up
                Memory.memory_driver Examples.two_by_two "shop"
                (mkState (init Examples.configured) initial_world
                         Examples2.two_collections) _ _ _ eq_refl)
    as (Htc & Hsc & _ & _ & Htd & Hmd & _).
  repeat split; assumption.
Defined.

Lemma vcore_database_migration_attempts_every_collection_witness :
  exists s' stats reports,
    migrate_database_trace Examples.always_up
      (Scripted.scripted_driver Examples.cursor_breaks)
      Examples.managed_service "shop"
      (mkState (init Examples.configured) initial_world 0%nat)
    = (s', Completed stats, reports)
    /\ List.length reports = 1%nat
    /\ Stats.total_collections stats = 1%Z.
Proof.
  refine (vcore_database_migration_attempts_every_collection
            Examples.always_up
            (Scripted.scripted_driver Examples.cursor_breaks)
            Examples.managed_service "shop"
            (mkState (init Examples.configured) initial_world 0%nat)
            (mkState (init Examples.configured) initial_world 1%nat)
            ["orders"] _ _ _).
  - reflexivity.
  - right. simpl. lia.
  - reflexivity.
Defined.

Lemma failed_ru_creation_aborts_the_database_witness :
  migrate_database_trace Examples.always_up
    (Scripted.scripted_driver Examples2.creation_throttled)
    Examples2.ru_service "shop"
    (mkState (init Examples.ru_config) initial_world 0%nat)
  = (mkState (init Examples.ru_config) initial_world 4%nat,
     Aborted "'total_documents'",
     [mkReport false None None None None None None
        (Some "Failed to create destination collection with RU settings")]).
Proof.
  refine (failed_ru_creation_aborts_the_database Examples.always_up
            (Scripted.scripted_driver Examples2.creation_throttled)
            Examples2.ru_service "shop"
            (mkState (init Examples.ru_config) initial_world 0%nat)
            (mkState (init Examples.ru_config) initial_world 1%nat)
            (mkState (init Examples.ru_config) initial_world 1%nat)
            (mkState (init Examples.ru_config) initial_world 4%nat)
            [] ["users"] "orders" _ [] _ _ _).
  - reflexivity.
  - reflexivity.
  - reflexivity.
Defined.

(** *** Transfers between two in-memory stores *)

Module MemoryFacts.

Import Memory.

Lemma Value_eqb_eq (a b : Value) : Value_eqb a b = true <-> a = b.
Proof.
  destruct a, b; simpl; split; intros H; try discriminate;
    try reflexivity.
  - apply Z.eqb_eq in H. now subst.
  - inversion H. apply Z.eqb_refl.
  - apply String.eqb_eq in H. now subst.
  - inversion H. apply String.eqb_refl.
  - apply Bool.eqb_prop in H. now subst.
  - inversion H. apply Bool.eqb_reflx.
Qed.

Lemma same_name_refl (database_name collection_name : string)
    (docs : list Doc) :
  same_name database_name collection_name
    (database_name, collection_name, docs) = true.
Proof. unfold same_name. simpl. now rewrite !String.eqb_refl. Qed.

Lemma docs_of_set_docs (database_name collection_name : string)
    (docs : list Doc) (c : Collections) :
  docs_of database_name collection_name
    (set_docs database_name collection_name docs c) = Some docs.
Proof.
  induction c as [|entry c IH]; simpl.
  - now rewrite same_name_refl.
  - destruct (same_name database_name collection_name entry) eqn:Hs; simpl.
    + now rewrite same_name_refl.
    + now rewrite Hs.
Qed.

Lemma listed_iff_held (database_name collection_name : string)
    (c : Collections) :
  str_in collection_name (names_in database_name c)
  = match docs_of database_name collection_name c with
    | Some _ => true
    | None => false
    end.
Proof.
  unfold names_in, str_in. induction c as [|[[d n] docs] c IH]; simpl;
    [reflexivity|].
  unfold same_name. simpl.
  destruct (String.eqb d database_name); simpl; [|exact IH].
  rewrite (String.eqb_sym collection_name n).
  destruct (String.eqb n collection_name); simpl; [reflexivity|exact IH].
Qed.

Lemma matches_identity (id : Value) (doc : Doc) :
  matches [("_id", id)] doc = true <-> identity doc = Some id.
Proof.
  unfold matches, identity. simpl.
  destruct (lookup "_id" doc) as [v|]; rewrite andb_true_r.
  - rewrite Value_eqb_eq. split; congruence.
  - split; discriminate.
Qed.

Lemma replace_first_fresh (id : Value) (replacement : Doc)
    (docs : list Doc) :
  ~ In (Some id) (map identity docs) ->
  replace_first [("_id", id)] replacement docs = None.
Proof.
  induction docs as [|d docs IH]; intros Hnew; [reflexivity|].
  cbn [replace_first].
  destruct (matches [("_id", id)] d) eqn:Hm.
  - apply matches_identity in Hm. contradiction Hnew. left. exact Hm.
  - rewrite IH; [reflexivity|]. intros H. apply Hnew. now right.
Qed.

(** A batch of documents with identities of their own, none of them
    held yet, is appended in order; each counts as upserted. *)
Lemma bulk_upserts :
  forall (batch existing : list Doc) (oid n_upserted n_modified : Z),
    Forall (fun doc => identity doc <> None) batch ->
    NoDup (map identity (existing ++ batch)) ->
    fold_left (fun st op => apply_op op st)
      (MigrationService.operations batch)
      (existing, oid, (n_upserted, n_modified))
    = (existing ++ batch, oid,
       (n_upserted + Z.of_nat (List.length batch), n_modified)%Z).
Proof.
  induction batch as [|d batch IH];
    intros existing oid n_upserted n_modified Hid Hnd.
  - simpl. rewrite app_nil_r. do 3 f_equal. lia.
  - inversion Hid as [|? ? Hd Hrest]; subst.
    cbn [MigrationService.operations map fold_left].
    unfold identity in Hd.
    destruct (lookup "_id" d) as [id|] eqn:Hl; [|congruence].
    unfold apply_op at 2. cbn [op_filter op_replacement op_upsert].
    rewrite replace_first_fresh.
    + rewrite Hl.
      change (map (fun document : Doc =>
                     match lookup "_id" document with
                     | Some id0 => ReplaceOne [("_id", id0)] document true
                     | None => ReplaceOne [] document true
                     end) batch)
        with (MigrationService.operations batch).
      rewrite IH.
      * rewrite <- app_assoc. cbn [app List.length].
        replace (n_upserted + 1 + Z.of_nat (List.length batch))%Z
          with (n_upserted + Z.of_nat (S (List.length batch)))%Z by lia.
        reflexivity.
      * exact Hrest.
      * rewrite <- app_assoc. exact Hnd.
    + rewrite map_app in Hnd. cbn [map] in Hnd.
      apply NoDup_remove_2 in Hnd.
      change (identity d) with (lookup "_id" d) in Hnd. rewrite Hl in Hnd.
      intros H. apply Hnd. apply in_or_app. now left.
Qed.

Lemma Doc_eqb_refl (doc : Doc) : Doc_eqb doc doc = true.
Proof.
  unfold Doc_eqb. rewrite Nat.eqb_refl. cbn [andb].
  induction doc as [|[k v] doc IH]; [reflexivity|].
  cbn [combine forallb fst snd]. rewrite String.eqb_refl, IH.
  now rewrite (proj2 (Value_eqb_eq v v) eq_refl).
Qed.

Lemma without_id_as_stored (id : Value) (rest : Doc) :
  has_key "_id" rest = false ->
  without_id (("_id", id) :: rest) = rest.
Proof.
  unfold without_id, has_key, str_in, keys. cbn [filter fst].
  rewrite String.eqb_refl. cbn [negb].
  induction rest as [|[k v] rest IH]; [reflexivity|].
  cbn [map existsb filter fst]. intros H. apply orb_false_iff in H.
  destruct H as [Hk Hrest]. rewrite String.eqb_sym, Hk. cbn [negb].
  now rewrite IH.
Qed.

Lemma identity_as_stored (doc : Doc) :
  as_stored doc ->
  exists id rest,
    doc = ("_id", id) :: rest /\ identity doc = Some id
    /\ without_id doc = rest.
Proof.
  intros (id & rest & -> & Hrest). exists id, rest.
  split; [reflexivity|]. split; [reflexivity|].
  now apply without_id_as_stored.
Qed.

(** Replacing a stored document by itself changes nothing. *)
Lemma replace_first_same (doc : Doc) (before after : list Doc) (id : Value) :
  as_stored doc ->
  identity doc = Some id ->
  ~ In (Some id) (map identity before) ->
  replace_first [("_id", id)] doc (before ++ doc :: after)
  = Some (before ++ doc :: after, false).
Proof.
  intros Hst Hid. induction before as [|b before IH]; intros Hnew.
  - cbn [app replace_first].
    rewrite (proj2 (matches_identity id doc) Hid).
    unfold identity in Hid. rewrite Hid.
    destruct (identity_as_stored doc Hst) as (id' & rest & Hd & Hid' & Hw).
    rewrite Hw. unfold identity in Hid'.
    assert (id' = id) by congruence. subst id'. rewrite <- Hd.
    now rewrite Doc_eqb_refl.
  - cbn [app replace_first].
    destruct (matches [("_id", id)] b) eqn:Hm.
    + apply matches_identity in Hm. contradiction Hnew. now left.
    + rewrite IH; [reflexivity|]. intros H. apply Hnew. now right.
Qed.

(** A batch of documents the collection holds already, each under an
    identity of its own, leaves the collection and the counters as they
    are. *)
Lemma bulk_replaces_nothing (held_docs : list Doc) :
  NoDup (map identity held_docs) ->
  forall (batch : list Doc) (oid n_upserted n_modified : Z),
    Forall as_stored batch ->
    incl batch held_docs ->
    fold_left (fun st op => apply_op op st)
      (MigrationService.operations batch)
      (held_docs, oid, (n_upserted, n_modified))
    = (held_docs, oid, (n_upserted, n_modified)).
Proof.
  intros Hnd. induction batch as [|d batch IH];
    intros oid n_upserted n_modified Hst Hin; [reflexivity|].
  inversion Hst as [|? ? Hd Hrest]; subst.
  cbn [MigrationService.operations map fold_left].
  destruct (identity_as_stored d Hd) as (id & rest & Heq & Hid & _).
  unfold identity in Hid. rewrite Hid.
  unfold apply_op at 2. cbn [op_filter op_replacement op_upsert].
  destruct (in_split d held_docs (Hin d (or_introl eq_refl)))
    as (before & after & Hsplit).
  rewrite Hsplit at 1. rewrite replace_first_same; try assumption.
  - rewrite <- Hsplit.
    change (map (fun document : Doc =>
                   match lookup "_id" document with
                   | Some id0 => ReplaceOne [("_id", id0)] document true
                   | None => ReplaceOne [] document true
                   end) batch)
      with (MigrationService.operations batch).
    apply IH; [exact Hrest|]. intros x Hx. apply Hin. now right.
  - rewrite Hsplit, map_app in Hnd. cbn [map] in Hnd.
    apply NoDup_remove_2 in Hnd.
    change (identity d) with (lookup "_id" d) in Hnd. rewrite Hid in Hnd.
    intros H. apply Hnd. apply in_or_app. now left.
Qed.

Lemma set_docs_same (database_name collection_name : string)
    (docs : list Doc) (c : Collections) :
  docs_of database_name collection_name c = Some docs ->
  set_docs database_name collection_name docs c = c.
Proof.
  induction c as [|[[d n] ds] c IH]; intros H; [discriminate|].
  cbn [docs_of set_docs] in *.
  destruct (same_name database_name collection_name (d, n, ds)) eqn:Hs.
  - inversion H; subst. unfold same_name in Hs. cbn [fst snd] in Hs.
    apply andb_true_iff in Hs. destruct Hs as [Hd Hn].
    apply String.eqb_eq in Hd. apply String.eqb_eq in Hn. now subst.
  - now rewrite IH.
Qed.

End MemoryFacts.

Section Copy.

Import Memory.

Variable env : Env.
Variable self : MigrationService.service.
Variable database_name collection_name : string.

Lemma flush_copies (batch existing : list Doc) (acc : Totals)
    (s : State Store) :
  can_write self s ->
  batch <> [] ->
  docs_of database_name collection_name (dest (ext s)) = Some existing ->
  Forall (fun doc => identity doc <> None) batch ->
  NoDup (map identity (existing ++ batch)) ->
  exists acc',
    flush env memory_driver self database_name collection_name batch acc s
    = (set_ext s
         (with_dest (ext s)
            (set_docs database_name collection_name (existing ++ batch)
               (dest (ext s)))
            (next_oid (ext s))),
       Ok acc')
    /\ migrated acc' = (migrated acc + Z.of_nat (List.length batch))%Z
    /\ failures acc' = failures acc
    /\ raw acc' = raw acc
    /\ ups acc' = (ups acc + Z.of_nat (List.length batch))%Z
    /\ mods acc' = mods acc.
Proof.
  intros Hw Hne Hdest Hid Hnd.
  destruct batch as [|d batch]; [congruence|].
  destruct (process_batch_single_call env memory_driver self database_name
              collection_name d batch s Hw) as (stats & Hp & Hout).
  assert (Hbw :
    bulk_write memory_driver database_name collection_name
      (operations (d :: batch)) (ext s)
    = (with_dest (ext s)
         (set_docs database_name collection_name (existing ++ d :: batch)
            (dest (ext s)))
         (next_oid (ext s)),
       Ok (mkBulkWriteResult 0
             (0 + Z.of_nat (List.length (d :: batch))) 0))).
  { unfold memory_driver, bulk_write. rewrite Hdest.
    now rewrite MemoryFacts.bulk_upserts. }
  rewrite Hbw in Hp, Hout. cbn [fst snd batch_outcome] in Hp, Hout.
  unfold flush. rewrite Hp. eexists. split; [reflexivity|].
  subst stats.
  cbn [migrated failures raw ups mods inserted failed upserted modified
       raw_inserted inserted_count upserted_count modified_count].
  repeat split; lia.
Qed.

Lemma stream_copies (s0 : State Store) (existing : list Doc) :
  can_write self s0 ->
  forall (documents batch : list Doc) (acc : Totals) (s : State Store)
         (copied : list Doc),
    cm s = cm s0 -> io s = io s0 ->
    source (ext s) = source (ext s0) ->
    docs_of database_name collection_name (dest (ext s))
    = Some (existing ++ copied) ->
    Forall (fun doc => identity doc <> None) (batch ++ documents) ->
    NoDup (map identity (existing ++ copied ++ batch ++ documents)) ->
    exists s' batch' acc' copied',
      stream env memory_driver self database_name collection_name
        documents batch acc s = (s', Ok (batch', acc'))
      /\ cm s' = cm s0 /\ io s' = io s0
      /\ source (ext s') = source (ext s0)
      /\ docs_of database_name collection_name (dest (ext s'))
         = Some (existing ++ copied')
      /\ copied' ++ batch' = copied ++ batch ++ documents
      /\ (migrated acc' - Z.of_nat (List.length copied')
          = migrated acc - Z.of_nat (List.length copied))%Z
      /\ failures acc' = failures acc
      /\ raw acc' = raw acc
      /\ (ups acc' - Z.of_nat (List.length copied')
          = ups acc - Z.of_nat (List.length copied))%Z
      /\ mods acc' = mods acc.
Proof.
  intros Hw0.
  induction documents as [|d documents IH];
    intros batch acc s copied Hcm Hio Hsrc Hdest Hid Hnd.
  - exists s, batch, acc, copied. simpl. rewrite app_nil_r.
    repeat split; auto.
  - cbn [stream].
    destruct (Z.of_nat (List.length (batch ++ [d])) >=? batch_size self)%Z.
    + assert (Hw : can_write self s)
        by (unfold can_write in *; now rewrite Hcm).
      destruct (flush_copies (batch ++ [d]) (existing ++ copied) acc s Hw)
        as (acc1 & Hf & Hm1 & Hf1 & Hr1 & Hu1 & Hmo1).
      * now destruct batch.
      * exact Hdest.
      * apply Forall_app in Hid. destruct Hid as [Hb Hd].
        apply Forall_app. split; [exact Hb|].
        inversion Hd; subst. now constructor.
      * replace (existing ++ copied ++ batch ++ d :: documents)
          with (((existing ++ copied) ++ batch ++ [d]) ++ documents) in Hnd
          by (rewrite <- !app_assoc; reflexivity).
        rewrite map_app in Hnd. now apply NoDup_app_remove_r in Hnd.
      * rewrite Hf.
        destruct (IH [] acc1
                    (set_ext s
                       (with_dest (ext s)
                          (set_docs database_name collection_name
                             ((existing ++ copied) ++ batch ++ [d])
                             (dest (ext s)))
                          (next_oid (ext s))))
                    (copied ++ batch ++ [d]))
          as (s' & batch' & acc' & copied' & Hs & Hcm' & Hio' & Hsrc'
              & Hdest' & Hcat & Hm' & Hf' & Hr' & Hu' & Hmo').
        -- exact Hcm.
        -- exact Hio.
        -- exact Hsrc.
        -- cbn [ext set_ext with_dest dest].
           rewrite MemoryFacts.docs_of_set_docs, <- app_assoc. reflexivity.
        -- apply Forall_app in Hid. destruct Hid as [_ Hd].
           now inversion Hd.
        -- cbn [app]. rewrite <- !app_assoc. exact Hnd.
        -- exists s', batch', acc', copied'. rewrite Hs.
           rewrite !length_app in *. cbn [List.length] in *.
           repeat split; auto; try lia; try congruence.
           rewrite Hcat. cbn [app]. rewrite <- !app_assoc. reflexivity.
    + destruct (IH (batch ++ [d]) acc s copied Hcm Hio Hsrc Hdest)
        as (s' & batch' & acc' & copied' & Hs & Hrest).
      * rewrite <- app_assoc. exact Hid.
      * rewrite <- app_assoc. exact Hnd.
      * exists s', batch', acc', copied'. rewrite Hs.
        rewrite <- app_assoc in Hrest. exact (conj eq_refl Hrest).
Qed.

Lemma ensure_destination_in_memory (s : State Store) :
  exists s1,
    ensure_destination memory_driver self database_name collection_name s
    = (s1, Ok true)
    /\ cm s1 = cm s /\ io s1 = io s
    /\ source (ext s1) = source (ext s)
    /\ docs_of database_name collection_name (dest (ext s1))
       = Some (held database_name collection_name (dest (ext s)))
    /\ (docs_of database_name collection_name (dest (ext s)) <> None ->
        s1 = s).
Proof.
  unfold ensure_destination.
  destruct (target_is_vcore (MigrationService.config self)); cbn [negb].
  - unfold memory_driver at 1. cbn [list_collection_names side].
    rewrite MemoryFacts.listed_iff_held. unfold held.
    destruct (docs_of database_name collection_name (dest (ext s)))
      as [existing|] eqn:Hd.
    + eexists. split; [reflexivity|]. now destruct s.
    + unfold memory_driver, create_collection. rewrite Hd.
      eexists. split; [reflexivity|].
      cbn [cm io ext set_ext with_dest dest source].
      rewrite MemoryFacts.docs_of_set_docs. repeat split. congruence.
  - unfold CosmosDBRUManager.get_recommended_partition_key.
    unfold memory_driver at 1. cbn [find].
    destruct (list_limit 100 _) as [sample|e];
      unfold CosmosDBRUManager.ensure_collection_exists;
      (unfold memory_driver at 1; cbn [list_collection_names side];
       rewrite MemoryFacts.listed_iff_held; unfold held;
       destruct (docs_of database_name collection_name (dest (ext s)))
         as [existing|] eqn:Hd;
       [ unfold CosmosDBRUManager.get_collection_throughput;
         unfold memory_driver at 1; cbn [command]; rewrite Hd;
         eexists; split; [reflexivity|]; now destruct s
       | destruct (target_is_vcore (MigrationService.config self));
         [ unfold memory_driver at 1; cbn [create_collection]; rewrite Hd;
           unfold CosmosDBRUManager.get_collection_throughput;
           unfold memory_driver at 1; cbn [command with_dest dest];
           rewrite MemoryFacts.docs_of_set_docs;
           eexists; split; [reflexivity|];
           cbn [cm io ext set_ext with_dest dest source];
           rewrite MemoryFacts.docs_of_set_docs; repeat split; congruence
         | unfold CosmosDBRUManager.create_collection_with_throughput;
           unfold memory_driver at 1; cbn [command]; rewrite Hd;
           cbn [reply_ok];
           unfold CosmosDBRUManager.get_collection_throughput;
           unfold memory_driver at 1; cbn [command with_dest dest];
           rewrite MemoryFacts.docs_of_set_docs;
           eexists; split; [reflexivity|];
           cbn [cm io ext set_ext with_dest dest source];
           rewrite MemoryFacts.docs_of_set_docs; repeat split; congruence ] ]).
Qed.

Lemma count_documents_in_memory (s : State Store) :
  can_write self s ->
  count_documents env memory_driver self database_name collection_name s
  = (s, Ok (Some (Z.of_nat (List.length
                              (held database_name collection_name
                                 (source (ext s))))))).
Proof.
  intros Hw. unfold count_documents.
  rewrite (run_first_call env self _ "source" s s
             (Ok (Z.of_nat (List.length
                              (held database_name collection_name
                                 (source (ext s)))))) Hw).
  - reflexivity.
  - unfold _count_documents_operation, memory_driver, held.
    cbn [Pymongo.count_documents side]. destruct s as [c w x]. simpl.
    now destruct (docs_of database_name collection_name (source x)).
  - discriminate.
Qed.

(** X17. Between two in-memory stores, on the vCore branch as on the RU
    branch, with a write path that is allowed a try: when the documents
    of the source collection and those the destination collection
    already holds all carry an identity and no two share one, a transfer
    appends the source documents, unchanged and in order, to what the
    destination held, leaves the source as it was, reconnects and sleeps
    never, and reports success with every document migrated and none
    failed; and this for any batch size, also one that is zero or
    negative. *)
Theorem transfer_copies_every_document (s : State Store) :
  can_write self s ->
  identified (held database_name collection_name (dest (ext s))
              ++ held database_name collection_name (source (ext s))) ->
  let r := migrate_collection env memory_driver self database_name
             collection_name s in
  docs_of database_name collection_name (dest (ext (fst r)))
  = Some (held database_name collection_name (dest (ext s))
          ++ held database_name collection_name (source (ext s)))
  /\ source (ext (fst r)) = source (ext s)
  /\ cm (fst r) = cm s /\ io (fst r) = io s
  /\ success (snd r) = true
  /\ total_documents (snd r)
     = Some (Z.of_nat (List.length (held database_name collection_name
                                      (source (ext s)))))
  /\ migrated_documents (snd r) = total_documents (snd r)
  /\ failed_documents (snd r) = Some 0%Z.
Proof.
  intros Hw [Hid Hnd].
  remember (migrate_collection env memory_driver self database_name
              collection_name s) as r eqn:Hr.
  cbv zeta. unfold migrate_collection, migrate_collection_trace in Hr.
  destruct (ensure_destination_in_memory s)
    as (s1 & He & Hcm1 & Hio1 & Hsrc1 & Hdest1 & _).
  rewrite He in Hr.
  assert (Hw1 : can_write self s1)
    by (unfold can_write in *; now rewrite Hcm1).
  rewrite (count_documents_in_memory s1 Hw1), Hsrc1 in Hr.
  set (existing := held database_name collection_name (dest (ext s))) in *.
  remember (held database_name collection_name (source (ext s))) as docs
    eqn:Hdocs.
  destruct docs as [|d docs].
  - cbn [List.length Z.of_nat fst] in Hr. subst r.
    cbn [fst snd success total_documents migrated_documents
         failed_documents List.length Z.of_nat].
    rewrite app_nil_r, Hdest1, Hsrc1, Hcm1, Hio1. repeat split.
  - cbn [List.length] in Hr. rewrite Nat2Z.inj_succ in Hr.
    cbn [List.length]. rewrite Nat2Z.inj_succ.
    destruct (Z.succ (Z.of_nat (List.length docs))) as [|p|p] eqn:Hn;
      [lia| |lia].
    unfold memory_driver at 1 in Hr. cbn [Pymongo.count_documents] in Hr.
    unfold memory_driver at 1 in Hr. cbn [find] in Hr.
    fold (held database_name collection_name (source (ext s1))) in Hr.
    rewrite Hsrc1, <- Hdocs in Hr.
    unfold stream_all in Hr. cbn [yielded fails] in Hr.
    destruct (stream_copies s1 existing Hw1 (d :: docs) []
                (mkTotals 0 0 0 0 0 []) (set_ext s1 (ext s1)) [])
      as (s4 & batch' & acc' & copied' & Hs & Hcm4 & Hio4 & Hsrc4 & Hdest4
          & Hcat & Hm4 & Hf4 & Hr4 & Hu4 & Hmo4); try reflexivity.
    + rewrite app_nil_r. exact Hdest1.
    + apply Forall_app in Hid. exact (proj2 Hid).
    + exact Hnd.
    + rewrite Hs in Hr. cbn [app] in Hcat.
      cbn [migrated failures raw ups mods List.length] in Hm4, Hf4.
      destruct batch' as [|b batch'].
      * rewrite app_nil_r in Hcat. subst copied'. cbn [fst] in Hr. subst r.
        cbn [fst snd success total_documents migrated_documents
             failed_documents].
        rewrite Hdest4, Hsrc4, Hsrc1, Hcm4, Hcm1, Hio4, Hio1, Hf4.
        repeat split. f_equal. cbn [List.length] in Hm4. lia.
      * assert (Hw4 : can_write self s4)
          by (unfold can_write in *; now rewrite Hcm4).
        destruct (flush_copies (b :: batch') (existing ++ copied') acc' s4
                    Hw4) as (acc5 & Hfl & Hm5 & Hf5 & Hr5 & Hu5 & Hmo5).
        -- discriminate.
        -- exact Hdest4.
        -- apply Forall_app in Hid. destruct Hid as [_ Hid].
           rewrite <- Hcat in Hid. apply Forall_app in Hid. apply Hid.
        -- rewrite <- app_assoc, Hcat. exact Hnd.
        -- rewrite Hfl in Hr. cbn [fst] in Hr. subst r.
           cbn [fst snd success total_documents migrated_documents
                failed_documents ext set_ext with_dest dest source cm io].
           rewrite MemoryFacts.docs_of_set_docs, <- app_assoc, Hcat.
           rewrite Hsrc4, Hsrc1, Hcm4, Hcm1, Hio4, Hio1, Hf5, Hf4.
           repeat split. f_equal.
           assert (Hlen : List.length (copied' ++ b :: batch')
                          = List.length (d :: docs)) by now rewrite Hcat.
           rewrite length_app in Hlen. cbn [List.length] in *. lia.
Qed.

Lemma flush_replaces_nothing (batch held_docs : list Doc) (acc : Totals)
    (s : State Store) :
  can_write self s ->
  batch <> [] ->
  docs_of database_name collection_name (dest (ext s)) = Some held_docs ->
  NoDup (map identity held_docs) ->
  Forall as_stored batch ->
  incl batch held_docs ->
  exists acc',
    flush env memory_driver self database_name collection_name batch acc s
    = (s, Ok acc')
    /\ migrated acc' = migrated acc
    /\ failures acc' = failures acc
    /\ raw acc' = raw acc
    /\ ups acc' = ups acc
    /\ mods acc' = mods acc.
Proof.
  intros Hw Hne Hdest Hnd Hst Hin.
  destruct batch as [|d batch]; [congruence|].
  destruct (process_batch_single_call env memory_driver self database_name
              collection_name d batch s Hw) as (stats & Hp & Hout).
  assert (Hbw :
    bulk_write memory_driver database_name collection_name
      (operations (d :: batch)) (ext s)
    = (ext s, Ok (mkBulkWriteResult 0 0 0))).
  { unfold memory_driver, bulk_write. rewrite Hdest.
    rewrite MemoryFacts.bulk_replaces_nothing by assumption.
    rewrite MemoryFacts.set_docs_same by assumption.
    now destruct (ext s). }
  rewrite Hbw in Hp, Hout. cbn [fst snd batch_outcome] in Hp, Hout.
  unfold flush. rewrite Hp. eexists.
  split; [now destruct s|].
  subst stats.
  cbn [migrated failures raw ups mods inserted failed upserted modified
       raw_inserted inserted_count upserted_count modified_count].
  repeat split; lia.
Qed.

Lemma stream_replaces_nothing (s : State Store) (held_docs : list Doc) :
  can_write self s ->
  docs_of database_name collection_name (dest (ext s)) = Some held_docs ->
  NoDup (map identity held_docs) ->
  forall (documents batch : list Doc) (acc : Totals),
    Forall as_stored (batch ++ documents) ->
    incl (batch ++ documents) held_docs ->
    exists batch' acc',
      stream env memory_driver self database_name collection_name
        documents batch acc s = (s, Ok (batch', acc'))
      /\ Forall as_stored batch' /\ incl batch' held_docs
      /\ migrated acc' = migrated acc
      /\ failures acc' = failures acc
      /\ raw acc' = raw acc
      /\ ups acc' = ups acc
      /\ mods acc' = mods acc.
Proof.
  intros Hw Hdest Hnd.
  induction documents as [|d documents IH]; intros batch acc Hst Hin.
  - exists batch, acc. rewrite app_nil_r in *. repeat split; auto.
  - cbn [stream].
    assert (Hst1 : Forall as_stored (batch ++ [d])).
    { apply Forall_app in Hst. destruct Hst as [Hb Hd].
      apply Forall_app. split; [exact Hb|].
      inversion Hd; subst. now constructor. }
    assert (Hin1 : incl (batch ++ [d]) held_docs).
    { intros x Hx. apply Hin. apply in_app_or in Hx.
      apply in_or_app. destruct Hx as [Hx|[<-|[]]]; [now left|].
      right. now left. }
    destruct (Z.of_nat (List.length (batch ++ [d])) >=? batch_size self)%Z.
    + destruct (flush_replaces_nothing (batch ++ [d]) held_docs acc s Hw)
        as (acc1 & Hf & Hm1 & Hf1 & Hr1 & Hu1 & Hmo1); try assumption.
      * now destruct batch.
      * rewrite Hf.
        destruct (IH [] acc1) as (batch' & acc' & Hs & Hrest).
        -- apply Forall_app in Hst. destruct Hst as [_ Hd].
           now inversion Hd.
        -- intros x Hx. apply Hin. apply in_or_app. right. now right.
        -- exists batch', acc'. rewrite Hs.
           destruct Hrest as (? & ? & ? & ? & ? & ? & ?).
           repeat split; auto; congruence.
    + destruct (IH (batch ++ [d]) acc) as (batch' & acc' & Hs & Hrest).
      * now rewrite <- app_assoc.
      * now rewrite <- app_assoc.
      * exists batch', acc'. rewrite Hs. exact (conj eq_refl Hrest).
Qed.

(** X18. Running a transfer again, on either branch: when the destination
    collection holds every document of the source collection already,
    under identities that are all different, the run leaves both stores
    exactly as they are and reports success with all documents counted in
    [total_documents] but none as migrated and none as failed: a replaced
    document that did not change counts neither as modified nor as
    upserted. *)
Theorem second_transfer_changes_nothing (s : State Store)
    (held_docs : list Doc) :
  can_write self s ->
  docs_of database_name collection_name (dest (ext s)) = Some held_docs ->
  NoDup (map identity held_docs) ->
  Forall as_stored (held database_name collection_name (source (ext s))) ->
  incl (held database_name collection_name (source (ext s))) held_docs ->
  let r := migrate_collection env memory_driver self database_name
             collection_name s in
  fst r = s
  /\ success (snd r) = true
  /\ total_documents (snd r)
     = Some (Z.of_nat (List.length (held database_name collection_name
                                      (source (ext s)))))
  /\ migrated_documents (snd r) = Some 0%Z
  /\ failed_documents (snd r) = Some 0%Z.
Proof.
  intros Hw Hdest Hnd Hst Hin.
  remember (migrate_collection env memory_driver self database_name
              collection_name s) as r eqn:Hr.
  cbv zeta. unfold migrate_collection, migrate_collection_trace in Hr.
  assert (He : ensure_destination memory_driver self database_name
                 collection_name s = (s, Ok true)).
  { destruct (ensure_destination_in_memory s)
      as (s1 & He & _ & _ & _ & _ & Hsame).
    rewrite He, Hsame; [reflexivity|congruence]. }
  rewrite He, (count_documents_in_memory s Hw) in Hr.
  remember (held database_name collection_name (source (ext s))) as docs
    eqn:Hdocs.
  destruct docs as [|d docs].
  - cbn [List.length Z.of_nat fst] in Hr. subst r.
    cbn [fst snd success total_documents migrated_documents
         failed_documents List.length Z.of_nat]. repeat split.
  - cbn [List.length] in Hr. rewrite Nat2Z.inj_succ in Hr.
    cbn [List.length]. rewrite Nat2Z.inj_succ.
    destruct (Z.succ (Z.of_nat (List.length docs))) as [|p|p] eqn:Hn;
      [lia| |lia].
    unfold memory_driver at 1 in Hr. cbn [Pymongo.count_documents] in Hr.
    unfold memory_driver at 1 in Hr. cbn [find] in Hr.
    fold (held database_name collection_name (source (ext s))) in Hr.
    rewrite <- Hdocs in Hr.
    replace (set_ext s (ext s)) with s in Hr by now destruct s.
    unfold stream_all in Hr. cbn [yielded fails] in Hr.
    destruct (stream_replaces_nothing s held_docs Hw Hdest Hnd (d :: docs) []
                (mkTotals 0 0 0 0 0 []) Hst Hin)
      as (batch' & acc' & Hs & Hst' & Hin' & Hm & Hf & Hra & Hu & Hmo).
    rewrite Hs in Hr. cbn [migrated failures raw ups mods] in *.
    destruct batch' as [|b batch'].
    + cbn [fst] in Hr. subst r.
      cbn [fst snd success total_documents migrated_documents
           failed_documents].
      rewrite Hm, Hf. repeat split.
    + destruct (flush_replaces_nothing (b :: batch') held_docs acc' s Hw)
        as (acc5 & Hfl & Hm5 & Hf5 & Hr5 & Hu5 & Hmo5); try assumption.
      * discriminate.
      * rewrite Hfl in Hr. cbn [fst] in Hr. subst r.
        cbn [fst snd success total_documents migrated_documents
             failed_documents].
        rewrite Hm5, Hm, Hf5, Hf. repeat split.
Qed.

End Copy.

Lemma transfer_copies_every_document_witness :
  let r := migrate_collection Examples.always_up Memory.memory_driver
             Examples.two_by_two "shop" "orders"
             (mkState (init Examples.configured) initial_world
                      Examples.five_documents) in
  Memory.docs_of "shop" "orders" (Memory.dest (ext (fst r)))
  = Some ([] ++ Examples.numbered 1 5)
  /\ Memory.source (ext (fst r)) = Memory.source Examples.five_documents
  /\ cm (fst r) = init Examples.configured /\ io (fst r) = initial_world
  /\ success (snd r) = true
  /\ total_documents (snd r) = Some 5%Z
  /\ migrated_documents (snd r) = total_documents (snd r)
  /\ failed_documents (snd r) = Some 0%Z.
Proof.
  refine (transfer_copies_every_document Examples.always_up
            Examples.two_by_two "shop" "orders"
            (mkState (init Examples.configured) initial_world
                     Examples.five_documents) _ _).
  - left. reflexivity.
  - split.
    + repeat constructor; discriminate.
    + vm_compute. repeat constructor; simpl; intuition discriminate.
Defined.

Lemma second_transfer_changes_nothing_witness :
  let s := mkState (init Examples.configured) initial_world
                   Examples2.five_copied in
  let r := migrate_collection Examples.always_up Memory.memory_driver
             Examples.two_by_two "shop" "orders" s in
  fst r = s
  /\ success (snd r) = true
  /\ total_documents (snd r) = Some 5%Z
  /\ migrated_documents (snd r) = Some 0%Z
  /\ failed_documents (snd r) = Some 0%Z.
Proof.
  refine (second_transfer_changes_nothing Examples.always_up
            Examples.two_by_two "shop" "orders"
            (mkState (init Examples.configured) initial_world
                     Examples2.five_copied)
            (Examples.numbered 1 5) _ _ _ _ _).
  - left. reflexivity.
  - reflexivity.
  - vm_compute. repeat constructor; simpl; intuition discriminate.
  - repeat constructor; eexists _, _; split; reflexivity.
  - apply incl_refl.
Defined.


End MigrationExtras.

(** ** The partition-key analysis *)

Module PartitionKeyExtras.

Import CosmosDBRUManager Capacity.

Local Open Scope list_scope.

(** The fields of the analysis, in the order it holds them: the order
    in which the walk over the documents met them first. *)
Lemma fields_in_order_met :
  forall (pairs : list (string * Value)) (fs : FieldStats),
    map fst (fold_left (fun acc kv => record_field (fst kv) (snd kv) acc)
               pairs fs)
    = added (map fst pairs) (map fst fs).
Proof.
  unfold added. induction pairs as [|[k v] pairs IH]; intros fs.
  - reflexivity.
  - cbn [fold_left map fst snd]. rewrite IH.
    now rewrite PartitionKeyFacts.keys_record_field.
Qed.

Lemma analyse_fields (sample : list Doc) :
  map fst (analyse sample) = added (map fst (List.concat sample)) [].
Proof.
  unfold analyse. rewrite PartitionKeyFacts.analyse_flat.
  apply fields_in_order_met.
Qed.

Lemma score_fields_names (n : nat) (fs : FieldStats) :
  map fst (score_fields n fs)
  = filter (fun f => negb (String.eqb f "_id")) (map fst fs).
Proof.
  unfold score_fields. induction fs as [|[f st] fs IH]; [reflexivity|].
  cbn [filter map fst]. destruct (negb (String.eqb f "_id")).
  - cbn [map fst]. now rewrite IH.
  - exact IH.
Qed.

(** The stable sort puts first the earliest of the entries with the
    largest score. *)
Lemma sort_desc_first_largest (l : list (string * Q)) :
  match sort_desc l with
  | [] => l = []
  | x :: _ =>
    exists before after,
      l = before ++ x :: after
      /\ (forall y, In y before -> snd y < snd x)
      /\ (forall y, In y after -> snd y <= snd x)
  end.
Proof.
  induction l as [|a l IH]; [reflexivity|].
  change (sort_desc (a :: l)) with (insert_desc a (sort_desc l)).
  destruct (sort_desc l) as [|x rest] eqn:Hs.
  - subst l. exists [], []. split; [reflexivity|]. split; intros y [].
  - destruct IH as (before & after & Hl & Hb & Ha). cbn [insert_desc].
    destruct (Qle_bool (snd x) (snd a)) eqn:Hle.
    + apply Qle_bool_iff in Hle. exists [], l.
      split; [reflexivity|]. split; [intros y []|].
      intros y Hy. rewrite Hl in Hy. apply in_app_or in Hy.
      destruct Hy as [Hy|[<-|Hy]].
      * apply Qlt_le_weak. eapply Qlt_le_trans; [now apply Hb|exact Hle].
      * exact Hle.
      * eapply Qle_trans; [now apply Ha|exact Hle].
    + exists (a :: before), after. split; [now rewrite Hl|].
      split; [|exact Ha].
      intros y [<-|Hy]; [|now apply Hb].
      apply Qnot_le_lt. intros Hc. apply Qle_bool_iff in Hc. congruence.
Qed.

(** More occurrences and more distinct values give at least the score,
    and a larger one when either number is larger. *)
Lemma total_score_le (n : nat) (st st' : FieldStat) :
  (0 < n)%nat ->
  (count st' <= count st)%Z ->
  (List.length (unique_values st') <= List.length (unique_values st))%nat ->
  total_score n st' <= total_score n st.
Proof.
  intros Hn Hc Hu. unfold total_score, Qdiv.
  assert (Hk : 0 < / inject_Z (Z.of_nat n)).
  { apply Qinv_lt_0_compat. change 0 with (inject_Z 0).
    rewrite <- Zlt_Qlt. lia. }
  set (k := / inject_Z (Z.of_nat n)) in *.
  assert (Hc' : inject_Z (count st') * k <= inject_Z (count st) * k).
  { apply Qmult_le_compat_r; [now rewrite <- Zle_Qle|now apply Qlt_le_weak]. }
  assert (Hu' : inject_Z (Z.of_nat (List.length (unique_values st'))) * k
                <= inject_Z (Z.of_nat (List.length (unique_values st))) * k).
  { apply Qmult_le_compat_r; [rewrite <- Zle_Qle; lia
                             |now apply Qlt_le_weak]. }
  set (a' := inject_Z (count st') * k) in *.
  set (a := inject_Z (count st) * k) in *.
  set (b' := inject_Z (Z.of_nat (List.length (unique_values st'))) * k) in *.
  set (b := inject_Z (Z.of_nat (List.length (unique_values st))) * k) in *.
  clearbody a a' b b'. lra.
Qed.

Lemma total_score_lt (n : nat) (st st' : FieldStat) :
  (0 < n)%nat ->
  (count st' <= count st)%Z ->
  (List.length (unique_values st') <= List.length (unique_values st))%nat ->
  (count st' < count st)%Z
  \/ (List.length (unique_values st') < List.length (unique_values st))%nat ->
  total_score n st' < total_score n st.
Proof.
  intros Hn Hc Hu Hstrict. unfold total_score, Qdiv.
  assert (Hk : 0 < / inject_Z (Z.of_nat n)).
  { apply Qinv_lt_0_compat. change 0 with (inject_Z 0).
    rewrite <- Zlt_Qlt. lia. }
  set (k := / inject_Z (Z.of_nat n)) in *.
  assert (Hc' : inject_Z (count st') * k <= inject_Z (count st) * k).
  { apply Qmult_le_compat_r; [now rewrite <- Zle_Qle|now apply Qlt_le_weak]. }
  assert (Hu' : inject_Z (Z.of_nat (List.length (unique_values st'))) * k
                <= inject_Z (Z.of_nat (List.length (unique_values st))) * k).
  { apply Qmult_le_compat_r; [rewrite <- Zle_Qle; lia
                             |now apply Qlt_le_weak]. }
  assert (Hs : inject_Z (count st') * k < inject_Z (count st) * k
               \/ inject_Z (Z.of_nat (List.length (unique_values st'))) * k
                  < inject_Z (Z.of_nat (List.length (unique_values st))) * k).
  { destruct Hstrict as [H|H]; [left|right];
      (apply Qmult_lt_compat_r; [exact Hk|rewrite <- Zlt_Qlt; lia]). }
  set (a' := inject_Z (count st') * k) in *.
  set (a := inject_Z (count st) * k) in *.
  set (b' := inject_Z (Z.of_nat (List.length (unique_values st'))) * k) in *.
  set (b := inject_Z (Z.of_nat (List.length (unique_values st))) * k) in *.
  clearbody a a' b b'. destruct Hs; lra.
Qed.

(** An entry that beats every entry before it and is not beaten by any
    entry after it comes first in the sort. *)
Lemma sort_desc_first (before after : list (string * Q)) (x : string * Q) :
  (forall y, In y before -> snd y < snd x) ->
  (forall y, In y after -> snd y <= snd x) ->
  exists rest, sort_desc (before ++ x :: after) = x :: rest.
Proof.
  intros Hb Ha. induction before as [|b before IH].
  - cbn [app]. change (sort_desc (x :: after))
      with (insert_desc x (sort_desc after)).
    destruct (sort_desc after) as [|y rest] eqn:Hs.
    + now exists [].
    + cbn [insert_desc].
      assert (Hy : In y after)
        by (apply PartitionKeyFacts.sort_desc_In; rewrite Hs; now left).
      apply Ha, Qle_bool_iff in Hy. rewrite Hy. now exists (y :: rest).
  - destruct IH as [rest IH]; [intros y Hy; apply Hb; now right|].
    cbn [app]. change (sort_desc (b :: before ++ x :: after))
      with (insert_desc b (sort_desc (before ++ x :: after))).
    rewrite IH. cbn [insert_desc].
    assert (Hlt : Qle_bool (snd x) (snd b) = false).
    { destruct (Qle_bool (snd x) (snd b)) eqn:E; [|reflexivity].
      apply Qle_bool_iff in E.
      exfalso. apply (Qlt_not_le _ _ (Hb b (or_introl eq_refl)) E). }
    rewrite Hlt. now exists (insert_desc b rest).
Qed.

(** X19. Ties between fields with the same statistics go to the field met
    first.  The statistics of the scored fields stand in the order in
    which the walk over the sampled documents met the fields first
    (["_id"] left out).  A field that has at least as many occurrences
    and at least as many distinct values as every other scored field,
    and more of one of the two than every field met before it, is the
    field recommended: among fields with the same two numbers, whose
    scores are equal whatever the rounding, the earliest met wins. *)
Theorem tie_goes_to_the_field_met_first (cfg : Config) (sample : list Doc)
    (before after : FieldStats) (f : string) (st : FieldStat) :
  let stats :=
    filter (fun entry => negb (String.eqb (fst entry) "_id"))
           (analyse sample) in
  (1 <= List.length sample <= 100)%nat ->
  stats = before ++ (f, st) :: after ->
  (forall g sg, In (g, sg) before ->
     (count sg <= count st)%Z
     /\ (List.length (unique_values sg)
         <= List.length (unique_values st))%nat
     /\ ((count sg < count st)%Z
         \/ (List.length (unique_values sg)
             < List.length (unique_values st))%nat)) ->
  (forall g sg, In (g, sg) after ->
     (count sg <= count st)%Z
     /\ (List.length (unique_values sg)
         <= List.length (unique_values st))%nat) ->
  recommend cfg sample = f
  /\ map fst stats
     = filter (fun g => negb (String.eqb g "_id"))
         (added (map fst (List.concat sample)) []).
Proof.
  intros stats Hn Hstats Hbefore Hafter. subst stats. split.
  - set (score := fun entry : string * FieldStat =>
                    (fst entry, total_score (List.length sample)
                                  (snd entry))).
    assert (Hscored :
      score_fields (List.length sample) (analyse sample)
      = map score before ++ score (f, st) :: map score after).
    { unfold score_fields. rewrite Hstats, map_app. reflexivity. }
    assert (Hrec :
      recommend cfg sample
      = match sort_desc (score_fields (List.length sample)
                           (analyse sample)) with
        | (recommended_key, _) :: _ => recommended_key
        | [] => ru_default_partition_key cfg
        end).
    { unfold recommend. destruct sample; [cbn in Hn; lia|reflexivity]. }
    rewrite Hrec, Hscored.
    destruct (sort_desc_first (map score before) (map score after)
                (score (f, st))) as [others Hsort].
    + intros y Hy. apply in_map_iff in Hy.
      destruct Hy as ([g sg] & <- & Hin).
      destruct (Hbefore g sg Hin) as (Hc & Hu & Hs).
      cbn [score fst snd]. apply total_score_lt; try assumption. lia.
    + intros y Hy. apply in_map_iff in Hy.
      destruct Hy as ([g sg] & <- & Hin).
      destruct (Hafter g sg Hin) as (Hc & Hu).
      cbn [score fst snd]. apply total_score_le; try assumption. lia.
    + rewrite Hsort. reflexivity.
  - rewrite <- analyse_fields. clear Hstats.
    induction (analyse sample) as [|[g sg] fs IH]; [reflexivity|].
    cbn [filter map fst]. destruct (negb (String.eqb g "_id"));
      cbn [map fst]; now rewrite IH.
Qed.

Lemma tie_goes_to_the_field_met_first_witness :
  recommend Examples.ru_config Examples2.two_tied_fields = "city"
  /\ map fst
       (filter (fun entry => negb (String.eqb (fst entry) "_id"))
          (analyse Examples2.two_tied_fields))
     = ["city"; "name"].
Proof.
  refine (tie_goes_to_the_field_met_first Examples.ru_config
            Examples2.two_tied_fields []
            [("name", mkFieldStat 2 ["Ada"; "Bob"])] "city"
            (mkFieldStat 2 ["Lyon"; "Nice"]) _ _ _ _).
  - cbn. lia.
  - reflexivity.
  - intros g sg [].
  - intros g sg [[= <- <-]|[]]. cbn. lia.
Defined.

Lemma analysed_field_is_a_key (sample : list Doc) (f : string)
    (st : FieldStat) :
  In (f, st) (analyse sample) ->
  exists doc, In doc sample /\ In f (keys doc).
Proof.
  intros Hin. apply (in_map fst) in Hin. cbn [fst] in Hin.
  rewrite analyse_fields in Hin. apply PartitionKeyFacts.added_In in Hin.
  destruct Hin as [[]|Hin].
  apply in_map_iff in Hin. destruct Hin as ([k v] & <- & Hkv).
  apply in_concat in Hkv. destruct Hkv as (doc & Hdoc & Hkv).
  exists doc. split; [exact Hdoc|].
  unfold keys. now apply (in_map fst) in Hkv.
Qed.

Lemma recommend_from_sample (cfg : Config) (sample : list Doc) :
  recommend cfg sample = ru_default_partition_key cfg
  \/ (recommend cfg sample <> "_id"
      /\ exists doc, In doc sample /\ In (recommend cfg sample) (keys doc)).
Proof.
  unfold recommend. destruct sample as [|d rest]; [now left|].
  set (sample := d :: rest).
  pose proof (PartitionKeyFacts.sort_desc_head
                (score_fields (List.length sample) (analyse sample)))
    as Hhead.
  destruct (sort_desc (score_fields (List.length sample) (analyse sample)))
    as [|[k sk] others]; [now left|].
  destruct Hhead as [Hin _]. right.
  apply PartitionKeyFacts.score_fields_In in Hin.
  destruct Hin as (st & Hin & Hid & _). split; [exact Hid|].
  now apply (analysed_field_is_a_key sample k st).
Qed.

(** X20. The analysis costs one [find] on the source and never raises, and
    what it recommends is the configured default or else a field, other
    than ["_id"], of one of the first hundred documents the cursor
    yields; whatever the cursor does after these, later documents or an
    error, plays no part. *)
Theorem recommended_key_comes_from_the_first_hundred {X : Type}
    (drv : Driver X) (cfg : Config) (database_name collection_name : string)
    (x : X) :
  let cursor := snd (find drv database_name collection_name x) in
  let r := get_recommended_partition_key drv cfg database_name
             collection_name x in
  fst r = fst (find drv database_name collection_name x)
  /\ (snd r = ru_default_partition_key cfg
      \/ (snd r <> "_id"
          /\ exists doc,
              In doc (firstn 100 (yielded cursor)) /\ In (snd r) (keys doc)))
  /\ (100 <= List.length (yielded cursor) ->
      snd r = recommend cfg (firstn 100 (yielded cursor)))%nat.
Proof.
  cbv zeta. unfold get_recommended_partition_key.
  destruct (find drv database_name collection_name x) as [x1 cursor].
  cbn [fst snd]. unfold list_limit.
  destruct (100 <=? List.length (yielded cursor))%nat eqn:Hn.
  - cbn [fst snd]. split; [reflexivity|].
    split; [apply recommend_from_sample|reflexivity].
  - apply Nat.leb_gt in Hn.
    destruct (fails cursor) as [e|]; cbn [fst snd].
    + split; [reflexivity|]. split; [now left|lia].
    + split; [reflexivity|]. split; [|lia].
      rewrite firstn_all2 by lia. apply recommend_from_sample.
Qed.

Lemma recommended_key_comes_from_the_first_hundred_witness :
  snd (get_recommended_partition_key
         (Scripted.scripted_driver Examples2.breaks_after_150)
         Examples.ru_config "shop" "orders" 0%nat)
  = recommend Examples.ru_config (Examples.numbered 1 100).
Proof.
  destruct (recommended_key_comes_from_the_first_hundred
              (Scripted.scripted_driver Examples2.breaks_after_150)
              Examples.ru_config "shop" "orders" 0%nat) as (_ & _ & H).
  exact (H ltac:(vm_compute; lia)).
Defined.

(** The values of a field are as many as the documents that hold it. *)
Lemma length_values_of (f : string) (sample : list Doc) :
  List.length (values_of f sample) = occurrences f sample.
Proof.
  unfold values_of, occurrences. induction sample as [|doc sample IH];
    [reflexivity|].
  cbn [flat_map filter]. rewrite length_app, IH.
  rewrite PartitionKeyFacts.has_key_lookup.
  now destruct (lookup f doc).
Qed.

Lemma distinct_values_bounds (f : string) (sample : list Doc) :
  (distinct_values f sample <= occurrences f sample)%nat
  /\ (1 <= occurrences f sample -> 1 <= distinct_values f sample)%nat.
Proof.
  unfold distinct_values. rewrite <- length_values_of. split.
  - apply NoDup_incl_length; [apply NoDup_nodup|].
    intros x Hx. now apply nodup_In in Hx.
  - destruct (values_of f sample) as [|v vs] eqn:Hv; [simpl; lia|].
    intros _.
    assert (Hin : In v (nodup string_dec (v :: vs)))
      by (apply nodup_In; now left).
    destruct (nodup string_dec (v :: vs)); [contradiction|simpl; lia].
Qed.

Lemma score_bounds (n o d : nat) :
  (1 <= d)%nat -> (d <= o)%nat -> (o <= n)%nat ->
  0 < inject_Z (Z.of_nat o) / inject_Z (Z.of_nat n) * (6 # 10)
      + inject_Z (Z.of_nat d) / inject_Z (Z.of_nat n) * (4 # 10)
  /\ inject_Z (Z.of_nat o) / inject_Z (Z.of_nat n) * (6 # 10)
     + inject_Z (Z.of_nat d) / inject_Z (Z.of_nat n) * (4 # 10) <= 1.
Proof.
  intros Hd Ho Hn.
  assert (Hq : 1 <= inject_Z (Z.of_nat n)).
  { change 1 with (inject_Z 1). rewrite <- Zle_Qle. lia. }
  assert (Hoq : inject_Z (Z.of_nat o) <= inject_Z (Z.of_nat n))
    by (rewrite <- Zle_Qle; lia).
  assert (Hdq : inject_Z (Z.of_nat d) <= inject_Z (Z.of_nat n))
    by (rewrite <- Zle_Qle; lia).
  assert (Ho1 : 1 <= inject_Z (Z.of_nat o)).
  { change 1 with (inject_Z 1). rewrite <- Zle_Qle. lia. }
  assert (Hd1 : 1 <= inject_Z (Z.of_nat d)).
  { change 1 with (inject_Z 1). rewrite <- Zle_Qle. lia. }
  remember (inject_Z (Z.of_nat n)) as q.
  remember (inject_Z (Z.of_nat o)) as p.
  remember (inject_Z (Z.of_nat d)) as c.
  assert (Hqi : q * / q == 1) by (apply Qmult_inv_r; lra).
  assert (Hipos : 0 < / q) by (apply Qinv_lt_0_compat; lra).
  assert (Hp1 : p * / q <= 1).
  { rewrite <- Hqi. apply Qmult_le_compat_r; lra. }
  assert (Hc1 : c * / q <= 1).
  { rewrite <- Hqi. apply Qmult_le_compat_r; lra. }
  assert (Hp0 : / q <= p * / q).
  { rewrite <- (Qmult_1_l (/ q)) at 1. apply Qmult_le_compat_r; lra. }
  assert (Hc0 : / q <= c * / q).
  { rewrite <- (Qmult_1_l (/ q)) at 1. apply Qmult_le_compat_r; lra. }
  unfold Qdiv. remember (p * / q) as pi. remember (c * / q) as ci.
  remember (/ q) as i. split; lra.
Qed.

(** X21. Every score lies above 0 and at most at 1: for a sample of
    dictionaries (of at most 1000 documents, so that the cap on the
    distinct values is not reached) a scored field occurs at least
    once, has at least one distinct value and no more distinct values
    than occurrences. *)
Theorem scores_lie_between_zero_and_one (sample : list Doc) (f : string)
    (sc : Q) :
  Forall is_dict sample ->
  (List.length sample <= 1000)%nat ->
  In (f, sc) (score_fields (List.length sample) (analyse sample)) ->
  (1 <= distinct_values f sample <= occurrences f sample)%nat
  /\ (occurrences f sample <= List.length sample)%nat
  /\ 0 < sc /\ sc <= 1.
Proof.
  intros Hd Hlen Hin.
  apply PartitionKeyFacts.scored_fields_spec in Hin; try assumption.
  destruct Hin as (_ & Hocc & ->).
  destruct (distinct_values_bounds f sample) as [Hdo Hd1].
  pose proof (PartitionKeyFacts.occurrences_le f sample) as Hon.
  split; [split; [now apply Hd1|exact Hdo]|]. split; [exact Hon|].
  unfold score. apply score_bounds; auto.
Qed.

Lemma scores_lie_between_zero_and_one_witness :
  (1 <= distinct_values "gift" Examples.four_orders
   <= occurrences "gift" Examples.four_orders)%nat
  /\ (occurrences "gift" Examples.four_orders
      <= List.length Examples.four_orders)%nat
  /\ 0 < inject_Z 2 / inject_Z 4 * (6 # 10) + inject_Z 1 / inject_Z 4 * (4 # 10)
  /\ inject_Z 2 / inject_Z 4 * (6 # 10) + inject_Z 1 / inject_Z 4 * (4 # 10)
     <= 1.
Proof.
  refine (scores_lie_between_zero_and_one Examples.four_orders "gift"
            (inject_Z 2 / inject_Z 4 * (6 # 10)
             + inject_Z 1 / inject_Z 4 * (4 # 10)) _ _ _).
  - repeat constructor; simpl; intuition discriminate.
  - simpl. lia.
  - vm_compute. right. left. reflexivity.
Defined.

End PartitionKeyExtras.

(** ** Loading the settings *)

From Stdlib Require DecimalZ DecimalPos.

Module ConfigExtras.

Import ConfigLoader.

Local Open Scope list_scope.

(** [int] raises nothing but [ValueError]. *)
Lemma py_int_raises (s : string) (e : PyExc) :
  py_int s = Raise e -> exists msg, e = ValueError msg.
Proof.
  unfold py_int. intros H.
  repeat match type of H with
         | context [match ?x with _ => _ end] => destruct x
         | context [if ?x then _ else _] => destruct x
         | context [let '(_, _) := ?x in _] => destruct x
         end;
    try discriminate; inversion H; eauto.
Qed.

(** What the model of [int] reads is ASCII, so Python reads it too, as
    the same integer. *)
Lemma is_ascii_cons (c : ascii) (s : string) :
  is_ascii (String c s) = ((nat_of_ascii c <? 128)%nat && is_ascii s)%bool.
Proof. reflexivity. Qed.

Lemma is_space_ascii (c : ascii) :
  is_space c = true -> (nat_of_ascii c <? 128)%nat = true.
Proof.
  destruct c as [[] [] [] [] [] [] [] []]; try discriminate; reflexivity.
Qed.

Lemma run_char_ascii (c : ascii) :
  is_digit c || Ascii.eqb c "_" = true -> (nat_of_ascii c <? 128)%nat = true.
Proof.
  destruct c as [[] [] [] [] [] [] [] []]; try discriminate; reflexivity.
Qed.

Lemma lstrip_ascii (s : string) :
  is_ascii (lstrip s) = true -> is_ascii s = true.
Proof.
  induction s as [|c s IH]; [reflexivity|].
  cbn [lstrip]. destruct (is_space c) eqn:Hc; [|trivial].
  intros H. rewrite is_ascii_cons, (is_space_ascii c Hc). now apply IH.
Qed.

Lemma scan_ascii (s : string) :
  is_ascii (snd (scan s)) = true -> is_ascii s = true.
Proof.
  induction s as [|c s IH]; [reflexivity|].
  cbn [scan]. destruct (is_digit c || Ascii.eqb c "_") eqn:Hc.
  - destruct (scan s) as [run tail]. cbn [snd] in *. intros H.
    rewrite is_ascii_cons, (run_char_ascii c Hc). now apply IH.
  - trivial.
Qed.

Lemma py_int_reads_ascii (s : string) (z : Z) :
  py_int s = Ok z -> is_ascii s = true.
Proof.
  unfold py_int. intros H. apply lstrip_ascii.
  assert (Hrest : forall unsigned negative,
    (let '(run, tail) := scan unsigned in
     match parse_digits run with
     | None =>
       Raise (ValueError
                ("invalid literal for int() with base 10: '" ++ s ++ "'"))
     | Some d =>
       if (max_str_digits <? count_digits run)%Z
       then Raise (ValueError
                     ("Exceeds the limit (" ++ str_int max_str_digits
                      ++ " digits) for integer string conversion: value has "
                      ++ str_int (count_digits run)
                      ++ " digits; use sys.set_int_max_str_digits() "
                      ++ "to increase the limit"))
       else
         match lstrip tail with
         | EmptyString =>
           Ok (Z.of_int (if negative : bool then Decimal.Neg d
                         else Decimal.Pos d))
         | String _ _ =>
           Raise (ValueError
                    ("invalid literal for int() with base 10: '" ++ s
                     ++ "'"))
         end
     end) = Ok z ->
    is_ascii unsigned = true).
  { intros unsigned negative Hu. apply scan_ascii.
    destruct (scan unsigned) as [run tail]. cbn [snd].
    destruct (parse_digits run); [|discriminate].
    destruct (max_str_digits <? count_digits run)%Z; [discriminate|].
    apply lstrip_ascii. now destruct (lstrip tail). }
  destruct (lstrip s) as [|c body] eqn:Hbody.
  - reflexivity.
  - destruct (Ascii.eqb c "-") eqn:Hminus;
      [apply Ascii.eqb_eq in Hminus; subst c;
       rewrite is_ascii_cons; cbn [andb];
       exact (Hrest body true H)|].
    destruct (Ascii.eqb c "+") eqn:Hplus;
      [apply Ascii.eqb_eq in Hplus; subst c;
       rewrite is_ascii_cons; cbn [andb];
       exact (Hrest body false H)|].
    apply (Hrest (String c body) false).
    destruct c as [[] [] [] [] [] [] [] []]; try discriminate; exact H.
Qed.

Lemma assign_int_reads (environ : Environ) (key default : string)
    (default_value : Z) :
  py_int default = Ok default_value ->
  environ key = None
  \/ (exists v z, environ key = Some v /\ py_int v = Ok z) ->
  exists value,
    (forall update self,
        assign_int environ key default update self
        = (update value self, Ok tt))
    /\ (environ key = None -> value = default_value)
    /\ (forall v z, environ key = Some v -> py_int v = Ok z -> value = z).
Proof.
  intros Hd [Hnone|(v & z & Hv & Hz)].
  - exists default_value. split; [|split].
    + intros update self. unfold assign_int, getenv. now rewrite Hnone, Hd.
    + reflexivity.
    + intros v z Hv. congruence.
  - exists z. split; [|split].
    + intros update self. unfold assign_int, getenv. now rewrite Hv, Hz.
    + intros Hnone. congruence.
    + intros v' z' Hv' Hz'. congruence.
Qed.

(** X22. Every integer variable goes to its own attribute: when each of
    the ten integer variables is unset or holds a text that [int]
    reads, [load_config] returns normally, and each attribute holds
    the integer read from its variable, or its default when the
    variable is unset. *)
Theorem integer_settings_are_read_back (environ : Environ) (self : Config) :
  (forall key default attribute,
      In (key, default, attribute) integer_settings ->
      environ key = None
      \/ exists v z, environ key = Some v /\ py_int v = Ok z) ->
  exists loaded,
    load_config environ self = (loaded, Ok tt)
    /\ forall key default attribute,
        In (key, default, Some attribute) integer_settings ->
        (environ key = None -> attribute loaded = default)
        /\ (forall v z, environ key = Some v -> py_int v = Ok z ->
                        attribute loaded = z).
Proof.
  intros Henv.
  destruct (assign_int_reads environ "BATCH_SIZE" "1000" 1000 eq_refl)
    as (v1 & H1 & D1 & R1);
    [eapply Henv; cbn; eauto 12|].
  destruct (assign_int_reads environ "TIMEOUT_MS" "30000" 30000 eq_refl)
    as (v2 & H2 & D2 & R2);
    [eapply Henv; cbn; eauto 12|].
  destruct (assign_int_reads environ "RETRY_ATTEMPTS" "3" 3 eq_refl)
    as (v3 & H3 & D3 & R3);
    [eapply Henv; cbn; eauto 12|].
  destruct (assign_int_reads environ "RETRY_DELAY_MS" "1000" 1000 eq_refl)
    as (v4 & H4 & D4 & R4);
    [eapply Henv; cbn; eauto 12|].
  destruct (assign_int_reads environ "CONNECTION_RETRY_ATTEMPTS" "5" 5
              eq_refl) as (v5 & H5 & D5 & R5);
    [eapply Henv; cbn; eauto 12|].
  destruct (assign_int_reads environ "CONNECTION_RETRY_DELAY_MS" "2000" 2000
              eq_refl) as (v6 & H6 & D6 & R6);
    [eapply Henv; cbn; eauto 12|].
  destruct (assign_int_reads environ "OPERATION_RETRY_ATTEMPTS" "3" 3
              eq_refl) as (v7 & H7 & D7 & R7);
    [eapply Henv; cbn; eauto 12|].
  destruct (assign_int_reads environ "HEALTH_CHECK_INTERVAL_SECONDS" "30" 30
              eq_refl) as (v8 & H8 & D8 & R8);
    [eapply Henv; cbn; eauto 12|].
  destruct (assign_int_reads environ "RU_MANUAL_THROUGHPUT" "400" 400
              eq_refl) as (v9 & H9 & D9 & R9);
    [eapply Henv; cbn; eauto 12|].
  destruct (assign_int_reads environ "RU_AUTOSCALE_MAX_THROUGHPUT" "4000"
              4000 eq_refl) as (v10 & H10 & D10 & R10);
    [eapply Henv; cbn; eauto 14|].
  eexists. split.
  - unfold load_config, then_, assign. cbv beta iota.
    rewrite H1, H2, H3, H4, H5, H6, H7, H8. cbv beta iota.
    rewrite H9, H10. reflexivity.
  - intros key default attribute Hin. cbn in Hin.
    repeat (destruct Hin as [Heq|Hin];
            [try discriminate; inversion Heq; subst; clear Heq;
             split; assumption|]).
    contradiction.
Qed.

Lemma integer_settings_are_read_back_witness :
  exists loaded,
    load_config Examples2.small_batches default_config = (loaded, Ok tt)
    /\ batch_size loaded = 50%Z
    /\ timeout_ms loaded = 30000%Z
    /\ connection_retry_delay_ms loaded = (-1)%Z.
Proof.
  destruct (integer_settings_are_read_back Examples2.small_batches
              default_config) as (loaded & Hl & Hs).
  - intros key default attribute Hin. cbn in Hin.
    repeat (destruct Hin as [Heq|Hin];
            [inversion Heq; subst; clear Heq;
             first [ left; reflexivity
                   | right; exists "50", 50%Z; split; reflexivity
                   | right; exists "-1", (-1)%Z; split; reflexivity ]|]).
    contradiction.
  - exists loaded. split; [exact Hl|]. split; [|split].
    + apply (proj2 (Hs "BATCH_SIZE" 1000%Z batch_size
                       ltac:(cbn; eauto 12)) "50" 50%Z eq_refl eq_refl).
    + apply (proj1 (Hs "TIMEOUT_MS" 30000%Z timeout_ms
                       ltac:(cbn; eauto 12)) eq_refl).
    + apply (proj2 (Hs "CONNECTION_RETRY_DELAY_MS" 2000%Z
                       connection_retry_delay_ms
                       ltac:(cbn; eauto 12)) "-1" (-1)%Z eq_refl eq_refl).
Defined.

(** X23. Loading overwrites every attribute embedded here: a load that
    returns normally gives the same settings whatever the object held
    before, and with no variable set it gives the defaults of
    [__init__]. *)
Theorem loading_overwrites_every_setting (environ : Environ)
    (self other : Config) :
  snd (load_config environ self) = Ok tt ->
  load_config environ other = load_config environ self
  /\ load_config (fun _ => None) self = (default_config, Ok tt).
Proof.
  intros Hok. split.
  - revert Hok. unfold load_config, then_, assign, assign_int.
    cbv beta iota.
    repeat match goal with
           | |- context [py_int ?s] =>
             destruct (py_int s); cbn [snd]; [|discriminate]
           end.
    reflexivity.
  - reflexivity.
Qed.

Lemma loading_overwrites_every_setting_witness :
  load_config Examples2.small_batches Examples.ru_config
  = load_config Examples2.small_batches default_config
  /\ load_config (fun _ => None) default_config = (default_config, Ok tt).
Proof.
  exact (loading_overwrites_every_setting Examples2.small_batches
           default_config Examples.ru_config eq_refl).
Defined.

Lemma unreadable_integer_raises (environ : Environ)
    (self : Config) (key : string) (default : Z)
    (attribute : option (Config -> Z)) (value : string) (e : PyExc) :
  In (key, default, attribute) integer_settings ->
  environ key = Some value ->
  py_int value = Raise e ->
  (exists msg, snd (load_config environ self) = Raise (ValueError msg))
  /\ source_connection_string (fst (load_config environ self))
     = environ "SOURCE_CONNECTION_STRING"
  /\ dest_connection_string (fst (load_config environ self))
     = environ "DEST_CONNECTION_STRING"
  /\ ru_default_partition_key (fst (load_config environ self))
     = ru_default_partition_key self.
Proof.
  intros Hin Hkey Hval.
  assert (Hraise : py_int (getenv environ key (str_int default)) = Raise e)
    by (unfold getenv; now rewrite Hkey).
  unfold load_config, then_, assign, assign_int. cbv beta iota.
  cbn in Hin.
  repeat (destruct Hin as [Heq|Hin];
          [inversion Heq; subst; clear Heq;
           change (str_int 1000) with "1000" in Hraise;
           change (str_int 30000) with "30000" in Hraise;
           change (str_int 3) with "3" in Hraise;
           change (str_int 5) with "5" in Hraise;
           change (str_int 2000) with "2000" in Hraise;
           change (str_int 30) with "30" in Hraise;
           change (str_int 400) with "400" in Hraise;
           change (str_int 4000) with "4000" in Hraise;
           repeat match goal with
                  | |- context [py_int ?s] =>
                    let H := fresh "Hp" in
                    destruct (py_int s) as [?|?] eqn:H;
                    [|apply py_int_raises in H; destruct H as [? ->];
                      cbn [fst snd source_connection_string
                           dest_connection_string ru_default_partition_key
                           set_connection_strings set_use_managed_identity
                           set_batch_size set_timeout_ms
                           set_connection_retry_attempts
                           set_connection_retry_delay_ms
                           set_operation_retry_attempts
                           set_health_check_interval_seconds
                           set_target_is_vcore set_ru_throughput_mode
                           set_ru_manual_throughput
                           set_ru_autoscale_max_throughput];
                      repeat split; eauto]
                  end;
           try congruence|]).
  contradiction.
Qed.

(** X24. One integer variable that holds an ASCII text [int] cannot
    read makes [load_config] raise [ValueError], whatever the other
    variables hold.  The object is left half updated: the connection
    strings are those of the environment already, while the last
    attribute assigned, the default partition key, still has its old
    value. *)
Theorem unreadable_integer_aborts_loading (environ : Environ)
    (self : Config) (key : string) (default : Z)
    (attribute : option (Config -> Z)) (value : string) (e : PyExc) :
  In (key, default, attribute) integer_settings ->
  environ key = Some value ->
  is_ascii value = true ->
  py_int value = Raise e ->
  (exists msg, snd (load_config environ self) = Raise (ValueError msg))
  /\ source_connection_string (fst (load_config environ self))
     = environ "SOURCE_CONNECTION_STRING"
  /\ dest_connection_string (fst (load_config environ self))
     = environ "DEST_CONNECTION_STRING"
  /\ ru_default_partition_key (fst (load_config environ self))
     = ru_default_partition_key self.
Proof.
  intros Hin Hkey _ Hval.
  exact (unreadable_integer_raises environ self key default attribute value
           e Hin Hkey Hval).
Qed.

Lemma unreadable_integer_aborts_loading_witness :
  (exists msg,
      snd (load_config Examples2.batch_size_in_words Examples.ru_config)
      = Raise (ValueError msg))
  /\ source_connection_string
       (fst (load_config Examples2.batch_size_in_words Examples.ru_config))
     = Examples2.batch_size_in_words "SOURCE_CONNECTION_STRING"
  /\ dest_connection_string
       (fst (load_config Examples2.batch_size_in_words Examples.ru_config))
     = Examples2.batch_size_in_words "DEST_CONNECTION_STRING"
  /\ ru_default_partition_key
       (fst (load_config Examples2.batch_size_in_words Examples.ru_config))
     = ru_default_partition_key Examples.ru_config.
Proof.
  refine (unreadable_integer_aborts_loading Examples2.batch_size_in_words
            Examples.ru_config "BATCH_SIZE" 1000%Z (Some batch_size)
            "one thousand"
            (ValueError
               "invalid literal for int() with base 10: 'one thousand'")
            _ _ _ _).
  - left. reflexivity.
  - reflexivity.
  - reflexivity.
  - reflexivity.
Defined.

End ConfigExtras.

(** ** Starting the tool *)

Module StartupExtras.

Import ConnectionManager ConfigLoader Startup.

Local Open Scope list_scope.

(** Connecting changes nothing of the configuration but, after a
    prompt, the connection string of the role. *)
Lemma fresh_source_connection_config (env : Env) (self : t) (w : World) :
  exists typed,
    config (fst (fst (fresh_source_connection env self w)))
    = update_connection_strings (config self) typed None.
Proof.
  unfold fresh_source_connection.
  destruct (negb (truthy (source_connection_string (config self)))
            && negb (use_managed_identity (config self))).
  - eexists (Some _).
    cbn [config set_config update_connection_strings use_managed_identity].
    destruct (use_managed_identity (config self)); [reflexivity|].
    match goal with
    | |- context [_create_mongo_client_with_retry ?e ?c ?cs ?ct ?w] =>
      destruct (_create_mongo_client_with_retry e c cs ct w) as [w' [c'|e']]
    end; reflexivity.
  - exists None. destruct self as [cfg sc dc sh dh].
    cbn [config]. destruct (use_managed_identity cfg);
      [now destruct cfg|].
    match goal with
    | |- context [_create_mongo_client_with_retry ?e ?c ?cs ?ct ?w] =>
      destruct (_create_mongo_client_with_retry e c cs ct w) as [w' [c'|e']]
    end; now destruct cfg.
Qed.

Lemma fresh_dest_connection_config (env : Env) (self : t) (w : World) :
  exists typed,
    config (fst (fst (fresh_dest_connection env self w)))
    = update_connection_strings (config self) None typed.
Proof.
  unfold fresh_dest_connection.
  destruct (negb (truthy (dest_connection_string (config self)))
            && negb (use_managed_identity (config self))).
  - eexists (Some _).
    cbn [config set_config update_connection_strings use_managed_identity].
    destruct (use_managed_identity (config self)); [reflexivity|].
    match goal with
    | |- context [_create_mongo_client_with_retry ?e ?c ?cs ?ct ?w] =>
      destruct (_create_mongo_client_with_retry e c cs ct w) as [w' [c'|e']]
    end; reflexivity.
  - exists None. destruct self as [cfg sc dc sh dh].
    cbn [config]. destruct (use_managed_identity cfg);
      [now destruct cfg|].
    match goal with
    | |- context [_create_mongo_client_with_retry ?e ?c ?cs ?ct ?w] =>
      destruct (_create_mongo_client_with_retry e c cs ct w) as [w' [c'|e']]
    end; now destruct cfg.
Qed.

(** The detection can change the target type and nothing else. *)
Lemma init_keeps_the_settings {X : Type} (probe : Probe X) (cfg : Config)
    (connection_manager : bool) (batch_size : Z) (x : X) :
  let service := snd (__init__ probe cfg connection_manager batch_size x) in
  MigrationService.batch_size service = batch_size
  /\ MigrationService.connection_manager service = connection_manager
  /\ exists target,
      MigrationService.config service = set_target_is_vcore target cfg.
Proof.
  cbv zeta. unfold __init__.
  destruct (detect_cosmos_db_type probe x) as [x' detected].
  cbn [snd MigrationService.batch_size MigrationService.connection_manager
       MigrationService.config].
  split; [reflexivity|]. split; [reflexivity|].
  destruct (String.eqb detected "ru"); [now exists false|].
  destruct (String.eqb detected "vcore"); [now exists true|].
  exists (target_is_vcore cfg). now destruct cfg.
Qed.

Section Main.

Context {X : Type}.
Variable environ : Environ.
Variable env : Env.
Variable probe : Probe X.
Variable run_interactive_mode :
  MigrationService.service -> State X -> State X * result unit.

(** X25. An integer setting that holds an ASCII text [int] cannot read
    ends [main] with exit code 1 before anything else happens: no
    manager is built, no connection is tried, nobody is prompted and the
    menu is never shown. *)
Theorem unreadable_setting_stops_main_at_once (w : World) (x : X)
    (key : string) (default : Z) (attribute : option (Config -> Z))
    (value : string) (e : PyExc) :
  In (key, default, attribute) integer_settings ->
  environ key = Some value ->
  is_ascii value = true ->
  py_int value = Raise e ->
  main environ env probe run_interactive_mode w x = mkExit 1 None None.
Proof.
  intros Hin Hkey _ Hval.
  destruct (ConfigExtras.unreadable_integer_raises environ default_config
              key default attribute value e Hin Hkey Hval)
    as ((msg & Hraise) & _).
  unfold main.
  destruct (load_config environ default_config) as [cfg r].
  cbn [snd] in Hraise. now subst r.
Qed.

(** X26. When the source cannot be reached [main] gives up with exit code 1
    and leaves the destination alone: no try is made beyond those for
    the source (at most [connection_retry_attempts] of them), the
    destination has no handle, no service is built, the menu is never
    shown and the stores are not touched. *)
Theorem main_gives_up_without_the_source (w : World) (x : X)
    (loaded : Config) :
  load_config environ default_config = (loaded, Ok tt) ->
  snd (connect_to_source env (init loaded) w) = None ->
  let r := main environ env probe run_interactive_mode w x in
  exit_code r = 1%Z
  /\ started r = None
  /\ exists s,
      reached r = Some s
      /\ (cm s, io s) = fst (connect_to_source env (init loaded) w)
      /\ ext s = x
      /\ source_client (cm s) = None
      /\ dest_client (cm s) = None
      /\ (tries (io s)
          <= tries w + Z.to_nat (connection_retry_attempts loaded))%nat.
Proof.
  intros Hload Hnone. cbv zeta. unfold main. rewrite Hload.
  pose proof (ConnectionExtras.fresh_source_connection_invariants env
                (init loaded) w) as Hinv.
  cbv zeta in Hinv.
  change (connect_to_source env (init loaded) w)
    with (fresh_source_connection env (init loaded) w) in *.
  destruct (fresh_source_connection env (init loaded) w)
    as [[self1 w1] handle].
  cbn [fst snd] in *. subst handle.
  destruct Hinv as (Hs & Hd & _ & _ & Ht & _).
  cbn [exit_code started reached].
  split; [reflexivity|]. split; [reflexivity|].
  eexists. split; [reflexivity|]. cbn [cm io ext].
  cbn [config init dest_client] in Ht, Hd.
  repeat split; try congruence. lia.
Qed.

(** X27. Whenever [main] starts a service, the service has a manager and
    writes in batches of 1000: the batch size of the configuration, and
    so the [BATCH_SIZE] variable, plays no part, while the retry
    settings of the configuration the service holds are those that were
    loaded. *)
Theorem main_starts_the_service_with_batches_of_1000 (w : World) (x : X)
    (service : MigrationService.service) :
  started (main environ env probe run_interactive_mode w x) = Some service ->
  MigrationService.batch_size service = 1000%Z
  /\ MigrationService.connection_manager service = true
  /\ exists loaded,
      load_config environ default_config = (loaded, Ok tt)
      /\ batch_size (MigrationService.config service) = batch_size loaded
      /\ operation_retry_attempts (MigrationService.config service)
         = operation_retry_attempts loaded
      /\ connection_retry_attempts (MigrationService.config service)
         = connection_retry_attempts loaded.
Proof.
  unfold main.
  destruct (load_config environ default_config) as [loaded [[]|e]] eqn:Hload;
    [|discriminate].
  change (connect_to_source env (init loaded) w)
    with (fresh_source_connection env (init loaded) w).
  destruct (fresh_source_connection_config env (init loaded) w)
    as [typed1 Hc1].
  destruct (fresh_source_connection env (init loaded) w)
    as [[self1 w1] [c1|]]; [|discriminate].
  cbn [fst] in Hc1.
  pose proof (fresh_dest_connection_config env) as Hc2.
  unfold connect_to_destination.
  assert (Hcfg :
    forall r : t * World * option Client,
      (r = match dest_client self1 with
           | Some c =>
             if is_dest_healthy self1 then (self1, w1, Some c)
             else fresh_dest_connection env
                    (set_dest self1 None (_dest_healthy self1))
                    (close_client c w1)
           | None => fresh_dest_connection env self1 w1
           end) ->
      exists typed2,
        config (fst (fst r))
        = update_connection_strings (config self1) None typed2).
  { intros r ->. destruct (dest_client self1) as [c|].
    - destruct (is_dest_healthy self1).
      + exists None. cbn [fst]. now destruct (config self1).
      + exact (Hc2 (set_dest self1 None (_dest_healthy self1))
                   (close_client c w1)).
    - exact (Hc2 self1 w1). }
  specialize (Hcfg _ eq_refl). destruct Hcfg as [typed2 Hc2'].
  destruct (match dest_client self1 with
            | Some c => _
            | None => _
            end) as [[self2 w2] [c2|]]; [|discriminate].
  cbn [fst] in Hc2'.
  pose proof (init_keeps_the_settings probe (config self2) true 1000 x)
    as Hinit. cbv zeta in Hinit.
  destruct (__init__ probe (config self2) true 1000 x) as [x' svc].
  cbn [snd] in Hinit. destruct Hinit as (Hb & Hm & target & Hcfg).
  intros Hstarted.
  assert (service = svc).
  { destruct (run_interactive_mode svc _) as [s [u|e]];
      cbn [started] in Hstarted; congruence. }
  subst svc. split; [exact Hb|]. split; [exact Hm|].
  exists loaded. split; [reflexivity|].
  rewrite Hcfg, Hc2', Hc1. cbn [init config]. repeat split.
Qed.

End Main.

Lemma unreadable_setting_stops_main_at_once_witness :
  main Examples2.batch_size_in_words Examples.always_up
    Examples2.plain_mongodb Examples2.quits_at_once initial_world 0%nat
  = mkExit 1 None None.
Proof.
  refine (unreadable_setting_stops_main_at_once
            Examples2.batch_size_in_words Examples.always_up
            Examples2.plain_mongodb Examples2.quits_at_once initial_world
            0%nat "BATCH_SIZE" 1000%Z (Some batch_size) "one thousand"
            (ValueError
               "invalid literal for int() with base 10: 'one thousand'")
            _ _ _ _).
  - left. reflexivity.
  - reflexivity.
  - reflexivity.
  - reflexivity.
Defined.

Lemma main_gives_up_without_the_source_witness :
  let r := main Examples2.both_given Examples.always_down
             Examples2.plain_mongodb Examples2.quits_at_once initial_world
             0%nat in
  exit_code r = 1%Z
  /\ started r = None
  /\ exists s,
      reached r = Some s
      /\ (cm s, io s)
         = fst (connect_to_source Examples.always_down
                  (init Examples.configured) initial_world)
      /\ ext s = 0%nat
      /\ source_client (cm s) = None
      /\ dest_client (cm s) = None
      /\ (tries (io s)
          <= tries initial_world
             + Z.to_nat (connection_retry_attempts Examples.configured))%nat.
Proof.
  refine (main_gives_up_without_the_source Examples2.both_given
            Examples.always_down Examples2.plain_mongodb
            Examples2.quits_at_once initial_world 0%nat
            Examples.configured _ _); reflexivity.
Defined.

Lemma main_starts_the_service_with_batches_of_1000_witness :
  started (main Examples2.small_batches Examples.always_up
             Examples2.plain_mongodb Examples2.quits_at_once
             initial_world 0%nat) = Some Examples2.started_with_small_batches
  /\ MigrationService.batch_size Examples2.started_with_small_batches
     = 1000%Z
  /\ batch_size (MigrationService.config Examples2.started_with_small_batches)
     = 50%Z.
Proof.
  assert (H : started (main Examples2.small_batches Examples.always_up
                         Examples2.plain_mongodb Examples2.quits_at_once
                         initial_world 0%nat)
              = Some Examples2.started_with_small_batches)
    by (vm_compute; reflexivity).
  destruct (main_starts_the_service_with_batches_of_1000
              Examples2.small_batches Examples.always_up
              Examples2.plain_mongodb Examples2.quits_at_once
              initial_world 0%nat Examples2.started_with_small_batches H)
    as (Hb & _ & _).
  split; [exact H|]. split; [exact Hb|reflexivity].
Defined.

End StartupExtras.
